(** * SoundCloud stream selection and metadata reconciliation

    A shallow embedding of [soundcloud.py]: the transcoding selector
    ([filter_transcodings], [guess_container_from_mime],
    [soundcloud_download_track]) and the metadata resolver
    ([soundcloud_get_track_metadata]).

    The records the code handles are untyped JSON, and much of its behaviour
    is decided by which Python exception an ill-shaped record raises and
    which [except] clause catches it.  The embedding therefore keeps Python's
    dynamic values ([pyval]) and models every operation the source performs on
    them as a function into an error monad ([result]). *)

From Stdlib Require Import String Ascii List ZArith Bool Lia DecimalString.
From Stdlib Require Import DecimalPos DecimalZ.
Import ListNotations.
Local Open Scope string_scope.
Local Open Scope Z_scope.

(** ** Python exceptions and the error monad *)

Inductive exn : Type :=
| KeyError
| TypeError
| AttributeError
| IndexError
| Exception (msg : string)      (* raise Exception("...") *)
| TransportError (name : string) (* anything raised inside the HTTP layer *).

Inductive result (A : Type) : Type :=
| Ok (a : A)
| Raise (e : exn).
Arguments Ok {A} a.
Arguments Raise {A} e.

Definition bind {A B : Type} (m : result A) (k : A -> result B) : result B :=
  match m with
  | Ok a => k a
  | Raise e => Raise e
  end.

Notation "x <- m ;; k" := (bind m (fun x => k))
  (at level 61, m at next level, right associativity).
Notation "' pat <- m ;; k" := (bind m (fun x => match x with pat => k end))
  (at level 61, pat pattern, m at next level, right associativity).

(** [try: m except h]: the handler [h] says which exceptions it catches. *)
Definition try_except {A : Type} (m : result A) (h : exn -> option (result A))
  : result A :=
  match m with
  | Ok a => Ok a
  | Raise e => match h e with Some r => r | None => Raise e end
  end.

Definition is_ok {A : Type} (m : result A) : bool :=
  match m with Ok _ => true | Raise _ => false end.

(** ** Strings

    A Python [str] is modelled by the sequence of its UTF-8 bytes.  Substring
    search, prefix tests and splitting on an ASCII separator agree on bytes
    and on code points.  [lower] acts on the ASCII range: no character
    outside it lowercases to a letter the source searches for (those of
    "mpeg", "mp4" and "ogg").  [strip] removes the whitespace characters of
    [str.isspace], those outside ASCII by the bytes that encode them; in
    UTF-8 no such encoding starts inside another character. *)

Module Str.

Definition dquote : ascii := "034"%char.
Definition newline : ascii := "010"%char.

Fixpoint startswith (p s : string) : bool :=
  match p, s with
  | EmptyString, _ => true
  | String a p', String b s' => Ascii.eqb a b && startswith p' s'
  | String _ _, EmptyString => false
  end.

(** [needle in s] *)
Fixpoint contains (needle s : string) : bool :=
  startswith needle s ||
  match s with
  | EmptyString => false
  | String _ s' => contains needle s'
  end.

(** [s.find(needle)]: index of the first occurrence, [-1] if none. *)
Fixpoint find (needle s : string) : Z :=
  if startswith needle s then 0
  else match s with
       | EmptyString => -1
       | String _ s' =>
           let r := find needle s' in
           if r =? -1 then -1 else r + 1
       end.

Fixpoint drop (n : nat) (s : string) : string :=
  match n, s with
  | O, _ => s
  | S n', String _ s' => drop n' s'
  | S _, EmptyString => EmptyString
  end.

(** [s[i:]], with Python's reading of a negative index. *)
Definition slice_from (i : Z) (s : string) : string :=
  if i <? 0
  then drop (Z.to_nat (Z.max 0 (Z.of_nat (String.length s) + i))) s
  else drop (Z.to_nat i) s.

Definition lower_char (c : ascii) : ascii :=
  let n := nat_of_ascii c in
  if (Nat.leb 65 n && Nat.leb n 90)%bool then ascii_of_nat (n + 32) else c.

Fixpoint lower (s : string) : string :=
  match s with
  | EmptyString => EmptyString
  | String c s' => String (lower_char c) (lower s')
  end.

(** [c.isspace()] for a character of the ASCII range: U+0009-000D,
    U+001C-001F and the space. *)
Definition is_space (c : ascii) : bool :=
  let n := nat_of_ascii c in
  ((Nat.leb 9 n && Nat.leb n 13) || (Nat.leb 28 n && Nat.leb n 32))%bool.

(** The whitespace characters of two UTF-8 bytes: U+0085 (C2 85) and
    U+00A0 (C2 A0). *)
Definition is_space2 (c1 c2 : ascii) : bool :=
  let b1 := nat_of_ascii c1 in
  let b2 := nat_of_ascii c2 in
  (Nat.eqb b1 194 && (Nat.eqb b2 133 || Nat.eqb b2 160))%bool.

(** The whitespace characters of three UTF-8 bytes: U+1680 (E1 9A 80),
    U+2000-200A, U+2028, U+2029 and U+202F (E2 80 80-8A, A8, A9, AF),
    U+205F (E2 81 9F) and U+3000 (E3 80 80). *)
Definition is_space3 (c1 c2 c3 : ascii) : bool :=
  let b1 := nat_of_ascii c1 in
  let b2 := nat_of_ascii c2 in
  let b3 := nat_of_ascii c3 in
  ((Nat.eqb b1 225 && Nat.eqb b2 154 && Nat.eqb b3 128)
   || (Nat.eqb b1 226 && Nat.eqb b2 128
       && ((Nat.leb 128 b3 && Nat.leb b3 138)
           || Nat.eqb b3 168 || Nat.eqb b3 169 || Nat.eqb b3 175))
   || (Nat.eqb b1 226 && Nat.eqb b2 129 && Nat.eqb b3 159)
   || (Nat.eqb b1 227 && Nat.eqb b2 128 && Nat.eqb b3 128))%bool.

(** [s.lstrip()]: the whitespace characters at the head of [s] are dropped,
    each with all the bytes that encode it. *)
Fixpoint lstrip (s : string) : string :=
  match s with
  | EmptyString => s
  | String c1 s1 =>
      if is_space c1 then lstrip s1
      else
        match s1 with
        | EmptyString => s
        | String c2 s2 =>
            if is_space2 c1 c2 then lstrip s2
            else
              match s2 with
              | EmptyString => s
              | String c3 s3 => if is_space3 c1 c2 c3 then lstrip s3 else s
              end
        end
  end.

(** [s.rstrip()]: [s] is cut at the first place from which on it holds
    whitespace only. *)
Fixpoint rstrip (s : string) : string :=
  match s with
  | EmptyString => EmptyString
  | String c s' =>
      if String.eqb (lstrip s) "" then EmptyString else String c (rstrip s')
  end.

Definition strip (s : string) : string := rstrip (lstrip s).

(** The string of the given bytes. *)
Definition of_bytes (bytes : list Z) : string :=
  string_of_list_ascii (map (fun b => ascii_of_nat (Z.to_nat b)) bytes).

(** [s.split(sep)] for a one-character separator; never the empty list. *)
Fixpoint split (sep : ascii) (s : string) : list string :=
  match s with
  | EmptyString => [EmptyString]
  | String c s' =>
      if Ascii.eqb c sep then EmptyString :: split sep s'
      else match split sep s' with
           | h :: t => String c h :: t
           | [] => [String c EmptyString]
           end
  end.

Definition of_Z (z : Z) : string := NilZero.string_of_int (Z.to_int z).

(** The text up to the first character satisfying [stop], when there is
    one. *)
Fixpoint take_until (stop : ascii -> bool) (s : string) : option string :=
  match s with
  | EmptyString => None
  | String c s' =>
      if stop c then Some EmptyString
      else option_map (String c) (take_until stop s')
  end.

Fixpoint drop_through (stop : ascii -> bool) (s : string) : option string :=
  match s with
  | EmptyString => None
  | String c s' => if stop c then Some s' else drop_through stop s'
  end.

(** [re.search] for the href pattern (the text [href=], a double quote, a
    captured run of characters other than the double quote, a double
    quote): [group(1)] of the leftmost match. *)
Definition match_href_here (s : string) : option string :=
  if startswith ("href=" ++ String dquote EmptyString) s
  then take_until (Ascii.eqb dquote) (drop 6 s)
  else None.

Fixpoint search_href (s : string) : option string :=
  match match_href_here s with
  | Some g => Some g
  | None => match s with
            | EmptyString => None
            | String _ s' => search_href s'
            end
  end.

(** The lazy captured group followed by the closing tag: the group grows
    one character at a time, and its dot does not match a newline. *)
Fixpoint lazy_to_close (s : string) : option string :=
  if startswith "</a>" s then Some EmptyString
  else match s with
       | EmptyString => None
       | String c s' =>
           if Ascii.eqb c newline then None
           else option_map (String c) (lazy_to_close s')
       end.

(** [re.search] for the anchor pattern (the text [<a], a run of characters
    other than [>], a [>], the lazy captured group, the closing tag):
    [group(1)] of the leftmost match. *)
Definition match_a_tag_here (s : string) : option string :=
  if startswith "<a" s
  then match drop_through (Ascii.eqb ">"%char) (drop 2 s) with
       | Some body => lazy_to_close body
       | None => None
       end
  else None.

Fixpoint search_a_tag (s : string) : option string :=
  match match_a_tag_here s with
  | Some g => Some g
  | None => match s with
            | EmptyString => None
            | String _ s' => search_a_tag s'
            end
  end.

(** [posixpath.splitext]: the extension starts at the last dot of the last
    path component, leading dots of that component not counted. *)
Fixpoint rfind_char (c : ascii) (s : string) : Z :=
  match s with
  | EmptyString => -1
  | String a s' =>
      let r := rfind_char c s' in
      if r =? -1 then (if Ascii.eqb a c then 0 else -1) else r + 1
  end.

Fixpoint take (n : nat) (s : string) : string :=
  match n, s with
  | O, _ => EmptyString
  | S n', String c s' => String c (take n' s')
  | S _, EmptyString => EmptyString
  end.

(** Is some character of [s] at an index in [[from, upto)] not a dot? *)
Definition non_dot_between (s : string) (from upto : Z) : bool :=
  negb (forallb (Ascii.eqb "."%char)
          (list_ascii_of_string
             (take (Z.to_nat (upto - from)) (drop (Z.to_nat from) s)))).

Definition splitext (p : string) : string * string :=
  let sepIndex := rfind_char "/"%char p in
  let dotIndex := rfind_char "."%char p in
  if (sepIndex <? dotIndex) && non_dot_between p (sepIndex + 1) dotIndex
  then (take (Z.to_nat dotIndex) p, drop (Z.to_nat dotIndex) p)
  else (p, EmptyString).

End Str.

(** ** Python values

    The JSON values [json.loads] produces.  A [dict] keeps its items in
    insertion order; a key occurs once.  Numbers are the integers the records
    carry (ids, counts, durations in milliseconds). *)

#[warnings="-register-all"]
Inductive pyval : Type :=
| PyNone
| PyBool (b : bool)
| PyInt (z : Z)
| PyStr (s : string)
| PyList (l : list pyval)
| PyDict (d : list (string * pyval)).

Module Py.

Fixpoint lookup (k : string) (d : list (string * pyval)) : option pyval :=
  match d with
  | [] => None
  | (k', v) :: d' => if String.eqb k k' then Some v else lookup k d'
  end.

(** [d[k] = v] on a dict: replaces in place, or appends a new item. *)
Fixpoint set_item (k : string) (v : pyval) (d : list (string * pyval))
  : list (string * pyval) :=
  match d with
  | [] => [(k, v)]
  | (k', v') :: d' =>
      if String.eqb k k' then (k, v) :: d' else (k', v') :: set_item k v d'
  end.

(** [bool(v)] *)
Definition truthy (v : pyval) : bool :=
  match v with
  | PyNone => false
  | PyBool b => b
  | PyInt z => negb (z =? 0)
  | PyStr s => negb (String.eqb s "")
  | PyList l => match l with [] => false | _ :: _ => true end
  | PyDict d => match d with [] => false | _ :: _ => true end
  end.

(** [a == b]; a [bool] compares as the integer it is. *)
Fixpoint eq (a b : pyval) {struct a} : bool :=
  match a, b with
  | PyNone, PyNone => true
  | PyBool x, PyBool y => Bool.eqb x y
  | PyBool x, PyInt y => (if x then 1 else 0) =? y
  | PyInt x, PyBool y => x =? (if y then 1 else 0)
  | PyInt x, PyInt y => x =? y
  | PyStr x, PyStr y => String.eqb x y
  | PyList xs, PyList ys =>
      (fix go (xs ys : list pyval) {struct xs} : bool :=
         match xs, ys with
         | [], [] => true
         | x :: xs', y :: ys' => eq x y && go xs' ys'
         | _, _ => false
         end) xs ys
  | PyDict d1, PyDict d2 =>
      Nat.eqb (List.length d1) (List.length d2) &&
      (fix go (d : list (string * pyval)) {struct d} : bool :=
         match d with
         | [] => true
         | (k, v) :: d' =>
             match lookup k d2 with
             | Some w => eq v w
             | None => false
             end && go d'
         end) d1
  | _, _ => false
  end.

(** [d.get(k, default)]: only a dict has [get]. *)
Definition get (v : pyval) (k : string) (default : pyval) : result pyval :=
  match v with
  | PyDict d => Ok (match lookup k d with Some x => x | None => default end)
  | _ => Raise AttributeError
  end.

(** [v[k]] for a string key [k]. *)
Definition getitem (v : pyval) (k : string) : result pyval :=
  match v with
  | PyDict d => match lookup k d with
                | Some x => Ok x
                | None => Raise KeyError
                end
  | _ => Raise TypeError
  end.

(** [v[0]].  A dict of a JSON record has no key [0]. *)
Definition first (v : pyval) : result pyval :=
  match v with
  | PyList (x :: _) => Ok x
  | PyList [] => Raise IndexError
  | PyStr (String c _) => Ok (PyStr (String c EmptyString))
  | PyStr EmptyString => Raise IndexError
  | PyDict _ => Raise KeyError
  | _ => Raise TypeError
  end.

(** The items a [for] loop over [v] visits: the elements of a list, the
    keys of a dict, the characters of a string. *)
Definition iter (v : pyval) : result (list pyval) :=
  match v with
  | PyList l => Ok l
  | PyDict d => Ok (map (fun kv => PyStr (fst kv)) d)
  | PyStr s =>
      Ok (map (fun c => PyStr (String c EmptyString)) (list_ascii_of_string s))
  | _ => Raise TypeError
  end.

(** [len(v)] *)
Definition len (v : pyval) : result Z :=
  match v with
  | PyList l => Ok (Z.of_nat (List.length l))
  | PyDict d => Ok (Z.of_nat (List.length d))
  | PyStr s => Ok (Z.of_nat (String.length s))
  | _ => Raise TypeError
  end.

(** [needle in v] for a string [needle]. *)
Definition contains (needle : string) (v : pyval) : result bool :=
  match v with
  | PyStr s => Ok (Str.contains needle s)
  | PyList l => Ok (existsb (eq (PyStr needle)) l)
  | PyDict d => Ok (match lookup needle d with Some _ => true | None => false end)
  | _ => Raise TypeError
  end.

(** String methods: only a [str] has them. *)
Definition as_str (v : pyval) : result string :=
  match v with
  | PyStr s => Ok s
  | _ => Raise AttributeError
  end.

Definition startswith (v : pyval) (p : string) : result bool :=
  s <- as_str v ;; Ok (Str.startswith p s).

Definition lower (v : pyval) : result string :=
  s <- as_str v ;; Ok (Str.lower s).

Definition split (v : pyval) (sep : ascii) : result (list string) :=
  s <- as_str v ;; Ok (Str.split sep s).

End Py.

(** ** The module [soundcloud.py] *)

Definition BASE_URL : string := "https://api-v2.soundcloud.com".

(** The token record of [soundcloud_get_token]. *)
Record token : Type := {
  client_id : string;
  app_version : string;
  app_locale : string;
  oauth_token : option string
}.

(** What [requests.get] hands back: the status line and the outcome of
    decoding the body with [.json()]. *)
Record response : Type := {
  status_code : Z;
  json : result pyval
}.

Section Soundcloud.

(** The collaborators the module imports: [requests.get] (called with the
    URL and the token its headers and [params] are built from), and from
    [..utils] the cached fetch [make_call] (called with the URL, the token
    when [headers] and [params] are passed, and the [text] flag) and the
    list-join convention [conv_list_format].  Their code is not part of this
    module; each is any function whose call may return a value or raise. *)
Variable requests_get : string -> token -> result response.
Variable make_call : string -> option token -> bool -> result pyval.
Variable conv_list_format : pyval -> result pyval.

(** [repr] of a list or dict, which [str] falls back on. *)
Variable repr : pyval -> string.

(** [str(v)], also what an f-string field renders. *)
Definition str (v : pyval) : string :=
  match v with
  | PyStr s => s
  | PyInt z => Str.of_Z z
  | PyNone => "None"
  | PyBool true => "True"
  | PyBool false => "False"
  | PyList _ | PyDict _ => repr v
  end.

(** [response.raise_for_status()] *)
Definition raise_for_status (r : response) : result unit :=
  if (400 <=? status_code r) && (status_code r <? 600)
  then Raise (TransportError "HTTPError")
  else Ok tt.

(** Lines 482-498. *)
Definition soundcloud_fetch_track_data (tok : token) (item_id : string)
  : result pyval :=
  let url := BASE_URL ++ "/tracks/" ++ item_id in
  track_data <- requests_get url tok ;;
  _ <- raise_for_status track_data ;;
  json track_data.

(** Lines 501-514. *)
Definition guess_container_from_mime (mime_type : pyval) : result string :=
  mime_type <- Py.lower mime_type ;;
  if Str.contains "mpeg" mime_type then Ok "mp3"
  else if Str.contains "mp4" mime_type then Ok "m4a"
  else if Str.contains "ogg" mime_type then Ok "ogg"
  else Ok "mp3".

(** The body of the loop of [filter_transcodings] (lines 520-530): is [t]
    appended? *)
Definition keeps (quality preset_prefix : option string) (t : pyval)
  : result bool :=
  format <- Py.get t "format" (PyDict []) ;;
  protocol <- Py.get format "protocol" (PyStr "") ;;
  encrypted <- Py.contains "encrypted" protocol ;;
  if encrypted then Ok false
  else
    wrong_quality <-
      match quality with
      | None => Ok false
      | Some q => have <- Py.get t "quality" PyNone ;;
                  Ok (negb (Py.eq have (PyStr q)))
      end ;;
    if wrong_quality then Ok false
    else
      wrong_preset <-
        match preset_prefix with
        | None => Ok false
        | Some p => preset <- Py.get t "preset" (PyStr "") ;;
                    starts <- Py.startswith preset p ;;
                    Ok (negb starts)
        end ;;
      if wrong_preset then Ok false else Ok true.

Fixpoint filter_loop (quality preset_prefix : option string)
    (ts : list pyval) : result (list pyval) :=
  match ts with
  | [] => Ok []
  | t :: rest =>
      keep <- keeps quality preset_prefix t ;;
      filtered <- filter_loop quality preset_prefix rest ;;
      Ok (if keep then t :: filtered else filtered)
  end.

(** Lines 516-532. *)
Definition filter_transcodings (transcodings_list : pyval)
    (quality preset_prefix : option string) : result (list pyval) :=
  ts <- Py.iter transcodings_list ;;
  filter_loop quality preset_prefix ts.

(** The fields the debug line of one transcoding reads (lines 558-564): an
    f-string is evaluated whatever the log level. *)
Definition debug_transcoding (t : pyval) : result unit :=
  _ <- Py.get t "preset" PyNone ;;
  _ <- Py.get t "quality" PyNone ;;
  format <- Py.get t "format" (PyDict []) ;;
  _ <- Py.get format "mime_type" PyNone ;;
  format <- Py.get t "format" (PyDict []) ;;
  _ <- Py.get format "protocol" PyNone ;;
  _ <- Py.get t "url" PyNone ;;
  Ok tt.

Fixpoint debug_loop (ts : list pyval) : result unit :=
  match ts with
  | [] => Ok tt
  | t :: rest => _ <- debug_transcoding t ;; debug_loop rest
  end.

(** [candidates[0]] when the list of candidates is not empty. *)
Definition first_or (candidates : list pyval) (otherwise : pyval) : pyval :=
  match candidates with
  | c :: _ => c
  | [] => otherwise
  end.

(** "2) Choose the best transcoding", up to the final [raise] (lines
    566-595). *)
Definition choose_transcoding (transcodings : pyval) (hq : bool)
  : result pyval :=
  let chosen := PyNone in
  chosen <-
    (if hq
     then hq_candidates <- filter_transcodings transcodings (Some "hq") None ;;
          Ok (first_or hq_candidates chosen)
     else Ok chosen) ;;
  chosen <-
    (if negb (Py.truthy chosen)
     then
       aac_candidates <- filter_transcodings transcodings None (Some "aac_") ;;
       match aac_candidates with
       | c :: _ => Ok c
       | [] =>
           mp3_candidates <- filter_transcodings transcodings None (Some "mp3_") ;;
           match mp3_candidates with
           | c :: _ => Ok c
           | [] =>
               opus_candidates <-
                 filter_transcodings transcodings None (Some "opus_") ;;
               Ok (first_or opus_candidates chosen)
           end
       end
     else Ok chosen) ;;
  if negb (Py.truthy chosen)
  then Raise (Exception "No suitable transcoding found.")
  else Ok chosen.

(** The selection of [soundcloud_download_track]: from the emptiness test
    on the transcodings to the chosen one (lines 552-595). *)
Definition select_transcoding (transcodings : pyval) (hq : bool)
  : result pyval :=
  if negb (Py.truthy transcodings)
  then Raise (Exception "No transcodings found or track not streamable.")
  else
    _ <- Py.len transcodings ;;
    ts <- Py.iter transcodings ;;
    _ <- debug_loop ts ;;
    choose_transcoding transcodings hq.

(** The fields the "Chosen transcoding" line reads (lines 597-599). *)
Definition log_chosen (chosen : pyval) : result unit :=
  _ <- Py.getitem chosen "preset" ;;
  _ <- Py.get chosen "quality" PyNone ;;
  format <- Py.getitem chosen "format" ;;
  _ <- Py.getitem format "protocol" ;;
  format <- Py.getitem chosen "format" ;;
  _ <- Py.getitem format "mime_type" ;;
  Ok tt.

(** The output path (lines 604-608); [os.path.splitext] is read as
    [posixpath.splitext]. *)
Definition derive_output_path (item_id container : string)
    (output_path : option string) : string :=
  let given := match output_path with Some p => p | None => "" end in
  let '(base_path, original_ext) := Str.splitext given in
  if String.eqb given ""
  then "soundcloud_" ++ item_id ++ "." ++ container
  else base_path ++ "." ++ container.

(** Lines 535-610.  The only [return] of the function (line 610) stands
    inside the [else] branch of the path derivation: with an output path the
    function returns the pair of the derived path and the chosen
    transcoding; without one ([None] or the empty string) it derives the
    path, falls off its end and returns [None]. *)
Definition soundcloud_download_track (tok : token) (item_id : string)
    (hq : bool) (output_path : option string)
  : result (option (string * pyval)) :=
  track_data <- soundcloud_fetch_track_data tok item_id ;;
  media <- Py.get track_data "media" (PyDict []) ;;
  transcodings <- Py.get media "transcodings" (PyList []) ;;
  track_auth <- Py.get track_data "track_authorization" PyNone ;;
  chosen <- select_transcoding transcodings hq ;;
  _ <- log_chosen chosen ;;
  format <- Py.get chosen "format" (PyDict []) ;;
  mime_type <- Py.get format "mime_type" (PyStr "") ;;
  container <- guess_container_from_mime mime_type ;;
  let derived := derive_output_path item_id container output_path in
  match output_path with
  | None | Some EmptyString => Ok None
  | Some _ => Ok (Some (derived, chosen))
  end.

(** *** [soundcloud_get_track_metadata] *)

Definition marker : string := "<h2>Appears in albums</h2>".

(** "Attempt to parse album from track's webpage" (lines 388-399): the page
    fetch, the marker search and the album resolve.  Returns [start_index],
    the page and [album_data]. *)
Definition scrape_album (tok : token) (track_data : pyval)
  : result (Z * string * pyval) :=
  permalink_url <- Py.getitem track_data "permalink_url" ;;
  track_webpage <- make_call (str permalink_url ++ "/albums") None true ;;
  track_webpage <- Py.as_str track_webpage ;;
  let start_index := Str.find marker track_webpage in
  let album_data := PyNone in
  album_data <-
    (if negb (start_index =? -1)
     then
       match Str.search_href (Str.slice_from start_index track_webpage) with
       | Some album_href =>
           make_call
             (BASE_URL ++ "/resolve?url=https://soundcloud.com" ++ album_href)
             (Some tok) false
       | None => Ok album_data
       end
     else Ok album_data) ;;
  Ok (start_index, track_webpage, album_data).

(** "Artists" (lines 401-410) *)
Definition artists_block (track_data : pyval) : result pyval :=
  artists <-
    try_except
      (publisher_metadata <- Py.get track_data "publisher_metadata" (PyDict []) ;;
       artist <- Py.get publisher_metadata "artist" (PyStr "") ;;
       items <- Py.split artist ","%char ;;
       Ok (map (fun item => PyStr (Str.strip item)) items))
      (fun e => match e with
                | AttributeError => Some (Ok [])
                | _ => None
                end) ;;
  artists <- conv_list_format (PyList artists) ;;
  if negb (Py.truthy artists)
  then user <- Py.get track_data "user" (PyDict []) ;;
       Py.get user "username" (PyStr "")
  else Ok artists.

(** The counting loop of "Track Number" (lines 416-419): [track_number] is
    the counter on entry. *)
Fixpoint count_tracks (tracks : list pyval) (track_data : pyval)
    (track_number : Z) : result Z :=
  match tracks with
  | [] => Ok track_number
  | trk :: rest =>
      let track_number := track_number + 1 in
      trk_id <- Py.getitem trk "id" ;;
      track_id <- Py.getitem track_data "id" ;;
      if Py.eq trk_id track_id
      then Ok track_number
      else count_tracks rest track_data track_number
  end.

(** "Track Number" (lines 412-424): [total_tracks], [track_number] and
    [album_type]. *)
Definition track_number_block (album_data track_data : pyval)
  : result (pyval * pyval * string) :=
  try_except
    (total_tracks <- Py.getitem album_data "track_count" ;;
     tracks <- Py.getitem album_data "tracks" ;;
     tracks <- Py.iter tracks ;;
     track_number <- count_tracks tracks track_data 0 ;;
     Ok (total_tracks, PyInt track_number, "album"))
    (fun e => match e with
              | KeyError | TypeError =>
                  Some (Ok (PyStr "1", PyStr "1", "single"))
              | _ => None
              end).

(** "Album Name" (lines 426-436) *)
Definition album_name_block (track_data : pyval) (start_index : Z)
    (track_webpage : string) : result pyval :=
  let album_name := "" in
  try_except
    (publisher_metadata <- Py.getitem track_data "publisher_metadata" ;;
     Py.getitem publisher_metadata "album_name")
    (fun e =>
       match e with
       | KeyError | TypeError =>
           Some
             (let album_name :=
                if negb (start_index =? -1)
                then match Str.search_a_tag
                             (Str.slice_from start_index track_webpage) with
                     | Some a_tag_match => a_tag_match
                     | None => album_name
                     end
                else album_name in
              if Str.startswith "Users who like" album_name
              then Py.getitem track_data "title"
              else Ok (PyStr album_name))
       | _ => None
       end).

(** "Copyright" (lines 438-446) *)
Definition copyright_block (track_data : pyval) : result pyval :=
  publisher_metadata <- Py.get track_data "publisher_metadata" (PyDict []) ;;
  has_c_line <-
    (if Py.truthy publisher_metadata
     then c_line <- Py.get publisher_metadata "c_line" PyNone ;;
          Ok (Py.truthy c_line)
     else Ok false) ;;
  copyright_list <-
    (if (has_c_line : bool)
     then c_line <- Py.get publisher_metadata "c_line" (PyStr "") ;;
          items <- Py.split c_line ","%char ;;
          Ok (PyList (map (fun item => PyStr (Str.strip item)) items))
     else Ok (PyStr "")) ;;
  conv_list_format copyright_list.

(** [info['release_year']] (lines 458-460) *)
Definition release_year_field (track_data : pyval) : result pyval :=
  release_date <- Py.get track_data "release_date" (PyStr "") ;;
  last_modified <- Py.get track_data "last_modified" (PyStr "") ;;
  parts <- (if Py.truthy release_date
            then Py.split release_date "-"%char
            else Py.split last_modified "-"%char) ;;
  match parts with
  | year :: _ => Ok (PyStr year)
  | [] => Raise IndexError
  end.

(** [info['length']] (line 465) *)
Definition length_field (track_data : pyval) : result pyval :=
  media <- Py.get track_data "media" (PyDict []) ;;
  transcodings <- Py.get media "transcodings" (PyList [PyDict []]) ;;
  first_transcoding <- Py.first transcodings ;;
  duration <- Py.get first_transcoding "duration" (PyInt 0) ;;
  Ok (PyStr (str duration)).

(** Lines 369-475. *)
Definition soundcloud_get_track_metadata (tok : token) (item_id : string)
  : result pyval :=
  track_data <- make_call (BASE_URL ++ "/tracks/" ++ item_id) (Some tok) false ;;
  ' (start_index, track_webpage, album_data) <- scrape_album tok track_data ;;
  artists <- artists_block track_data ;;
  ' (total_tracks, track_number, album_type) <-
      track_number_block album_data track_data ;;
  album_name <- album_name_block track_data start_index track_webpage ;;
  copyright_data <- copyright_block track_data ;;
  let info := [] in
  image_url <- Py.get track_data "artwork_url" (PyStr "") ;;
  let info := Py.set_item "image_url" image_url info in
  description <- Py.get track_data "description" (PyStr "") ;;
  let info := Py.set_item "description" (PyStr (str description)) info in
  genre <- Py.get track_data "genre" (PyList []) ;;
  genre <- conv_list_format (PyList [genre]) ;;
  let info := Py.set_item "genre" genre info in
  label <- Py.get track_data "label_name" (PyStr "") ;;
  let info := if Py.truthy label then Py.set_item "label" label info else info in
  item_url <- Py.get track_data "permalink_url" (PyStr "") ;;
  let info := Py.set_item "item_url" item_url info in
  release_year <- release_year_field track_data ;;
  let info := Py.set_item "release_year" release_year info in
  title <- Py.get track_data "title" (PyStr "") ;;
  let info := Py.set_item "title" title info in
  let info := Py.set_item "track_number" track_number info in
  let info := Py.set_item "total_tracks" total_tracks info in
  length <- length_field track_data ;;
  let info := Py.set_item "length" length info in
  let info := Py.set_item "artists" artists info in
  let info := Py.set_item "album_name" album_name info in
  let info := Py.set_item "album_type" (PyStr album_type) info in
  user <- Py.get track_data "user" (PyDict []) ;;
  username <- Py.get user "username" (PyStr "") ;;
  let info := Py.set_item "album_artists" username info in
  let info := Py.set_item "copyright" copyright_data info in
  streamable <- Py.get track_data "streamable" (PyStr "") ;;
  let info := Py.set_item "is_playable" streamable info in
  id <- Py.get track_data "id" (PyStr "") ;;
  let info := Py.set_item "item_id" id info in
  Ok (PyDict info).

End Soundcloud.

(** ** The rest of the module: tokens, headers, resolving, searching *)

Definition VERIFY_AUTH_URL : string :=
  "https://api-auth.soundcloud.com/connect/session".

Definition USER_AGENT : string :=
  "Mozilla/5.0 (Windows NT 10.0; Win64; x64) "
  ++ "AppleWebKit/537.36 (KHTML, like Gecko) "
  ++ "Chrome/77.0.3865.90 Safari/537.36".

(** [v[i]] for an integer [i]: a negative index counts from the end. *)
Definition index (v : pyval) (i : Z) : result pyval :=
  match v with
  | PyList l =>
      let n := Z.of_nat (List.length l) in
      let j := if i <? 0 then i + n else i in
      if (0 <=? j) && (j <? n)
      then match nth_error l (Z.to_nat j) with
           | Some x => Ok x
           | None => Raise IndexError
           end
      else Raise IndexError
  | PyStr s =>
      let n := Z.of_nat (String.length s) in
      let j := if i <? 0 then i + n else i in
      if (0 <=? j) && (j <? n)
      then match String.get (Z.to_nat j) s with
           | Some c => Ok (PyStr (String c EmptyString))
           | None => Raise IndexError
           end
      else Raise IndexError
  | PyDict _ => Raise KeyError
  | _ => Raise TypeError
  end.

Section Session.

Variable make_call : string -> option token -> bool -> result pyval.
Variable make_call_skip_cache : string -> option token -> result pyval.
Variable requests_search : string -> token -> string -> result response.
Variable requests_post : string -> string -> result response.
Variable repr : pyval -> string.

(** Lines 21-40. *)
Definition soundcloud_parse_url (url : string) (tok : token)
  : result (pyval * string) :=
  resp <- make_call (BASE_URL ++ "/resolve?url=" ++ url) (Some tok) false ;;
  id <- Py.getitem resp "id" ;;
  let item_id := str repr id in
  item_type <- Py.getitem resp "kind" ;;
  Ok (item_type, item_id).

(** Lines 42-71.  [requests_post] is called with the URL and the token the
    payload carries; [except requests.RequestException] catches what the
    HTTP layer raises. *)
Definition soundcloud_verify_oauth_token (client_id : string) (token : pyval)
  : result bool :=
  token <- Py.as_str token ;;
  if negb (Py.truthy (PyStr (Str.strip token))) then Ok false
  else
    let url := VERIFY_AUTH_URL ++ "?client_id=" ++ client_id in
    try_except
      (resp <- requests_post url token ;;
       if status_code resp =? 200 then Ok true else Ok false)
      (fun e => match e with
                | TransportError _ => Some (Ok false)
                | _ => None
                end).

(** [account_pool[parsing_index]['login']] *)
Definition pool_login (account_pool : pyval) (parsing_index : Z)
  : result pyval :=
  account <- index account_pool parsing_index ;;
  Py.getitem account "login".

(** Lines 258-274; [account_pool] is the module's global at the time of the
    call. *)
Definition soundcloud_get_token (account_pool : pyval) (parsing_index : Z)
  : result pyval :=
  login <- pool_login account_pool parsing_index ;;
  client_id <- Py.getitem login "client_id" ;;
  login <- pool_login account_pool parsing_index ;;
  app_version <- Py.getitem login "app_version" ;;
  login <- pool_login account_pool parsing_index ;;
  app_locale <- Py.getitem login "app_locale" ;;
  login <- pool_login account_pool parsing_index ;;
  oauth_token <- Py.get login "oauth_token" PyNone ;;
  Ok (PyDict [("client_id", client_id);
              ("app_version", app_version);
              ("app_locale", app_locale);
              ("oauth_token", oauth_token)]).

(** Lines 277-289, on the token dictionary. *)
Definition _get_request_headers (token : pyval) : result pyval :=
  let headers := [("User-Agent", PyStr USER_AGENT)] in
  oauth_token <- Py.get token "oauth_token" PyNone ;;
  if Py.truthy oauth_token
  then oauth_token <- Py.getitem token "oauth_token" ;;
       Ok (PyDict (Py.set_item "Authorization"
                     (PyStr ("OAuth " ++ str repr oauth_token)) headers))
  else Ok (PyDict headers).

(** One entry of a search answer as a result item (lines 316-324 and
    330-338). *)
Definition search_item (item_type : string) (entry : pyval) : result pyval :=
  item_id <- Py.getitem entry "id" ;;
  item_name <- Py.getitem entry "title" ;;
  user <- Py.getitem entry "user" ;;
  item_by <- Py.getitem user "username" ;;
  item_url <- Py.getitem entry "permalink_url" ;;
  item_thumbnail_url <- Py.get entry "artwork_url" PyNone ;;
  Ok (PyDict [("item_id", item_id);
              ("item_name", item_name);
              ("item_by", item_by);
              ("item_type", PyStr item_type);
              ("item_service", PyStr "soundcloud");
              ("item_url", item_url);
              ("item_thumbnail_url", item_thumbnail_url)]).

Fixpoint search_loop (item_type : string) (entries search_results : list pyval)
  : result (list pyval) :=
  match entries with
  | [] => Ok search_results
  | entry :: rest =>
      item <- search_item item_type entry ;;
      search_loop item_type rest (search_results ++ [item])%list
  end.

(** One of the two [if ... in content_types] blocks. *)
Definition search_phase (item_type path : string) (tok : token)
    (search_term : string) (content_types : pyval)
    (search_results : list pyval) : result (list pyval) :=
  wanted <- Py.contains item_type content_types ;;
  if (wanted : bool)
  then
    r <- requests_search (BASE_URL ++ path) tok search_term ;;
    answer <- json r ;;
    collection <- Py.get answer "collection" (PyList []) ;;
    entries <- Py.iter collection ;;
    search_loop item_type entries search_results
  else Ok search_results.

(** Lines 292-341. *)
Definition soundcloud_get_search_results (tok : token) (search_term : string)
    (content_types : pyval) : result (list pyval) :=
  let search_results := [] in
  search_results <-
    search_phase "track" "/search/tracks" tok search_term content_types
      search_results ;;
  search_phase "playlist" "/search/playlists" tok search_term content_types
    search_results.

(** Lines 344-366: the function ends without a [return] when the fetch
    raises [TypeError] or [KeyError]. *)
Definition soundcloud_get_set_items (tok : token) (url : string)
  : result pyval :=
  try_except
    (make_call_skip_cache (BASE_URL ++ "/resolve?url=" ++ url) (Some tok))
    (fun e => match e with
              | TypeError | KeyError => Some (Ok PyNone)
              | _ => None
              end).

End Session.

(** ** Accounts: [soundcloud_login_user] and [soundcloud_add_account] *)

Definition SC_SITE_URL : string := "https://soundcloud.com".

(** The three patterns of the login code, as Python raw strings. *)
Definition SCRIPT_PATTERN : string :=
  "<script\s+crossorigin\s+src=" ++ String Str.dquote "([^"
  ++ String Str.dquote "]+)" ++ String Str.dquote "".

Definition VERSION_PATTERN : string :=
  "<script>window\.__sc_version=" ++ String Str.dquote "(\d+)"
  ++ String Str.dquote "</script>".

Definition CLIENT_ID_PATTERN : string :=
  "client_id:\s*" ++ String Str.dquote "(\w+)" ++ String Str.dquote "".

(** What [requests.get] hands back for a page: the status and the text. *)
Record page : Type := {
  page_status : Z;
  text : string
}.

Definition page_raise_for_status (r : page) : result unit :=
  if (400 <=? page_status r) && (page_status r <? 600)
  then Raise (TransportError "HTTPError")
  else Ok tt.

Section Accounts.

(** The collaborators: [requests.get] for a page, [requests.post], the
    regular-expression engine ([re_finditer pattern text] lists [group(1)] of
    the matches of [re.finditer], so that [re.search] finds the first of
    them), and the [config] object of [..otsconfig] through the three calls
    the code makes on it. *)
Variable requests_get_page : string -> result page.
Variable requests_post : string -> string -> result response.
Variable re_finditer : string -> string -> list string.
Variable config_get_accounts : result pyval.
Variable config_set_accounts : pyval -> result unit.
Variable config_update : result unit.

(** [*_, match = iterator]: the last match; unpacking nothing is a
    [ValueError], written here as the [Exception] it is a kind of. *)
Definition last_match (matches : list string) : result string :=
  match rev matches with
  | m :: _ => Ok m
  | [] => Raise (Exception "not enough values to unpack")
  end.

(** Lines 84-109: the client id and the app version, read off the site. *)
Definition login_scrape : result (string * string) :=
  response <- requests_get_page "https://soundcloud.com" ;;
  _ <- page_raise_for_status response ;;
  let page_text := text response in
  client_id_url <- last_match (re_finditer SCRIPT_PATTERN page_text) ;;
  app_version <-
    match re_finditer VERSION_PATTERN page_text with
    | app_version :: _ => Ok app_version
    | [] => Raise (Exception "App version not found")
    end ;;
  response2 <- requests_get_page client_id_url ;;
  _ <- page_raise_for_status response2 ;;
  client_id <-
    match re_finditer CLIENT_ID_PATTERN (text response2) with
    | client_id :: _ => Ok client_id
    | [] => Raise AttributeError
    end ;;
  Ok (client_id, app_version).

(** Lines 111-124: the account type and the bitrate; a [ValueError] is
    written as the [Exception] it is a kind of. *)
Definition login_account_type (account : pyval) (client_id : string)
  : result (string * string) :=
  uuid <- Py.getitem account "uuid" ;;
  if Py.eq uuid (PyStr "premium_soundcloud")
  then
    login <- Py.getitem account "login" ;;
    token <- Py.get login "oauth_token" PyNone ;;
    if negb (Py.truthy token)
    then Raise (Exception "Premium account missing OAuth token")
    else
      verified <- soundcloud_verify_oauth_token requests_post client_id token ;;
      if negb verified
      then Raise (Exception "OAuth token validation failed")
      else Ok ("premium", "256k")
  else Ok ("public", "128k").

(** Lines 80-124: [None] for an account type the code does not handle. *)
Definition login_checks (account : pyval)
  : result (option (string * string * string * string)) :=
  uuid <- Py.getitem account "uuid" ;;
  if negb (Py.eq uuid (PyStr "public_soundcloud")
           || Py.eq uuid (PyStr "premium_soundcloud"))
  then Ok None
  else
    ' (client_id, app_version) <- login_scrape ;;
    ' (account_type, bitrate) <- login_account_type account client_id ;;
    Ok (Some (client_id, app_version, account_type, bitrate)).

(** [d.update({...})]: only a dict has it. *)
Definition update (v : pyval) (items : list (string * pyval)) : result pyval :=
  match v with
  | PyDict d =>
      Ok (PyDict (fold_left (fun d kv => Py.set_item (fst kv) (snd kv) d)
                    items d))
  | _ => Raise AttributeError
  end.

(** Lines 127-131: [account['login']] is updated in place. *)
Definition login_update_account (account : pyval)
    (client_id app_version : string) : result pyval :=
  login <- Py.getitem account "login" ;;
  login <- update login [("client_id", PyStr client_id);
                         ("app_version", PyStr app_version);
                         ("app_locale", PyStr "en")] ;;
  match account with
  | PyDict d => Ok (PyDict (Py.set_item "login" login d))
  | _ => Raise TypeError
  end.

(** The loop of lines 135-141 over the copied accounts.  [cfg_copy] is a
    shallow copy: its entries are the configuration's own objects, and
    [account] may be one of them.  [alias] is the position of [account]
    among them when it is; the entry at that position is then the account
    as it stands, and what the loop writes into the entry is written into
    the account.  The result is the account as the loop leaves it, with the
    entries of the copy or the exception that ended the loop. *)
Fixpoint login_update_entries (alias : option nat) (account : pyval)
    (account_type bitrate : string) (position : nat) (entries : list pyval)
  : pyval * result (list pyval) :=
  match entries with
  | [] => (account, Ok [])
  | entry :: rest =>
      let same :=
        match alias with
        | Some i => Nat.eqb i position
        | None => false
        end in
      let entry := if same then account else entry in
      match
        (entry_uuid <- Py.getitem entry "uuid" ;;
         uuid <- Py.getitem account "uuid" ;;
         if Py.eq entry_uuid uuid
         then login <- Py.getitem account "login" ;;
              update entry [("login", login);
                            ("account_type", PyStr account_type);
                            ("bitrate", PyStr bitrate)]
         else Ok entry)
      with
      | Raise e => (account, Raise e)
      | Ok entry =>
          let account := if same then entry else account in
          let '(account, rest) :=
            login_update_entries alias account account_type bitrate
              (S position) rest in
          (account, rest <- rest ;; Ok (entry :: rest))
      end
  end.

(** Lines 133-154: the configuration is saved and the entry for the pool
    built.  The result is the account as these lines leave it, with the
    entry or the exception. *)
Definition login_save (alias : option nat) (account : pyval)
    (client_id account_type bitrate : string) : pyval * result pyval :=
  match config_get_accounts with
  | Raise e => (account, Raise e)
  | Ok accounts =>
      let '(account, cfg_copy) :=
        match accounts with
        | PyList entries =>
            let '(account, entries) :=
              login_update_entries alias account account_type bitrate 0
                entries in
            (account, entries <- entries ;; Ok (PyList entries))
        | PyDict [] => (account, Ok (PyDict []))
        | PyDict (_ :: _) => (account, Raise TypeError)
        | _ => (account, Raise AttributeError)
        end in
      (account,
       cfg_copy <- cfg_copy ;;
       _ <- config_set_accounts cfg_copy ;;
       _ <- config_update ;;
       uuid <- Py.getitem account "uuid" ;;
       login <- Py.getitem account "login" ;;
       Ok (PyDict [("uuid", uuid);
                   ("username", PyStr client_id);
                   ("service", PyStr "soundcloud");
                   ("status", PyStr "active");
                   ("account_type", PyStr account_type);
                   ("bitrate", PyStr bitrate);
                   ("login", login)]))
  end.

(** Lines 159-175: the handler of [except Exception]. *)
Definition login_failed (account : pyval) (account_pool : list pyval)
  : result (bool * list pyval * pyval) :=
  uuid <- Py.getitem account "uuid" ;;
  login <- Py.getitem account "login" ;;
  username <- Py.get login "client_id" (PyStr "N/A") ;;
  let entry :=
    PyDict [("uuid", uuid);
            ("username", username);
            ("service", PyStr "soundcloud");
            ("status", PyStr "error");
            ("account_type", PyStr "N/A");
            ("bitrate", PyStr "N/A");
            ("login", PyDict [("client_id", PyStr "N/A");
                              ("app_version", PyStr "N/A");
                              ("app_locale", PyStr "en")])] in
  Ok (false, (account_pool ++ [entry])%list, account).

(** Lines 73-175.  The result is what the function returns, the account
    pool and the account as the call leaves them.  [alias] says whether the
    [account] passed in is itself an entry of the configuration's accounts,
    and at which position: the function writes into the objects it is
    given, so the account then also receives what the loop of lines 135-141
    writes into that entry. *)
Definition soundcloud_login_user (account : pyval) (alias : option nat)
    (account_pool : list pyval) : result (bool * list pyval * pyval) :=
  match login_checks account with
  | Ok None => Ok (false, account_pool, account)
  | Ok (Some (client_id, app_version, account_type, bitrate)) =>
      match login_update_account account client_id app_version with
      | Ok account =>
          match login_save alias account client_id account_type bitrate with
          | (account, Ok entry) =>
              Ok (true, (account_pool ++ [entry])%list, account)
          | (account, Raise _) => login_failed account account_pool
          end
      | Raise _ => login_failed account account_pool
      end
  | Raise _ => login_failed account account_pool
  end.

(** Lines 189-216: as [login_scrape], with a check of each search. *)
Definition add_account_scrape : result (string * string) :=
  response <- requests_get_page SC_SITE_URL ;;
  _ <- page_raise_for_status response ;;
  let page_text := text response in
  client_id_url <- last_match (re_finditer SCRIPT_PATTERN page_text) ;;
  app_version <-
    match re_finditer VERSION_PATTERN page_text with
    | app_version :: _ => Ok app_version
    | [] =>
        Raise (Exception
                 "Could not find app version on the main page (premium).")
    end ;;
  response2 <- requests_get_page client_id_url ;;
  _ <- page_raise_for_status response2 ;;
  let page_text2 := text response2 in
  client_id <-
    match re_finditer CLIENT_ID_PATTERN page_text2 with
    | client_id :: _ => Ok client_id
    | [] => Raise (Exception "Could not parse client_id from script (premium).")
    end ;;
  Ok (client_id, app_version).

Definition premium_login (client_id app_version : string) (token : pyval)
  : pyval :=
  PyDict [("client_id", PyStr client_id);
          ("app_version", PyStr app_version);
          ("app_locale", PyStr "en");
          ("oauth_token", token)].

(** [new_user] of line 220. *)
Definition new_user (client_id app_version : string) (token : pyval) : pyval :=
  PyDict [("uuid", PyStr "premium_soundcloud");
          ("service", PyStr "soundcloud");
          ("active", PyBool true);
          ("account_type", PyStr "premium");
          ("bitrate", PyStr "256k");
          ("login", premium_login client_id app_version token)].

(** The entry of line 238. *)
Definition premium_entry (client_id app_version : string) (token : pyval)
  : pyval :=
  PyDict [("uuid", PyStr "premium_soundcloud");
          ("username", PyStr client_id);
          ("service", PyStr "soundcloud");
          ("status", PyStr "active");
          ("account_type", PyStr "premium");
          ("bitrate", PyStr "256k");
          ("login", premium_login client_id app_version token)].

(** The [try] block of lines 187-252, up to the entry appended to the
    pool: a list has [copy] and [append], a dict only [copy]. *)
Definition add_account_try (token : pyval) : result pyval :=
  ' (client_id, app_version) <- add_account_scrape ;;
  accounts <- config_get_accounts ;;
  cfg_copy <-
    match accounts with
    | PyList entries =>
        Ok (PyList (entries ++ [new_user client_id app_version token]))
    | _ => Raise AttributeError
    end ;;
  _ <- config_set_accounts cfg_copy ;;
  _ <- config_update ;;
  Ok (premium_entry client_id app_version token).

(** Lines 178-255: the account pool as the call leaves it; the function
    returns nothing and lets no [Exception] out. *)
Definition soundcloud_add_account (token : pyval) (account_pool : list pyval)
  : list pyval :=
  match add_account_try token with
  | Ok entry => account_pool ++ [entry]
  | Raise _ => account_pool
  end.

End Accounts.

(** ** Vocabulary of the specification

    How the specification reads a record: the fields of a transcoding, what
    makes it usable, and substring occurrence. *)

Definition Occurs (needle s : string) : Prop :=
  exists pre post, s = pre ++ needle ++ post.

Definition field (k : string) (v : pyval) : option pyval :=
  match v with
  | PyDict d => Py.lookup k d
  | _ => None
  end.

(** [format.protocol] and [preset], the empty string when absent. *)
Definition protocol_of (t : pyval) : string :=
  match field "format" t with
  | Some format => match field "protocol" format with
                   | Some (PyStr p) => p
                   | _ => ""
                   end
  | None => ""
  end.

Definition preset_of (t : pyval) : string :=
  match field "preset" t with
  | Some (PyStr p) => p
  | _ => ""
  end.

Definition encrypted (t : pyval) : bool :=
  Str.contains "encrypted" (protocol_of t).

Definition usable (t : pyval) : bool := negb (encrypted t).

Definition quality_is (q : string) (t : pyval) : bool :=
  match field "quality" t with
  | Some (PyStr q') => String.eqb q' q
  | _ => false
  end.

Definition usable_hq (t : pyval) : bool := usable t && quality_is "hq" t.

Definition usable_with_prefix (p : string) (t : pyval) : bool :=
  usable t && Str.startswith p (preset_of t).

(** A transcoding whose fields have the types of the data model, each of
    them possibly absent: a dict whose [format], when present, is a dict
    whose [protocol], when present, is a string, and whose [preset], when
    present, is a string. *)
Definition well_typed (t : pyval) : bool :=
  match t with
  | PyDict d =>
      match Py.lookup "format" d with
      | None => true
      | Some (PyDict f) =>
          match Py.lookup "protocol" f with
          | None | Some (PyStr _) => true
          | Some _ => false
          end
      | Some _ => false
      end &&
      match Py.lookup "preset" d with
      | None | Some (PyStr _) => true
      | Some _ => false
      end
  | _ => false
  end.

(** A transcoding as the service advertises it. *)
Definition transcoding (preset quality mime_type protocol url : string)
  : pyval :=
  PyDict [("url", PyStr url);
          ("preset", PyStr preset);
          ("duration", PyInt 215000);
          ("snipped", PyBool false);
          ("format", PyDict [("protocol", PyStr protocol);
                             ("mime_type", PyStr mime_type)]);
          ("quality", PyStr quality)].

(** What [filter_transcodings] keeps, read off the fields: a usable entry
    of the wanted quality and preset family. *)
Definition passes (quality preset_prefix : option string) (t : pyval) : bool :=
  usable t &&
  match quality with
  | None => true
  | Some q => quality_is q t
  end &&
  match preset_prefix with
  | None => true
  | Some p => Str.startswith p (preset_of t)
  end.

(** The preference cascade, read off the fields: the first usable HQ entry
    when HQ is asked for, else the first usable entry of the AAC family, else
    of the MP3 family, else of the Opus family. *)
Definition cascade (l : list pyval) (hq : bool) : option pyval :=
  match (if hq then find usable_hq l else None) with
  | Some t => Some t
  | None =>
      match find (usable_with_prefix "aac_") l with
      | Some t => Some t
      | None =>
          match find (usable_with_prefix "mp3_") l with
          | Some t => Some t
          | None => find (usable_with_prefix "opus_") l
          end
      end
  end.

(** The two messages with which the selection gives up. *)
Definition NoUsableStream (e : exn) : Prop :=
  e = Exception "No transcodings found or track not streamable." \/
  e = Exception "No suitable transcoding found.".

(** A transcoding with the fields of the data model all present: a string
    [preset], and a [format] with string [mime_type] and [protocol]. *)
Definition is_transcoding (t : pyval) : bool :=
  match field "preset" t, field "format" t with
  | Some (PyStr _), Some format =>
      match field "mime_type" format, field "protocol" format with
      | Some (PyStr _), Some (PyStr _) => true
      | _, _ => false
      end
  | _, _ => false
  end.

Definition mime_type_of (t : pyval) : string :=
  match field "format" t with
  | Some format => match field "mime_type" format with
                   | Some (PyStr m) => m
                   | _ => ""
                   end
  | None => ""
  end.

(** [media.transcodings] of a track record, when both keys are there. *)
Definition transcodings_of (track_data : pyval) : option pyval :=
  match field "media" track_data with
  | Some media => field "transcodings" media
  | None => None
  end.

(** What [soundcloud_download_track] hands back once a transcoding is
    chosen and a path derived: the pair of them when an output path was
    given, [None] without one. *)
Definition handed_back (output_path : option string) (path : string)
    (chosen : pyval) : option (string * pyval) :=
  match output_path with
  | None | Some EmptyString => None
  | Some _ => Some (path, chosen)
  end.

(** Reading an album record: does a track entry carry an [id], and is it
    the id [track_id]? *)
Definition has_id (trk : pyval) : bool :=
  match field "id" trk with
  | Some _ => true
  | None => false
  end.

Definition id_is (track_id trk : pyval) : bool :=
  match field "id" trk with
  | Some i => Py.eq i track_id
  | None => false
  end.

(** [publisher_metadata.album_name] of a track record, when it is there. *)
Definition published_album_name (track_data : pyval) : option pyval :=
  match field "publisher_metadata" track_data with
  | Some publisher_metadata => field "album_name" publisher_metadata
  | None => None
  end.

(** *** What the further properties speak of *)

(** What the selection may return for a request: an HQ entry when HQ was
    asked for, or an entry of one of the three preset families. *)
Definition selected_for (hq : bool) (t : pyval) : Prop :=
  (hq = true /\ quality_is "hq" t = true) \/
  Str.startswith "aac_" (preset_of t) = true \/
  Str.startswith "mp3_" (preset_of t) = true \/
  Str.startswith "opus_" (preset_of t) = true.

(** A path whose last component holds a character other than a dot, so
    that an extension appended to it is the one [splitext] cuts off. *)
Definition regular (p : string) : bool :=
  Str.non_dot_between p (Str.rfind_char "/" p + 1) (Z.of_nat (String.length p)).

(** Reading a decimal numeral, the inverse of [str] on integers. *)
Definition parse_decimal (s : string) : option Z :=
  option_map Z.of_int (NilZero.int_of_string s).

(** [year] is [date] up to its first dash, all of it when it has none. *)
Definition year_of (date year : string) : Prop :=
  Str.contains "-" year = false /\
  (date = year \/ exists rest, date = (year ++ "-" ++ rest)%string).

(** An account after the loop over the configuration has written into it:
    its own [login], the account type and the bitrate. *)
Definition written (account : pyval) (account_type bitrate : string) : pyval :=
  match account with
  | PyDict d =>
      match Py.lookup "login" d with
      | Some login =>
          PyDict (Py.set_item "bitrate" (PyStr bitrate)
                    (Py.set_item "account_type" (PyStr account_type)
                       (Py.set_item "login" login d)))
      | None => account
      end
  | _ => account
  end.

(** A string that [strip] leaves as it is. *)
Definition stripped (s : string) : Prop :=
  Str.lstrip s = s /\ Str.rstrip s = s.

(** What "Artists" does with the joined list. *)
Definition artists_from (conv_list_format : pyval -> result pyval)
    (track_data : pyval) (names : list string) : result pyval :=
  artists <- conv_list_format (PyList (map PyStr names)) ;;
  if negb (Py.truthy artists)
  then user <- Py.get track_data "user" (PyDict []) ;;
       Py.get user "username" (PyStr "")
  else Ok artists.

(** The keys every info record has, in the order they are set. *)
Definition info_keys : list string :=
  ["image_url"; "description"; "genre"; "item_url"; "release_year"; "title";
   "track_number"; "total_tracks"; "length"; "artists"; "album_name";
   "album_type"; "album_artists"; "copyright"; "is_playable"; "item_id"]%string.

Definition is_str (v : pyval) : Prop := exists s, v = PyStr s.

(** An entry of a search answer with the four keys a result item indexes. *)
Definition search_entry (entry : pyval) : bool :=
  match field "id" entry, field "title" entry, field "user" entry,
        field "permalink_url" entry with
  | Some _, Some _, Some user, Some _ =>
      match field "username" user with Some _ => true | None => false end
  | _, _, _, _ => false
  end.

(** [d.get(k)] read off a field. *)
Definition or_none (o : option pyval) : pyval :=
  match o with Some v => v | None => PyNone end.

(** The result item of a well-formed entry. *)
Definition result_item (item_type : string) (entry : pyval) : pyval :=
  PyDict [("item_id", or_none (field "id" entry));
          ("item_name", or_none (field "title" entry));
          ("item_by",
           or_none (match field "user" entry with
                    | Some user => field "username" user
                    | None => None
                    end));
          ("item_type", PyStr item_type);
          ("item_service", PyStr "soundcloud");
          ("item_url", or_none (field "permalink_url" entry));
          ("item_thumbnail_url", or_none (field "artwork_url" entry))].

(** What every result item looks like. *)
Definition search_result (item : pyval) : Prop :=
  exists d,
    item = PyDict d /\
    map fst d = ["item_id"; "item_name"; "item_by"; "item_type";
                 "item_service"; "item_url"; "item_thumbnail_url"]%string /\
    Py.lookup "item_service" d = Some (PyStr "soundcloud") /\
    (Py.lookup "item_type" d = Some (PyStr "track") \/
     Py.lookup "item_type" d = Some (PyStr "playlist")).

(** Two transports that answer every request with the same body, or fail
    alike; the status codes may differ. *)
Definition same_bodies
    (rs1 rs2 : string -> token -> string -> result response) : Prop :=
  forall url tok q,
    match rs1 url tok q, rs2 url tok q with
    | Ok r1, Ok r2 => json r1 = json r2
    | Raise e1, Raise e2 => e1 = e2
    | _, _ => False
    end.

(** ** Collaborators for the worked examples *)

(** A transport that answers each URL from a table, and fails to connect to
    any other. *)
Definition serve (table : list (string * result pyval))
  : string -> option token -> bool -> result pyval :=
  fun url _ _ =>
    match find (fun entry => String.eqb url (fst entry)) table with
    | Some entry => snd entry
    | None => Raise (TransportError "ConnectionError")
    end.

Definition respond (track_data : pyval) : string -> token -> result response :=
  fun _ _ => Ok {| status_code := 200; json := Ok track_data |}.

Fixpoint strings_of (items : list pyval) : result (list string) :=
  match items with
  | [] => Ok []
  | PyStr s :: rest => strs <- strings_of rest ;; Ok (s :: strs)
  | _ :: _ => Raise TypeError
  end.

(** A list-join convention: the items joined by ", ", the empty string for
    an empty sequence; joining anything but strings is a [TypeError]. *)
Definition join_items (items : pyval) : result pyval :=
  match items with
  | PyList [] | PyStr EmptyString => Ok (PyStr "")
  | PyList l => strs <- strings_of l ;; Ok (PyStr (String.concat ", " strs))
  | _ => Raise TypeError
  end.

Definition plain_repr (v : pyval) : string := "...".

Definition guest : token :=
  {| client_id := "c1"; app_version := "1700000000"; app_locale := "en";
     oauth_token := None |}.

Definition track_url : string := BASE_URL ++ "/tracks/2".
Definition albums_url : string := "https://soundcloud.com/artist/song/albums".
Definition resolve_url : string :=
  BASE_URL ++ "/resolve?url=https://soundcloud.com/artist/sets/first-album".

(** A track record with id 2 and the given extra items. *)
Definition track_record (extra : list (string * pyval)) : pyval :=
  PyDict ([("id", PyInt 2);
           ("title", PyStr "Song");
           ("permalink_url", PyStr "https://soundcloud.com/artist/song");
           ("genre", PyStr "Ambient");
           ("last_modified", PyStr "2021-05-01T00:00:00Z");
           ("streamable", PyBool true);
           ("user", PyDict [("username", PyStr "artist")])] ++ extra).

Definition album_page : string :=
  "<h2>Appears in albums</h2><ul><li><a itemprop=url href="
  ++ String Str.dquote "/artist/sets/first-album"
  ++ String Str.dquote ">First Album</a></li></ul>".

Definition likes_page : string :=
  "<h2>Appears in albums</h2><section><a class=more>Users who like similar tracks</a></section>".

Definition plain_page : string := "<h1>Song</h1><p>No albums.</p>".

Definition album_record : pyval :=
  PyDict [("kind", PyStr "playlist");
          ("track_count", PyInt 3);
          ("tracks", PyList [PyDict [("id", PyInt 1)];
                             PyDict [("id", PyInt 2)];
                             PyDict [("id", PyInt 3)]])].

(** The transports of the worked examples: the track alone, the track with a
    page, and the track with a page and what the resolve endpoint answers. *)
Definition table_track (track_data : pyval) : list (string * result pyval) :=
  [(track_url, Ok track_data)].

Definition table_page (track_data : pyval) (page : result pyval)
  : list (string * result pyval) :=
  [(track_url, Ok track_data); (albums_url, page)].

Definition table_album (track_data : pyval) (page album : result pyval)
  : list (string * result pyval) :=
  [(track_url, Ok track_data); (albums_url, page); (resolve_url, album)].

(** The resolver run against a table, for the track with id 2. *)
Definition resolve (table : list (string * result pyval)) : result pyval :=
  soundcloud_get_track_metadata (serve table) join_items plain_repr guest "2".

(** A file extension as [splitext] cuts it: nothing, or a dot followed by
    characters that are neither a dot nor a path separator. *)
Definition extension (ext : string) : Prop :=
  ext = "" \/
  exists e, ext = String "."%char e /\
            Str.contains "." e = false /\ Str.contains "/" e = false.

(** ** Collaborators for the worked examples of the session and the
    accounts *)

(** A track record that advertises the given transcodings. *)
Definition streamable_track (transcodings : list pyval) : pyval :=
  track_record [("media", PyDict [("transcodings", PyList transcodings)])].

(** U+00A0, a whitespace character outside ASCII. *)
Definition no_break_space : string := Str.of_bytes [194; 160].

(** An HTTP answer with the given status and decoded body. *)
Definition answer (status : Z) (body : pyval) : result response :=
  Ok {| status_code := status; json := Ok body |}.

(** An entry of a search answer. *)
Definition found (id : Z) (title : string) : pyval :=
  PyDict [("id", PyInt id);
          ("title", PyStr title);
          ("user", PyDict [("username", PyStr "artist")]);
          ("permalink_url", PyStr ("https://soundcloud.com/artist/" ++ title))].

(** A search transport: one track and two playlists, whatever the term. *)
Definition search_transport (status : Z)
  : string -> token -> string -> result response :=
  fun url _ _ =>
    if String.eqb url (BASE_URL ++ "/search/tracks")
    then answer status (PyDict [("collection", PyList [found 2 "song"])])
    else if String.eqb url (BASE_URL ++ "/search/playlists")
    then answer status
           (PyDict [("collection",
                     PyList [found 7 "first-album"; found 8 "live"])])
    else Raise (TransportError "ConnectionError").

(** A search transport whose second track lacks its [id]. *)
Definition broken_search : string -> token -> string -> result response :=
  fun _ _ _ =>
    answer 200
      (PyDict [("collection",
                PyList [found 2 "song"; PyDict [("title", PyStr "x")]])]).

(** The site as the login code reads it: the main page names two scripts
    and the app version, the last script holds the client id. *)
Definition script_tag (src : string) : string :=
  "<script crossorigin src=" ++ String Str.dquote src
  ++ String Str.dquote "></script>".

Definition home_page : string :=
  script_tag "https://a-v2.sndcdn.com/assets/0-vendor.js"
  ++ script_tag "https://a-v2.sndcdn.com/assets/50-app.js"
  ++ "<script>window.__sc_version=" ++ String Str.dquote "1700000000"
  ++ String Str.dquote "</script>".

Definition app_script : string :=
  "e.exports={client_id:" ++ String Str.dquote "c1"
  ++ String Str.dquote ",env:1}".

Definition site : string -> result page :=
  fun url =>
    if String.eqb url "https://soundcloud.com"
    then Ok {| page_status := 200; text := home_page |}
    else if String.eqb url "https://a-v2.sndcdn.com/assets/50-app.js"
    then Ok {| page_status := 200; text := app_script |}
    else Raise (TransportError "ConnectionError").

(** The matches of the three patterns in the two pages above. *)
Definition site_matches (pattern text : string) : list string :=
  if String.eqb pattern SCRIPT_PATTERN && String.eqb text home_page
  then ["https://a-v2.sndcdn.com/assets/0-vendor.js";
        "https://a-v2.sndcdn.com/assets/50-app.js"]
  else if String.eqb pattern VERSION_PATTERN && String.eqb text home_page
  then ["1700000000"]
  else if String.eqb pattern CLIENT_ID_PATTERN && String.eqb text app_script
  then ["c1"]
  else [].

(** The session endpoint: it accepts the token "secret" alone. *)
Definition session_endpoint : string -> string -> result response :=
  fun _ token =>
    if String.eqb token "secret" then answer 200 (PyDict [])
    else answer 401 (PyDict []).

(** A stored account, and a configuration that holds the public one. *)
Definition stored_account (uuid : string) (login : list (string * pyval))
  : pyval :=
  PyDict [("uuid", PyStr uuid);
          ("service", PyStr "soundcloud");
          ("active", PyBool true);
          ("login", PyDict login)].

Definition stored_accounts : result pyval :=
  Ok (PyList [stored_account "public_soundcloud" []]).

Definition accepts : pyval -> result unit := fun _ => Ok tt.

(** A login against the sample site and configuration, of an account that
    is no entry of the configuration. *)
Definition sample_login (account : pyval) (pool : list pyval)
  : result (bool * list pyval * pyval) :=
  soundcloud_login_user site session_endpoint site_matches
    stored_accounts accepts (Ok tt) account None pool.

(** A transport whose answers all carry the status [status]. *)
Definition with_status (status : Z)
    (rs : string -> token -> string -> result response)
  : string -> token -> string -> result response :=
  fun url tok q =>
    match rs url tok q with
    | Ok r => Ok {| status_code := status; json := json r |}
    | Raise e => Raise e
    end.

(** * Properties *)

(** ** The model at work *)

Example splitext_samples :
  Str.splitext "song.flac" = ("song", ".flac")%string /\
  Str.splitext "x.tar.gz" = ("x.tar", ".gz")%string /\
  Str.splitext ".hidden" = (".hidden", "")%string /\
  Str.splitext "a.b/c" = ("a.b/c", "")%string /\
  Str.splitext "a/..b.c" = ("a/..b", ".c")%string /\
  Str.splitext "" = ("", "")%string.
Proof. repeat split. Qed.

Example split_strip_samples :
  map Str.strip (Str.split "," "Ann , Bob,,  Cy") = ["Ann"; "Bob"; ""; "Cy"]%string /\
  Str.split "," "" = [""]%string /\
  Str.split "-" "2021-05-01T00:00:00Z" = ["2021"; "05"; "01T00:00:00Z"]%string.
Proof. repeat split. Qed.

Example scrape_samples :
  Str.find marker album_page = 0 /\
  Str.find marker plain_page = -1 /\
  Str.search_href album_page = Some "/artist/sets/first-album"%string /\
  Str.search_a_tag album_page = Some "First Album"%string /\
  Str.search_href likes_page = None /\
  Str.search_a_tag likes_page = Some "Users who like similar tracks"%string.
Proof. repeat split. Qed.

(** An anchor whose text runs over a line break is not matched. *)
Example search_a_tag_newline :
  Str.search_a_tag ("<a>First" ++ String Str.newline "Album</a>") = None.
Proof. reflexivity. Qed.

(** An ill-typed entry stops the selection with the exception Python
    raises: a [format] that is [null], a [protocol] that is a number. *)
Example select_ill_typed :
  select_transcoding (PyList [PyDict [("format", PyNone)]]) true
  = Raise AttributeError /\
  select_transcoding
    (PyList [PyDict [("format", PyDict [("protocol", PyInt 1)])]]) false
  = Raise TypeError.
Proof. split; reflexivity. Qed.

(** The resolver on the album scenario of the specification. *)
Example resolve_album_scenario :
  resolve (table_album (track_record []) (Ok (PyStr album_page))
             (Ok album_record))
  = Ok (PyDict
          [("image_url", PyStr "");
           ("description", PyStr "");
           ("genre", PyStr "Ambient");
           ("item_url", PyStr "https://soundcloud.com/artist/song");
           ("release_year", PyStr "2021");
           ("title", PyStr "Song");
           ("track_number", PyInt 2);
           ("total_tracks", PyInt 3);
           ("length", PyStr "0");
           ("artists", PyStr "artist");
           ("album_name", PyStr "First Album");
           ("album_type", PyStr "album");
           ("album_artists", PyStr "artist");
           ("copyright", PyStr "");
           ("is_playable", PyBool true);
           ("item_id", PyInt 2)]).
Proof. reflexivity. Qed.

(** ** Strings *)

Lemma startswith_spec (p s : string) :
  Str.startswith p s = true <-> exists post, s = p ++ post.
Proof.
  revert s. induction p as [|a p IH]; intros s; simpl.
  - split; [intros _; now exists s | reflexivity].
  - destruct s as [|b s].
    + split; [discriminate | intros [post H]; discriminate].
    + rewrite andb_true_iff, Ascii.eqb_eq, IH. split.
      * intros [-> [post ->]]. now exists post.
      * intros [post H]. injection H as -> ->. split; [reflexivity | now exists post].
Qed.

Lemma contains_spec (needle s : string) :
  Str.contains needle s = true <-> Occurs needle s.
Proof.
  induction s as [|c s IH]; simpl.
  - rewrite orb_false_r, startswith_spec. split.
    + intros [post H]. now exists ""%string, post.
    + intros [pre [post H]]. destruct pre; [now exists post | discriminate].
  - rewrite orb_true_iff, startswith_spec, IH. split.
    + intros [[post H] | [pre [post H]]].
      * now exists ""%string, post.
      * exists (String c pre), post. simpl. now rewrite H.
    + intros [pre [post H]]. destruct pre as [|a pre]; simpl in H.
      * left. now exists post.
      * right. injection H as _ H. now exists pre, post.
Qed.

Lemma contains_false_spec (needle s : string) :
  Str.contains needle s = false <-> ~ Occurs needle s.
Proof.
  rewrite <- contains_spec.
  destruct (Str.contains needle s); split; congruence.
Qed.

(** ** Container inference *)

(** C4, as stated, fails: the mime type "audio/MP4" contains none of
    "mpeg", "mp4" and "ogg", so the claim sends it to the default "mp3";
    the code lowercases it first and answers "m4a". *)
Lemma guess_container_uppercase_mp4 :
  ~ Occurs "mpeg" "audio/MP4" /\
  ~ Occurs "mp4" "audio/MP4" /\
  ~ Occurs "ogg" "audio/MP4" /\
  guess_container_from_mime (PyStr "audio/MP4") = Ok "m4a"%string.
Proof.
  repeat split; try (apply contains_false_spec; reflexivity).
Qed.

(** C4, amended: container inference is total on strings and decides on the
    lowercased mime type: "mp3" if that contains "mpeg", else "m4a" if it
    contains "mp4", else "ogg" if it contains "ogg", and "mp3" otherwise;
    "audio/mpeg", "audio/mp4", "audio/ogg" and "audio/x-unknown" map to
    "mp3", "m4a", "ogg" and "mp3". *)
Theorem guess_container_from_mime_lowercased :
  (forall s : string,
      exists c : string,
        guess_container_from_mime (PyStr s) = Ok c /\
        (Occurs "mpeg" (Str.lower s) -> c = "mp3"%string) /\
        (~ Occurs "mpeg" (Str.lower s) -> Occurs "mp4" (Str.lower s) ->
         c = "m4a"%string) /\
        (~ Occurs "mpeg" (Str.lower s) -> ~ Occurs "mp4" (Str.lower s) ->
         Occurs "ogg" (Str.lower s) -> c = "ogg"%string) /\
        (~ Occurs "mpeg" (Str.lower s) -> ~ Occurs "mp4" (Str.lower s) ->
         ~ Occurs "ogg" (Str.lower s) -> c = "mp3"%string)) /\
  guess_container_from_mime (PyStr "audio/mpeg") = Ok "mp3"%string /\
  guess_container_from_mime (PyStr "audio/mp4") = Ok "m4a"%string /\
  guess_container_from_mime (PyStr "audio/ogg") = Ok "ogg"%string /\
  guess_container_from_mime (PyStr "audio/x-unknown") = Ok "mp3"%string.
Proof.
  split; [| repeat split; reflexivity].
  intros s. unfold guess_container_from_mime. simpl.
  destruct (Str.contains "mpeg" (Str.lower s)) eqn:Empeg;
    [| destruct (Str.contains "mp4" (Str.lower s)) eqn:Emp4;
       [| destruct (Str.contains "ogg" (Str.lower s)) eqn:Eogg ] ];
    eexists; (split; [reflexivity |]);
    repeat match goal with
           | H : Str.contains _ _ = true |- _ => apply contains_spec in H
           | H : Str.contains _ _ = false |- _ => apply contains_false_spec in H
           end;
    repeat split; intros; solve [reflexivity | contradiction].
Qed.

(** ** Stream selection *)

Lemma get_field (k : string) (v x default : pyval) :
  field k v = Some x -> Py.get v k default = Ok x.
Proof.
  destruct v; simpl; try discriminate. now intros ->.
Qed.

Lemma getitem_field (k : string) (v x : pyval) :
  field k v = Some x -> Py.getitem v k = Ok x.
Proof.
  destruct v; simpl; try discriminate. now intros ->.
Qed.

Lemma get_of_dict (k k' : string) (v x default : pyval) :
  field k v = Some x -> exists y, Py.get v k' default = Ok y.
Proof.
  destruct v; simpl; try discriminate. intros _. now eexists.
Qed.

Lemma eq_str_quality (t : list (string * pyval)) (q : string) :
  Py.eq (match Py.lookup "quality" t with Some x => x | None => PyNone end)
        (PyStr q)
  = quality_is q (PyDict t).
Proof.
  unfold quality_is, field.
  destruct (Py.lookup "quality" t) as [[]|]; reflexivity.
Qed.

Lemma keeps_well_typed (quality preset_prefix : option string) (t : pyval) :
  well_typed t = true ->
  keeps quality preset_prefix t = Ok (passes quality preset_prefix t).
Proof.
  destruct t as [| | | | |d]; try discriminate. intros H.
  unfold keeps, passes, usable, encrypted, protocol_of, preset_of. simpl in *.
  apply andb_true_iff in H as [Hf Hp].
  assert (Hq : forall q, negb (Py.eq (match Py.lookup "quality" d with
                                      | Some x => x | None => PyNone end)
                                     (PyStr q))
                         = negb (quality_is q (PyDict d)))
    by (intros q; now rewrite eq_str_quality).
  destruct (Py.lookup "format" d) as [[| | | | |f]|]; try discriminate; simpl;
    [destruct (Py.lookup "protocol" f) as [[| | |s| |]|]; try discriminate; simpl|];
    try match goal with |- context [Str.contains ?n ?s] =>
      destruct (Str.contains n s); simpl; [reflexivity|] end;
    (destruct quality as [q|]; simpl;
     [rewrite Hq; destruct (quality_is q (PyDict d)); simpl; [|reflexivity]|]);
    (destruct preset_prefix as [p|]; simpl; [|reflexivity]);
    destruct (Py.lookup "preset" d) as [[| | |s'| |]|]; try discriminate; simpl;
    match goal with |- context [Str.startswith ?p ?s] =>
      destruct (Str.startswith p s); reflexivity end.
Qed.

Lemma filter_loop_well_typed (quality preset_prefix : option string)
    (ts : list pyval) :
  forallb well_typed ts = true ->
  filter_loop quality preset_prefix ts
  = Ok (filter (passes quality preset_prefix) ts).
Proof.
  induction ts as [|t ts IH]; simpl; [reflexivity|].
  intros H. apply andb_true_iff in H as [Ht Hts].
  rewrite (keeps_well_typed _ _ _ Ht), (IH Hts). simpl.
  now destruct (passes quality preset_prefix t).
Qed.

Lemma debug_loop_well_typed (ts : list pyval) :
  forallb well_typed ts = true -> debug_loop ts = Ok tt.
Proof.
  induction ts as [|t ts IH]; simpl; [reflexivity|].
  intros H. apply andb_true_iff in H as [Ht Hts]. rewrite (IH Hts).
  destruct t as [| | | | |d]; try discriminate. simpl in Ht.
  apply andb_true_iff in Ht as [Hf _].
  unfold debug_transcoding. simpl.
  destruct (Py.lookup "format" d) as [[| | | | |f]|]; try discriminate;
    reflexivity.
Qed.

Lemma filter_head_find {A : Type} (f : A -> bool) (l : list A) :
  match filter f l with
  | c :: _ => Some c
  | [] => None
  end = find f l.
Proof.
  induction l as [|a l IH]; simpl; [reflexivity|].
  now destruct (f a).
Qed.

Lemma find_ext {A : Type} (f g : A -> bool) (l : list A) :
  (forall a, f a = g a) -> find f l = find g l.
Proof.
  intros E. induction l as [|a l IH]; simpl; [reflexivity|].
  now rewrite E, IH.
Qed.

Lemma field_truthy (k : string) (t v : pyval) :
  field k t = Some v -> Py.truthy t = true.
Proof.
  destruct t as [| | | | |[|kv d]]; simpl; try discriminate. reflexivity.
Qed.

Lemma usable_hq_truthy (t : pyval) : usable_hq t = true -> Py.truthy t = true.
Proof.
  unfold usable_hq, quality_is. intros H. apply andb_true_iff in H as [_ H].
  destruct (field "quality" t) eqn:E; [|discriminate].
  eapply field_truthy; eassumption.
Qed.

Lemma usable_with_prefix_truthy (a : ascii) (p : string) (t : pyval) :
  usable_with_prefix (String a p) t = true -> Py.truthy t = true.
Proof.
  unfold usable_with_prefix, preset_of. intros H.
  apply andb_true_iff in H as [_ H].
  destruct (field "preset" t) eqn:E; [|discriminate].
  eapply field_truthy; eassumption.
Qed.

Lemma passes_hq (t : pyval) : passes (Some "hq"%string) None t = usable_hq t.
Proof. unfold passes, usable_hq. now rewrite andb_true_r. Qed.

Lemma passes_prefix (p : string) (t : pyval) :
  passes None (Some p) t = usable_with_prefix p t.
Proof. unfold passes, usable_with_prefix. now rewrite andb_true_r. Qed.

(** On a well-typed list no scan raises, and each family's first candidate
    is the first entry of the list that passes. *)
Lemma candidates_hq (l : list pyval) :
  forallb well_typed l = true ->
  filter_transcodings (PyList l) (Some "hq"%string) None
  = Ok (filter usable_hq l).
Proof.
  intros W. unfold filter_transcodings. simpl.
  rewrite (filter_loop_well_typed _ _ _ W). f_equal.
  apply filter_ext. intros a. apply passes_hq.
Qed.

Lemma candidates_prefix (p : string) (l : list pyval) :
  forallb well_typed l = true ->
  filter_transcodings (PyList l) None (Some p)
  = Ok (filter (usable_with_prefix p) l).
Proof.
  intros W. unfold filter_transcodings. simpl.
  rewrite (filter_loop_well_typed _ _ _ W). f_equal.
  apply filter_ext. intros a. apply passes_prefix.
Qed.

Lemma choose_cascade (l : list pyval) (hq : bool) :
  forallb well_typed l = true ->
  choose_transcoding (PyList l) hq
  = match cascade l hq with
    | Some t => Ok t
    | None => Raise (Exception "No suitable transcoding found.")
    end.
Proof.
  intros W. unfold choose_transcoding, cascade.
  assert (first_hq :
            (if hq
             then hq_candidates <-
                    filter_transcodings (PyList l) (Some "hq"%string) None ;;
                  Ok (first_or hq_candidates PyNone)
             else Ok PyNone)
            = Ok (match (if hq then find usable_hq l else None) with
                  | Some t => t
                  | None => PyNone
                  end)).
  { destruct hq; [|reflexivity].
    rewrite (candidates_hq _ W). simpl. unfold first_or.
    rewrite <- (filter_head_find usable_hq l).
    now destruct (filter usable_hq l). }
  rewrite first_hq. clear first_hq. simpl.
  destruct (if hq then find usable_hq l else None) as [t|] eqn:Ehq.
  - assert (Ht : usable_hq t = true).
    { destruct hq; [|discriminate]. now apply find_some in Ehq. }
    pose proof (usable_hq_truthy _ Ht) as T.
    rewrite T. simpl. now rewrite T.
  - simpl. rewrite !(candidates_prefix _ _ W). simpl.
    rewrite <- (filter_head_find (usable_with_prefix "aac_") l).
    destruct (filter (usable_with_prefix "aac_") l) as [|a ?] eqn:Eaac; simpl.
    + rewrite <- (filter_head_find (usable_with_prefix "mp3_") l).
      destruct (filter (usable_with_prefix "mp3_") l) as [|m ?] eqn:Emp3; simpl.
      * rewrite <- (filter_head_find (usable_with_prefix "opus_") l).
        destruct (filter (usable_with_prefix "opus_") l) as [|o ?] eqn:Eopus;
          simpl; [reflexivity|].
        assert (Ho : In o (filter (usable_with_prefix "opus_") l))
          by (rewrite Eopus; now left).
        apply filter_In in Ho as [_ Ho].
        pose proof (usable_with_prefix_truthy _ _ _ Ho) as T.
        simpl. now rewrite T.
      * assert (Hm : In m (filter (usable_with_prefix "mp3_") l))
          by (rewrite Emp3; now left).
        apply filter_In in Hm as [_ Hm].
        pose proof (usable_with_prefix_truthy _ _ _ Hm) as T.
        simpl. now rewrite T.
    + assert (Ha : In a (filter (usable_with_prefix "aac_") l))
        by (rewrite Eaac; now left).
      apply filter_In in Ha as [_ Ha].
      pose proof (usable_with_prefix_truthy _ _ _ Ha) as T.
        simpl. now rewrite T.
Qed.

Lemma select_cascade (l : list pyval) (hq : bool) :
  forallb well_typed l = true ->
  select_transcoding (PyList l) hq
  = match l with
    | [] => Raise (Exception "No transcodings found or track not streamable.")
    | _ :: _ =>
        match cascade l hq with
        | Some t => Ok t
        | None => Raise (Exception "No suitable transcoding found.")
        end
    end.
Proof.
  intros W. unfold select_transcoding.
  destruct l as [|t l]; [reflexivity|].
  cbn [Py.truthy negb Py.len Py.iter bind].
  rewrite (debug_loop_well_typed _ W). cbn [bind].
  apply (choose_cascade _ _ W).
Qed.

Lemma guess_container_from_mime_str (s : string) :
  exists c, guess_container_from_mime (PyStr s) = Ok c.
Proof.
  unfold guess_container_from_mime. simpl.
  destruct (Str.contains "mpeg" (Str.lower s));
    [| destruct (Str.contains "mp4" (Str.lower s));
       [| destruct (Str.contains "ogg" (Str.lower s)) ] ];
    now eexists.
Qed.

(** The function hands back the chosen transcoding with the derived path
    when an output path is given, and [None] without one, once the chosen
    transcoding has the fields the log line indexes. *)
Lemma download_returns
    (requests_get : string -> token -> result response)
    (tok : token) (item_id : string) (hq : bool) (output_path : option string)
    (track_data transcodings chosen : pyval) :
  soundcloud_fetch_track_data requests_get tok item_id = Ok track_data ->
  transcodings_of track_data = Some transcodings ->
  select_transcoding transcodings hq = Ok chosen ->
  is_transcoding chosen = true ->
  exists container : string,
    guess_container_from_mime (PyStr (mime_type_of chosen)) = Ok container /\
    soundcloud_download_track requests_get tok item_id hq output_path
    = Ok (handed_back output_path
            (derive_output_path item_id container output_path) chosen).
Proof.
  intros Hfetch Hts Hsel Hwf.
  destruct (guess_container_from_mime_str (mime_type_of chosen))
    as [container Hc].
  exists container. split; [exact Hc|].
  unfold transcodings_of in Hts.
  destruct (field "media" track_data) as [media|] eqn:Emedia; [|discriminate].
  destruct (get_of_dict "media" "track_authorization" track_data media PyNone
              Emedia) as [track_auth Eauth].
  unfold soundcloud_download_track.
  rewrite Hfetch. cbn [bind].
  rewrite (get_field _ _ _ _ Emedia). cbn [bind].
  rewrite (get_field _ _ _ _ Hts). cbn [bind].
  rewrite Eauth. cbn [bind]. rewrite Hsel. cbn [bind].
  unfold is_transcoding in Hwf. unfold mime_type_of in Hc.
  destruct (field "preset" chosen) as [[| | |preset| |]|] eqn:Epreset;
    try discriminate.
  destruct (field "format" chosen) as [format|] eqn:Eformat; [|discriminate].
  destruct (field "mime_type" format) as [[| | |mime| |]|] eqn:Emime;
    try discriminate.
  destruct (field "protocol" format) as [[| | |protocol| |]|] eqn:Eprotocol;
    try discriminate.
  destruct (get_of_dict "preset" "quality" chosen _ PyNone Epreset)
    as [quality Equality].
  unfold log_chosen.
  rewrite (getitem_field _ _ _ Epreset). cbn [bind].
  rewrite Equality. cbn [bind].
  rewrite (getitem_field _ _ _ Eformat). cbn [bind].
  rewrite (getitem_field _ _ _ Eprotocol). cbn [bind].
  rewrite (getitem_field _ _ _ Emime). cbn [bind].
  rewrite (get_field _ _ _ _ Eformat). cbn [bind].
  rewrite (get_field _ _ _ _ Emime). cbn [bind].
  rewrite Hc. cbn [bind]. now destruct output_path as [[|c p]|].
Qed.

Lemma find_first {A : Type} (f : A -> bool) (pre post : list A) (t : A) :
  forallb (fun u => negb (f u)) pre = true -> f t = true ->
  find f (pre ++ t :: post) = Some t.
Proof.
  intros Hpre Ht. induction pre as [|u pre IH]; simpl in *.
  - now rewrite Ht.
  - apply andb_true_iff in Hpre as [Hu Hpre].
    apply negb_true_iff in Hu. rewrite Hu. now apply IH.
Qed.

Lemma find_filter {A : Type} (f g : A -> bool) (l : list A) :
  find (fun t => f t && g t) l = find g (filter f l).
Proof.
  induction l as [|a l IH]; simpl; [reflexivity|].
  destruct (f a); simpl; [|exact IH].
  now destruct (g a).
Qed.

Lemma cascade_hq (l : list pyval) (t : pyval) :
  find usable_hq l = Some t -> cascade l true = Some t.
Proof. intros H. unfold cascade. now rewrite H. Qed.

(** C1: with the HQ preference on, a list holding a non-encrypted entry of
    quality "hq" selects the first such entry in list order, whatever its
    preset family; it is the entry [soundcloud_download_track] returns when
    it is called with an output path (without one the function returns
    [None], whatever was selected). *)
Theorem select_hq_takes_first_usable_hq (pre post : list pyval) (t : pyval) :
  forallb well_typed (pre ++ t :: post) = true ->
  forallb (fun u => negb (usable_hq u)) pre = true ->
  encrypted t = false ->
  quality_is "hq" t = true ->
  select_transcoding (PyList (pre ++ t :: post)) true = Ok t /\
  (forall requests_get tok item_id output_path track_data,
      soundcloud_fetch_track_data requests_get tok item_id = Ok track_data ->
      transcodings_of track_data = Some (PyList (pre ++ t :: post)) ->
      is_transcoding t = true ->
      exists path,
        soundcloud_download_track requests_get tok item_id true output_path
        = Ok (handed_back output_path path t)).
Proof.
  intros W Hpre Henc Hq.
  assert (Hsel : select_transcoding (PyList (pre ++ t :: post)) true = Ok t).
  { rewrite (select_cascade _ _ W).
    assert (Ht : usable_hq t = true)
      by (unfold usable_hq, usable; now rewrite Henc, Hq).
    rewrite (cascade_hq _ _ (find_first usable_hq pre post t Hpre Ht)).
    now destruct pre. }
  split; [exact Hsel|].
  intros requests_get tok item_id output_path track_data Hfetch Hts Hwf.
  destruct (download_returns requests_get tok item_id true output_path
              track_data _ t Hfetch Hts Hsel Hwf)
    as (container & _ & Hrun).
  eexists. exact Hrun.
Qed.

(** An HQ Opus entry standing before an HQ AAC entry and behind an encrypted
    HQ entry is the one selected, and returned for the path "song.flac". *)
Lemma select_hq_takes_first_usable_hq_witness :
  let sq := transcoding "aac_160k" "sq" "audio/mp4" "hls" "u0" in
  let locked := transcoding "aac_256k" "hq" "audio/mp4" "ctr-encrypted-hls" "u1" in
  let opus := transcoding "opus_0_0" "hq" "audio/ogg" "hls" "u2" in
  let aac := transcoding "aac_1_0" "hq" "audio/mp4" "progressive" "u3" in
  let track :=
    track_record
      [("media", PyDict [("transcodings", PyList [sq; locked; opus; aac])])] in
  select_transcoding (PyList ([sq; locked] ++ opus :: [aac])) true = Ok opus /\
  exists path,
    soundcloud_download_track (respond track) guest "2" true
      (Some "song.flac"%string)
    = Ok (Some (path, opus)).
Proof.
  intros sq locked opus aac track.
  destruct (select_hq_takes_first_usable_hq [sq; locked] [aac] opus
              eq_refl eq_refl eq_refl eq_refl) as (Hsel & Hrun).
  split; [exact Hsel|].
  apply (Hrun (respond track) guest "2"%string (Some "song.flac"%string)
           track);
    reflexivity.
Defined.

(** An encrypted entry is skipped by every scan before its quality or
    preset is read, and the debug line reads it without failing. *)
Lemma encrypted_shape (t : pyval) :
  encrypted t = true ->
  exists d f p,
    t = PyDict d /\ Py.lookup "format" d = Some (PyDict f) /\
    Py.lookup "protocol" f = Some (PyStr p) /\
    Str.contains "encrypted" p = true.
Proof.
  unfold encrypted, protocol_of, field.
  destruct t as [| | | | |d]; try discriminate.
  destruct (Py.lookup "format" d) as [[| | | | |f]|] eqn:Ef; try discriminate.
  destruct (Py.lookup "protocol" f) as [[| | |p| |]|] eqn:Ep; try discriminate.
  intros H. exists d, f, p. repeat split; assumption.
Qed.

Lemma keeps_encrypted (quality preset_prefix : option string) (t : pyval) :
  encrypted t = true -> keeps quality preset_prefix t = Ok false.
Proof.
  intros H. destruct (encrypted_shape _ H) as (d & f & p & -> & Ef & Ep & Hc).
  unfold keeps. simpl. rewrite Ef. simpl. rewrite Ep. simpl. now rewrite Hc.
Qed.

Lemma debug_encrypted (t : pyval) :
  encrypted t = true -> debug_transcoding t = Ok tt.
Proof.
  intros H. destruct (encrypted_shape _ H) as (d & f & p & -> & Ef & Ep & Hc).
  unfold debug_transcoding. simpl. now rewrite Ef.
Qed.

Lemma filter_loop_encrypted (quality preset_prefix : option string)
    (l : list pyval) :
  forallb encrypted l = true -> filter_loop quality preset_prefix l = Ok [].
Proof.
  induction l as [|t l IH]; simpl; [reflexivity|].
  intros H. apply andb_true_iff in H as [Ht Hl].
  now rewrite (keeps_encrypted _ _ _ Ht), (IH Hl).
Qed.

Lemma debug_loop_encrypted (l : list pyval) :
  forallb encrypted l = true -> debug_loop l = Ok tt.
Proof.
  induction l as [|t l IH]; simpl; [reflexivity|].
  intros H. apply andb_true_iff in H as [Ht Hl].
  now rewrite (debug_encrypted _ Ht), (IH Hl).
Qed.

Lemma download_raises_with_selection
    (requests_get : string -> token -> result response)
    (tok : token) (item_id : string) (hq : bool) (output_path : option string)
    (track_data transcodings : pyval) (e : exn) :
  soundcloud_fetch_track_data requests_get tok item_id = Ok track_data ->
  transcodings_of track_data = Some transcodings ->
  select_transcoding transcodings hq = Raise e ->
  soundcloud_download_track requests_get tok item_id hq output_path = Raise e.
Proof.
  intros Hfetch Hts Hsel. unfold transcodings_of in Hts.
  destruct (field "media" track_data) as [media|] eqn:Emedia; [|discriminate].
  destruct (get_of_dict "media" "track_authorization" track_data media PyNone
              Emedia) as [track_auth Eauth].
  unfold soundcloud_download_track.
  rewrite Hfetch. cbn [bind].
  rewrite (get_field _ _ _ _ Emedia). cbn [bind].
  rewrite (get_field _ _ _ _ Hts). cbn [bind].
  rewrite Eauth. cbn [bind]. now rewrite Hsel.
Qed.

(** C2: a transcoding list that is empty, or whose entries all have a
    protocol containing "encrypted", makes the selection raise, whatever the
    HQ flag, and [soundcloud_download_track] raises with it: no transcoding
    is returned. *)
Theorem select_fails_without_usable_entry (l : list pyval) (hq : bool) :
  forallb encrypted l = true ->
  exists e,
    NoUsableStream e /\
    select_transcoding (PyList l) hq = Raise e /\
    (forall requests_get tok item_id output_path track_data,
        soundcloud_fetch_track_data requests_get tok item_id = Ok track_data ->
        transcodings_of track_data = Some (PyList l) ->
        soundcloud_download_track requests_get tok item_id hq output_path
        = Raise e).
Proof.
  intros H.
  assert (Hsel : exists e, NoUsableStream e /\
                           select_transcoding (PyList l) hq = Raise e).
  { unfold select_transcoding.
    destruct l as [|t l].
    - eexists. split; [now left | reflexivity].
    - cbn [Py.truthy negb Py.len Py.iter bind].
      rewrite (debug_loop_encrypted _ H). cbn [bind].
      unfold choose_transcoding, filter_transcodings. cbn [Py.iter bind].
      rewrite !(filter_loop_encrypted _ _ _ H).
      eexists. split; [now right | destruct hq; reflexivity]. }
  destruct Hsel as (e & He & Hsel).
  exists e. split; [exact He|]. split; [exact Hsel|].
  intros requests_get tok item_id output_path track_data Hfetch Hts.
  now apply (download_raises_with_selection _ _ _ _ _ track_data (PyList l)).
Qed.

(** Two encrypted entries, and no entry at all. *)
Lemma select_fails_without_usable_entry_witness :
  let locked := transcoding "aac_256k" "hq" "audio/mp4" "ctr-encrypted-hls" "u1" in
  let sealed := transcoding "mp3_0_0" "sq" "audio/mpeg" "cbc-encrypted-hls" "u2" in
  let track :=
    track_record [("media", PyDict [("transcodings", PyList [locked; sealed])])] in
  (exists e,
      NoUsableStream e /\
      select_transcoding (PyList [locked; sealed]) true = Raise e /\
      soundcloud_download_track (respond track) guest "2" true None = Raise e) /\
  (exists e,
      NoUsableStream e /\
      select_transcoding (PyList []) false = Raise e).
Proof.
  intros locked sealed track. split.
  - destruct (select_fails_without_usable_entry [locked; sealed] true eq_refl)
      as (e & He & Hsel & Hrun).
    exists e. split; [exact He|]. split; [exact Hsel|].
    apply (Hrun (respond track) guest "2"%string None track); reflexivity.
  - destruct (select_fails_without_usable_entry [] false eq_refl)
      as (e & He & Hsel & _).
    exists e. split; [exact He | exact Hsel].
Defined.

(** C3: when no HQ entry is taken, the first usable AAC entry wins wherever
    it stands, else the first usable MP3 entry, else the first usable Opus
    entry; so a list whose usable entries are opus_0, mp3_0, aac_0 in that
    order selects the aac_0 entry.  What is selected is what
    [soundcloud_download_track] returns when it is called with an output
    path (without one the function returns [None]). *)
Theorem codec_fallback_order (l : list pyval) (hq : bool) :
  forallb well_typed l = true ->
  hq = false \/ find usable_hq l = None ->
  (forall o m a,
      filter usable l = [o; m; a] ->
      preset_of o = "opus_0"%string -> preset_of m = "mp3_0"%string ->
      preset_of a = "aac_0"%string ->
      select_transcoding (PyList l) hq = Ok a) /\
  (forall t,
      find (usable_with_prefix "aac_") l = Some t ->
      select_transcoding (PyList l) hq = Ok t) /\
  (forall t,
      find (usable_with_prefix "aac_") l = None ->
      find (usable_with_prefix "mp3_") l = Some t ->
      select_transcoding (PyList l) hq = Ok t) /\
  (forall t,
      find (usable_with_prefix "aac_") l = None ->
      find (usable_with_prefix "mp3_") l = None ->
      find (usable_with_prefix "opus_") l = Some t ->
      select_transcoding (PyList l) hq = Ok t) /\
  (forall t requests_get tok item_id output_path track_data,
      select_transcoding (PyList l) hq = Ok t ->
      soundcloud_fetch_track_data requests_get tok item_id = Ok track_data ->
      transcodings_of track_data = Some (PyList l) ->
      is_transcoding t = true ->
      exists path,
        soundcloud_download_track requests_get tok item_id hq output_path
        = Ok (handed_back output_path path t)).
Proof.
  intros W Hhq.
  assert (no_hq : (if hq then find usable_hq l else None) = None)
    by (destruct Hhq as [-> | E]; [reflexivity | now destruct hq]).
  assert (by_aac : forall t, find (usable_with_prefix "aac_") l = Some t ->
                             select_transcoding (PyList l) hq = Ok t).
  { intros t E. rewrite (select_cascade _ _ W). unfold cascade.
    rewrite no_hq, E. destruct l; [discriminate | reflexivity]. }
  split; [|split; [|split; [|split]]].
  - intros o m a Hl Ho Hm Ha. apply by_aac.
    unfold usable_with_prefix.
    rewrite (find_filter usable (fun t => Str.startswith "aac_" (preset_of t))).
    rewrite Hl. simpl. now rewrite Ho, Hm, Ha.
  - exact by_aac.
  - intros t Ea Em. rewrite (select_cascade _ _ W). unfold cascade.
    rewrite no_hq, Ea, Em. destruct l; [discriminate | reflexivity].
  - intros t Ea Em Eo. rewrite (select_cascade _ _ W). unfold cascade.
    rewrite no_hq, Ea, Em, Eo. destruct l; [discriminate | reflexivity].
  - intros t requests_get tok item_id output_path track_data
      Hsel Hfetch Hts Hwf.
    destruct (download_returns requests_get tok item_id hq output_path
                track_data _ t Hfetch Hts Hsel Hwf)
      as (container & _ & Hrun).
    eexists. exact Hrun.
Qed.

(** Opus, an encrypted AAC, MP3, AAC: the last entry wins without HQ; with
    the AAC entry gone and HQ asked for in vain, the MP3 entry wins. *)
Lemma codec_fallback_order_witness :
  let opus := transcoding "opus_0" "sq" "audio/ogg" "hls" "u0" in
  let locked := transcoding "aac_1" "sq" "audio/mp4" "ctr-encrypted-hls" "u1" in
  let mp3 := transcoding "mp3_0" "sq" "audio/mpeg" "progressive" "u2" in
  let aac := transcoding "aac_0" "sq" "audio/mp4" "hls" "u3" in
  let track :=
    track_record
      [("media", PyDict [("transcodings", PyList [opus; locked; mp3; aac])])] in
  select_transcoding (PyList [opus; locked; mp3; aac]) false = Ok aac /\
  (exists path,
      soundcloud_download_track (respond track) guest "2" false
        (Some "song.flac"%string)
      = Ok (Some (path, aac))) /\
  select_transcoding (PyList [opus; locked; mp3]) true = Ok mp3.
Proof.
  intros opus locked mp3 aac track. split; [|split].
  - destruct (codec_fallback_order [opus; locked; mp3; aac] false
                eq_refl (or_introl eq_refl)) as (in_order & _).
    apply (in_order opus mp3 aac); reflexivity.
  - destruct (codec_fallback_order [opus; locked; mp3; aac] false
                eq_refl (or_introl eq_refl)) as (_ & _ & _ & _ & returned).
    apply (returned aac (respond track) guest "2"%string
             (Some "song.flac"%string) track);
      reflexivity.
  - destruct (codec_fallback_order [opus; locked; mp3] true
                eq_refl (or_intror eq_refl)) as (_ & _ & by_mp3 & _).
    apply by_mp3; reflexivity.
Defined.

(** ** Output path *)

Lemma take_drop (n : nat) (s : string) : (Str.take n s ++ Str.drop n s)%string = s.
Proof.
  revert s. induction n as [|n IH]; intros s; [reflexivity|].
  destruct s as [|c s]; simpl; [reflexivity|]. now rewrite IH.
Qed.

Lemma splitext_concat (p : string) :
  (fst (Str.splitext p) ++ snd (Str.splitext p))%string = p.
Proof.
  unfold Str.splitext.
  destruct (_ && _); simpl; [apply take_drop|].
  induction p as [|c p IH]; simpl; [reflexivity | now rewrite IH].
Qed.

Lemma rfind_char_range (c : ascii) (s : string) :
  Str.rfind_char c s = -1 \/
  0 <= Str.rfind_char c s < Z.of_nat (String.length s).
Proof.
  induction s as [|a s IH]; [now left|].
  cbn [Str.rfind_char String.length].
  destruct (Str.rfind_char c s =? -1) eqn:E.
  - destruct (Ascii.eqb a c); [right; lia | now left].
  - apply Z.eqb_neq in E. right. lia.
Qed.

Lemma rfind_char_last (c : ascii) (s : string) :
  0 <= Str.rfind_char c s ->
  exists rest,
    Str.drop (Z.to_nat (Str.rfind_char c s)) s = String c rest /\
    Str.rfind_char c rest = -1.
Proof.
  induction s as [|a s IH]; cbn [Str.rfind_char]; [lia|].
  destruct (Str.rfind_char c s =? -1) eqn:E.
  - apply Z.eqb_eq in E.
    destruct (Ascii.eqb a c) eqn:Eac; [|lia].
    apply Ascii.eqb_eq in Eac. subst a. intros _. now exists s.
  - apply Z.eqb_neq in E. intros _.
    destruct (rfind_char_range c s) as [R | R]; [contradiction|].
    destruct (IH (proj1 R)) as (rest & Hdrop & Hrest).
    exists rest. split; [|exact Hrest].
    replace (Z.to_nat (Str.rfind_char c s + 1))
      with (S (Z.to_nat (Str.rfind_char c s))) by lia.
    exact Hdrop.
Qed.

Lemma rfind_char_absent (c : ascii) (s : string) :
  Str.rfind_char c s = -1 -> Str.contains (String c "") s = false.
Proof.
  induction s as [|a s IH]; cbn [Str.rfind_char]; [reflexivity|].
  destruct (Str.rfind_char c s =? -1) eqn:E.
  - apply Z.eqb_eq in E.
    destruct (Ascii.eqb a c) eqn:Eac; [discriminate|]. intros _.
    cbn [Str.contains Str.startswith].
    rewrite Ascii.eqb_sym, Eac. simpl. now apply IH.
  - apply Z.eqb_neq in E.
    destruct (rfind_char_range c s) as [R | R]; [contradiction | lia].
Qed.

Lemma rfind_char_drop (c : ascii) (s : string) (n : nat) :
  Str.rfind_char c s < Z.of_nat n -> Str.rfind_char c (Str.drop n s) = -1.
Proof.
  revert n. induction s as [|a s IH]; intros n.
  - now destruct n.
  - destruct n as [|n].
    + intros H.
      destruct (rfind_char_range c (String a s)) as [R | R]; [exact R | lia].
    + cbn [Str.rfind_char Str.drop]. intros H. apply IH.
      destruct (Str.rfind_char c s =? -1) eqn:E.
      * apply Z.eqb_eq in E. lia.
      * lia.
Qed.

Lemma drop_next (n : nat) (s rest : string) (c : ascii) :
  Str.drop n s = String c rest -> Str.drop (S n) s = rest.
Proof.
  revert s. induction n as [|n IH]; intros s.
  - simpl. now intros ->.
  - destruct s as [|a s]; [discriminate|]. intros H. now apply IH.
Qed.

Lemma splitext_extension (p : string) : extension (snd (Str.splitext p)).
Proof.
  unfold Str.splitext.
  destruct (_ && _) eqn:E; [|now left]. right. cbn [snd].
  apply andb_true_iff in E as [Hlt _]. apply Z.ltb_lt in Hlt.
  assert (Hdot : 0 <= Str.rfind_char "." p).
  { destruct (rfind_char_range "/" p) as [R | R]; lia. }
  destruct (rfind_char_last _ _ Hdot) as (rest & Hdrop & Hrest).
  exists rest. split; [exact Hdrop|]. split.
  - now apply rfind_char_absent.
  - apply rfind_char_absent.
    rewrite <- (drop_next _ _ _ _ Hdrop).
    apply rfind_char_drop. lia.
Qed.

(** C5: when the selection succeeds, with a chosen transcoding carrying the
    fields of the data model, the path is computed from strings alone.
    Called with an output path, [soundcloud_download_track] returns the
    chosen transcoding with the given path, its extension (what [splitext]
    cuts off its end: nothing, or the last dot of the file name and what
    follows it) replaced by the container inferred from the chosen mime
    type.  Called without one ([None] or the empty string), it derives
    "soundcloud_<item_id>.<container>" and returns [None]: no path and no
    transcoding come back. *)
Theorem download_output_path
    (requests_get : string -> token -> result response)
    (tok : token) (item_id : string) (hq : bool) (output_path : option string)
    (track_data transcodings chosen : pyval) :
  soundcloud_fetch_track_data requests_get tok item_id = Ok track_data ->
  transcodings_of track_data = Some transcodings ->
  select_transcoding transcodings hq = Ok chosen ->
  is_transcoding chosen = true ->
  exists container : string,
    guess_container_from_mime (PyStr (mime_type_of chosen)) = Ok container /\
    soundcloud_download_track requests_get tok item_id hq output_path
    = Ok (match output_path with
          | None | Some EmptyString => None
          | Some p => Some (fst (Str.splitext p) ++ "." ++ container, chosen)
          end)%string /\
    (output_path = None \/ output_path = Some ""%string ->
     derive_output_path item_id container output_path
     = ("soundcloud_" ++ item_id ++ "." ++ container)%string) /\
    (forall p, output_path = Some p ->
               (fst (Str.splitext p) ++ snd (Str.splitext p))%string = p /\
               extension (snd (Str.splitext p))).
Proof.
  intros Hfetch Hts Hsel Hwf.
  destruct (download_returns requests_get tok item_id hq output_path
              track_data transcodings chosen Hfetch Hts Hsel Hwf)
    as (container & Hc & Hrun).
  exists container. split; [exact Hc|].
  split; [|split;
           [intros [-> | ->]; reflexivity
           |intros; split; [apply splitext_concat | apply splitext_extension]]].
  rewrite Hrun. unfold handed_back, derive_output_path.
  destruct output_path as [[|c p]|]; try reflexivity.
  destruct (Str.splitext (String c p)). reflexivity.
Qed.

(** A given path with two dots keeps all but its last extension; without a
    path the name is built from the item id, and [None] is returned. *)
Lemma download_output_path_witness :
  let opus := transcoding "opus_0_0" "hq" "audio/ogg; codecs=opus" "hls" "u0" in
  let aac := transcoding "aac_160k" "sq" "audio/mp4" "hls" "u1" in
  let track :=
    track_record [("media", PyDict [("transcodings", PyList [aac; opus])])] in
  soundcloud_download_track (respond track) guest "2" true
    (Some "music/artist - song.v2.flac"%string)
  = Ok (Some ("music/artist - song.v2.ogg"%string, opus)) /\
  (soundcloud_download_track (respond track) guest "2" false None = Ok None /\
   derive_output_path "2" "m4a" None = "soundcloud_2.m4a"%string).
Proof.
  intros opus aac track. split.
  - destruct (download_output_path (respond track) guest "2" true
                (Some "music/artist - song.v2.flac"%string)
                track (PyList [aac; opus]) opus
                eq_refl eq_refl eq_refl eq_refl)
      as (container & Hc & Hrun & _).
    injection Hc as <-. exact Hrun.
  - destruct (download_output_path (respond track) guest "2" false None
                track (PyList [aac; opus]) aac
                eq_refl eq_refl eq_refl eq_refl)
      as (container & Hc & Hrun & Hname & _).
    injection Hc as <-. split; [exact Hrun | apply Hname; now left].
Defined.

(** ** Track number, total and album type *)

Lemma count_tracks_scan (track_data track_id : pyval) (tracks : list pyval) :
  field "id" track_data = Some track_id ->
  forallb has_id tracks = true ->
  forall counter : Z,
  exists n : Z,
    count_tracks tracks track_data counter = Ok n /\
    (forall pre trk post,
        tracks = (pre ++ trk :: post)%list ->
        forallb (fun u => negb (id_is track_id u)) pre = true ->
        id_is track_id trk = true ->
        n = counter + Z.of_nat (List.length pre) + 1) /\
    (forallb (fun u => negb (id_is track_id u)) tracks = true ->
     n = counter + Z.of_nat (List.length tracks)).
Proof.
  intros Hid. induction tracks as [|trk rest IH]; intros Hids counter.
  - exists counter. split; [reflexivity|]. split.
    + intros [|? ?] ? ? E; discriminate.
    + intros _. simpl. lia.
  - simpl in Hids. apply andb_true_iff in Hids as [Htrk Hrest].
    unfold has_id in Htrk.
    destruct (field "id" trk) as [trk_id|] eqn:Etrk; [|discriminate].
    assert (Eis : id_is track_id trk = Py.eq trk_id track_id)
      by (unfold id_is; now rewrite Etrk).
    cbn [count_tracks].
    rewrite (getitem_field _ _ _ Etrk). cbn [bind].
    rewrite (getitem_field _ _ _ Hid). cbn [bind].
    destruct (Py.eq trk_id track_id) eqn:Eeq.
    + exists (counter + 1). split; [reflexivity|]. split.
      * intros [|u pre] trk' post E Hpre Hmatch.
        -- simpl. lia.
        -- injection E as <- _. simpl in Hpre.
           rewrite Eis in Hpre. discriminate.
      * intros Hnone. simpl in Hnone. rewrite Eis in Hnone. discriminate.
    + destruct (IH Hrest (counter + 1)) as (n & Hn & Hfirst & Hnone).
      exists n. split; [exact Hn|]. split.
      * intros [|u pre] trk' post E Hpre Hmatch.
        -- injection E as <- _. rewrite Eis in Hmatch. discriminate.
        -- injection E as _ E. simpl in Hpre.
           apply andb_true_iff in Hpre as [_ Hpre].
           rewrite (Hfirst pre trk' post E Hpre Hmatch).
           cbn [List.length]. lia.
      * intros Hall. simpl in Hall. apply andb_true_iff in Hall as [_ Hall].
        rewrite (Hnone Hall). cbn [List.length]. lia.
Qed.

Lemma track_number_block_album
    (album_data track_data total track_id : pyval) (tracks : list pyval) :
  field "track_count" album_data = Some total ->
  field "tracks" album_data = Some (PyList tracks) ->
  field "id" track_data = Some track_id ->
  forallb has_id tracks = true ->
  exists n : Z,
    track_number_block album_data track_data = Ok (total, PyInt n, "album"%string) /\
    (forall pre trk post,
        tracks = (pre ++ trk :: post)%list ->
        forallb (fun u => negb (id_is track_id u)) pre = true ->
        id_is track_id trk = true ->
        n = Z.of_nat (List.length pre) + 1) /\
    (forallb (fun u => negb (id_is track_id u)) tracks = true ->
     n = Z.of_nat (List.length tracks)).
Proof.
  intros Htotal Htracks Hid Hids.
  destruct (count_tracks_scan _ _ _ Hid Hids 0) as (n & Hn & Hfirst & Hnone).
  exists n. split; [|split].
  - unfold track_number_block.
    rewrite (getitem_field _ _ _ Htotal). cbn [bind].
    rewrite (getitem_field _ _ _ Htracks). cbn [bind Py.iter].
    rewrite Hn. reflexivity.
  - intros pre trk post E Hpre Hmatch.
    rewrite (Hfirst pre trk post E Hpre Hmatch). lia.
  - intros Hall. rewrite (Hnone Hall). lia.
Qed.

Lemma getitem_raises (v : pyval) (k : string) (e : exn) :
  Py.getitem v k = Raise e -> e = KeyError \/ e = TypeError.
Proof.
  destruct v as [| | | | |d]; simpl; try (intros [= <-]; now right).
  destruct (Py.lookup k d); [discriminate | intros [= <-]; now left].
Qed.

Lemma count_tracks_raises (tracks : list pyval) (track_data : pyval)
    (counter : Z) (e : exn) :
  count_tracks tracks track_data counter = Raise e ->
  e = KeyError \/ e = TypeError.
Proof.
  revert counter. induction tracks as [|trk rest IH]; intros counter;
    cbn [count_tracks]; [discriminate|].
  destruct (Py.getitem trk "id") as [trk_id|e1] eqn:E1; cbn [bind].
  - destruct (Py.getitem track_data "id") as [track_id|e2] eqn:E2; cbn [bind].
    + destruct (Py.eq trk_id track_id); [discriminate | apply IH].
    + intros [= <-]. eapply getitem_raises; eassumption.
  - intros [= <-]. eapply getitem_raises; eassumption.
Qed.

(** The block never raises, and has two outcomes only. *)
Lemma track_number_block_outcomes (album_data track_data : pyval) :
  track_number_block album_data track_data
  = Ok (PyStr "1", PyStr "1", "single"%string) \/
  exists total n,
    field "track_count" album_data = Some total /\
    track_number_block album_data track_data = Ok (total, PyInt n, "album"%string).
Proof.
  unfold track_number_block.
  destruct (Py.getitem album_data "track_count") as [total|e] eqn:Etotal;
    cbn [bind].
  2: { left. destruct (getitem_raises _ _ _ Etotal) as [-> | ->]; reflexivity. }
  assert (Hfield : field "track_count" album_data = Some total).
  { destruct album_data as [| | | | |d]; try discriminate. simpl in *.
    destruct (Py.lookup "track_count" d); [now injection Etotal as -> | discriminate]. }
  destruct (Py.getitem album_data "tracks") as [tracks|e] eqn:Etracks;
    cbn [bind].
  2: { left. destruct (getitem_raises _ _ _ Etracks) as [-> | ->]; reflexivity. }
  destruct (Py.iter tracks) as [items|e] eqn:Eiter; cbn [bind].
  2: { left. destruct tracks; simpl in Eiter; try discriminate;
       injection Eiter as <-; reflexivity. }
  destruct (count_tracks items track_data 0) as [n|e] eqn:Ecount; cbn [bind].
  - right. now exists total, n.
  - left. destruct (count_tracks_raises _ _ _ _ Ecount) as [-> | ->]; reflexivity.
Qed.

(** ** The resolver as a whole *)

Ltac bind_ok H :=
  match type of H with
  | bind ?m _ = Ok _ =>
      let E := fresh "E" in
      destruct m eqn:E; cbn [bind] in H; [|discriminate H]
  end.

Section Resolver.

Variable make_call : string -> option token -> bool -> result pyval.
Variable conv_list_format : pyval -> result pyval.
Variable repr : pyval -> string.
Variable tok : token.
Variable item_id : string.

(** Whenever the resolver returns, the album fields and the length of its
    result are what the corresponding blocks computed from the track record
    and the outcome of the scrape. *)
Lemma metadata_fields (info track_data album_data : pyval)
    (start_index : Z) (track_webpage : string) :
  make_call (BASE_URL ++ "/tracks/" ++ item_id) (Some tok) false
  = Ok track_data ->
  scrape_album make_call repr tok track_data
  = Ok (start_index, track_webpage, album_data) ->
  soundcloud_get_track_metadata make_call conv_list_format repr tok item_id
  = Ok info ->
  exists total_tracks track_number album_type album_name length,
    track_number_block album_data track_data
    = Ok (total_tracks, track_number, album_type) /\
    album_name_block track_data start_index track_webpage = Ok album_name /\
    length_field repr track_data = Ok length /\
    field "track_number" info = Some track_number /\
    field "total_tracks" info = Some total_tracks /\
    field "album_type" info = Some (PyStr album_type) /\
    field "album_name" info = Some album_name /\
    field "length" info = Some length.
Proof.
  unfold soundcloud_get_track_metadata. intros Etrack Escrape H.
  rewrite Etrack in H. cbn [bind] in H.
  rewrite Escrape in H. cbn [bind] in H.
  bind_ok H. rename a into artists.
  bind_ok H. destruct a as [[total_tracks track_number] album_type].
  repeat bind_ok H.
  injection H as <-.
  exists total_tracks, track_number, album_type.
  eexists. eexists.
  do 3 (split; [reflexivity|]).
  match goal with |- context [Py.truthy ?l] => destruct (Py.truthy l) end;
    repeat split; reflexivity.
Qed.

(** A fetch that raises, for the track, its page or its album, ends the
    resolver with that exception. *)
Lemma track_fetch_raises (e : exn) :
  make_call (BASE_URL ++ "/tracks/" ++ item_id) (Some tok) false = Raise e ->
  soundcloud_get_track_metadata make_call conv_list_format repr tok item_id
  = Raise e.
Proof.
  intros E. unfold soundcloud_get_track_metadata. now rewrite E.
Qed.

Lemma scrape_raises (track_data : pyval) (e : exn) :
  make_call (BASE_URL ++ "/tracks/" ++ item_id) (Some tok) false
  = Ok track_data ->
  scrape_album make_call repr tok track_data = Raise e ->
  soundcloud_get_track_metadata make_call conv_list_format repr tok item_id
  = Raise e.
Proof.
  intros Etrack E. unfold soundcloud_get_track_metadata.
  rewrite Etrack. cbn [bind]. now rewrite E.
Qed.

End Resolver.

Lemma find_lower_bound (needle s : string) : -1 <= Str.find needle s.
Proof.
  induction s as [|c s IH]; simpl.
  - destruct (Str.startswith needle ""); lia.
  - destruct (Str.startswith needle (String c s)); [lia|].
    destruct (Str.find needle s =? -1) eqn:E; lia.
Qed.

Lemma find_spec (needle s : string) :
  Str.find needle s = -1 <-> ~ Occurs needle s.
Proof.
  rewrite <- contains_false_spec.
  induction s as [|c s IH]; simpl.
  - destruct (Str.startswith needle ""); simpl; split; (discriminate || reflexivity).
  - destruct (Str.startswith needle (String c s)); simpl.
    + split; discriminate.
    + pose proof (find_lower_bound needle s) as B.
      destruct (Str.find needle s =? -1) eqn:E.
      * apply Z.eqb_eq in E. rewrite <- IH. split; intros _; [exact E | reflexivity].
      * apply Z.eqb_neq in E. rewrite <- IH. split; lia.
Qed.

Lemma find_found (needle s : string) :
  Occurs needle s -> (Str.find needle s =? -1) = false.
Proof.
  intros H. apply Z.eqb_neq. intros E. now apply find_spec in E.
Qed.

(** ** Track number: position and types *)

(** C7: with an album record obtained, [track_number] is the 1-based
    position of the first entry of the album's tracks whose id equals the
    track's id, and the length of the list when no entry matches;
    [total_tracks] is the album's [track_count] and [album_type] is "album".
    For tracks with ids 1, 2, 3, a count of 3 and the track with id 2 the
    result is 2, 3 and "album". *)
Theorem track_number_by_scan
    (make_call : string -> option token -> bool -> result pyval)
    (conv_list_format : pyval -> result pyval) (repr : pyval -> string)
    (tok : token) (item_id : string)
    (album_data track_data total track_id : pyval) (tracks : list pyval) :
  field "track_count" album_data = Some total ->
  field "tracks" album_data = Some (PyList tracks) ->
  field "id" track_data = Some track_id ->
  forallb has_id tracks = true ->
  exists n : Z,
    track_number_block album_data track_data
    = Ok (total, PyInt n, "album"%string) /\
    (forall pre trk post,
        tracks = (pre ++ trk :: post)%list ->
        forallb (fun u => negb (id_is track_id u)) pre = true ->
        id_is track_id trk = true ->
        n = Z.of_nat (List.length pre) + 1) /\
    (forallb (fun u => negb (id_is track_id u)) tracks = true ->
     n = Z.of_nat (List.length tracks)) /\
    (forall start_index track_webpage info,
        make_call (BASE_URL ++ "/tracks/" ++ item_id) (Some tok) false
        = Ok track_data ->
        scrape_album make_call repr tok track_data
        = Ok (start_index, track_webpage, album_data) ->
        soundcloud_get_track_metadata make_call conv_list_format repr tok item_id
        = Ok info ->
        field "track_number" info = Some (PyInt n) /\
        field "total_tracks" info = Some total /\
        field "album_type" info = Some (PyStr "album")).
Proof.
  intros Htotal Htracks Hid Hids.
  destruct (track_number_block_album _ _ _ _ _ Htotal Htracks Hid Hids)
    as (n & Hblock & Hfirst & Hnone).
  exists n. split; [exact Hblock|]. split; [exact Hfirst|].
  split; [exact Hnone|].
  intros start_index track_webpage info Etrack Escrape Erun.
  destruct (metadata_fields _ _ _ _ _ _ _ _ _ _ Etrack Escrape Erun)
    as (tt' & tn & aty & an & len & Eblock & _ & _ & Fn & Ft & Fa & _).
  rewrite Hblock in Eblock. injection Eblock as <- <- <-.
  repeat split; assumption.
Qed.

(** The scenario of the specification: ids 1, 2, 3, a count of 3, the track
    with id 2. *)
Lemma track_number_by_scan_witness :
  track_number_block album_record (track_record [])
  = Ok (PyInt 3, PyInt 2, "album"%string) /\
  exists info,
    resolve (table_album (track_record []) (Ok (PyStr album_page))
               (Ok album_record)) = Ok info /\
    field "track_number" info = Some (PyInt 2) /\
    field "total_tracks" info = Some (PyInt 3) /\
    field "album_type" info = Some (PyStr "album").
Proof.
  pose (table := table_album (track_record []) (Ok (PyStr album_page))
                   (Ok album_record)).
  destruct (track_number_by_scan (serve table) join_items plain_repr guest "2"
              album_record (track_record []) (PyInt 3) (PyInt 2)
              [PyDict [("id", PyInt 1)]; PyDict [("id", PyInt 2)];
               PyDict [("id", PyInt 3)]]
              eq_refl eq_refl eq_refl eq_refl)
    as (n & Hblock & Hfirst & _ & Hinfo).
  pose proof (Hfirst [PyDict [("id", PyInt 1)]] (PyDict [("id", PyInt 2)])
                [PyDict [("id", PyInt 3)]] eq_refl eq_refl eq_refl) as Hn.
  simpl in Hn. subst n. split; [exact Hblock|].
  eexists. split; [reflexivity|].
  eapply Hinfo; reflexivity.
Defined.

(** C10: [track_number] and [total_tracks] are the strings "1" and "1" when
    no album context is obtained, and integers when an album record with an
    integer [track_count] and a list of tracks is obtained; the block has no
    third outcome, so the two fields are strings in the single case and
    numbers in the album case. *)
Theorem track_number_types
    (make_call : string -> option token -> bool -> result pyval)
    (conv_list_format : pyval -> result pyval) (repr : pyval -> string)
    (tok : token) (item_id : string) :
  (forall track_data,
      track_number_block PyNone track_data
      = Ok (PyStr "1", PyStr "1", "single"%string)) /\
  (forall album_data track_data count tracks track_id,
      field "track_count" album_data = Some (PyInt count) ->
      field "tracks" album_data = Some (PyList tracks) ->
      field "id" track_data = Some track_id ->
      forallb has_id tracks = true ->
      exists n : Z,
        track_number_block album_data track_data
        = Ok (PyInt count, PyInt n, "album"%string)) /\
  (forall album_data track_data start_index track_webpage info,
      make_call (BASE_URL ++ "/tracks/" ++ item_id) (Some tok) false
      = Ok track_data ->
      scrape_album make_call repr tok track_data
      = Ok (start_index, track_webpage, album_data) ->
      soundcloud_get_track_metadata make_call conv_list_format repr tok item_id
      = Ok info ->
      (field "track_number" info = Some (PyStr "1") /\
       field "total_tracks" info = Some (PyStr "1") /\
       field "album_type" info = Some (PyStr "single")) \/
      (exists (n : Z) (total : pyval),
          field "track_count" album_data = Some total /\
          field "track_number" info = Some (PyInt n) /\
          field "total_tracks" info = Some total /\
          field "album_type" info = Some (PyStr "album"))).
Proof.
  split; [reflexivity|]. split.
  - intros album_data track_data count tracks track_id Hc Ht Hid Hids.
    destruct (track_number_block_album _ _ _ _ _ Hc Ht Hid Hids)
      as (n & Hblock & _).
    now exists n.
  - intros album_data track_data start_index track_webpage info
      Etrack Escrape Erun.
    destruct (metadata_fields _ _ _ _ _ _ _ _ _ _ Etrack Escrape Erun)
      as (tt' & tn & aty & an & len & Eblock & _ & _ & Fn & Ft & Fa & _).
    destruct (track_number_block_outcomes album_data track_data)
      as [Hsingle | (total & n & Htotal & Halbum)].
    + left. rewrite Hsingle in Eblock. injection Eblock as <- <- <-.
      repeat split; assumption.
    + right. rewrite Halbum in Eblock. injection Eblock as <- <- <-.
      exists n, total. repeat split; assumption.
Qed.

(** A page without the marker gives strings; the album of the scenario
    gives integers. *)
Lemma track_number_types_witness :
  (exists info,
      resolve (table_page (track_record []) (Ok (PyStr plain_page))) = Ok info /\
      field "track_number" info = Some (PyStr "1") /\
      field "total_tracks" info = Some (PyStr "1")) /\
  (exists info,
      resolve (table_album (track_record []) (Ok (PyStr album_page))
                 (Ok album_record)) = Ok info /\
      exists n, field "track_number" info = Some (PyInt n) /\
                field "total_tracks" info = Some (PyInt 3)).
Proof.
  split.
  - pose (table := table_page (track_record []) (Ok (PyStr plain_page))).
    destruct (track_number_types (serve table) join_items plain_repr guest "2")
      as (_ & _ & Hinfo).
    eexists. split; [reflexivity|].
    destruct (Hinfo PyNone (track_record []) (-1) plain_page _
                eq_refl eq_refl eq_refl)
      as [(Hn & Ht & _) | (n & total & Hc & _)]; [|discriminate Hc].
    split; assumption.
  - pose (table := table_album (track_record []) (Ok (PyStr album_page))
                     (Ok album_record)).
    destruct (track_number_types (serve table) join_items plain_repr guest "2")
      as (_ & _ & Hinfo).
    eexists. split; [reflexivity|].
    destruct (Hinfo album_record (track_record []) 0 album_page _
                eq_refl eq_refl eq_refl)
      as [(Hn & _) | (n & total & Hc & Hn & Ht & _)]; [discriminate Hn|].
    injection Hc as <-. exists n. split; assumption.
Defined.

(** ** Album name *)

(** C8: an [album_name] present in [publisher_metadata] is the resolved
    album name, whatever the page holds and wherever the marker stands; and
    when the name comes from the scrape, a scraped text that starts with
    "Users who like" is dropped for the track's own title. *)
Theorem album_name_precedence
    (make_call : string -> option token -> bool -> result pyval)
    (conv_list_format : pyval -> result pyval) (repr : pyval -> string)
    (tok : token) (item_id : string)
    (track_data : pyval) (start_index : Z) (track_webpage : string) :
  (forall name,
      published_album_name track_data = Some name ->
      album_name_block track_data start_index track_webpage = Ok name) /\
  (forall text title,
      published_album_name track_data = None ->
      start_index <> -1 ->
      Str.search_a_tag (Str.slice_from start_index track_webpage) = Some text ->
      Str.startswith "Users who like" text = true ->
      field "title" track_data = Some title ->
      album_name_block track_data start_index track_webpage = Ok title) /\
  (forall album_data info,
      make_call (BASE_URL ++ "/tracks/" ++ item_id) (Some tok) false
      = Ok track_data ->
      scrape_album make_call repr tok track_data
      = Ok (start_index, track_webpage, album_data) ->
      soundcloud_get_track_metadata make_call conv_list_format repr tok item_id
      = Ok info ->
      exists name,
        album_name_block track_data start_index track_webpage = Ok name /\
        field "album_name" info = Some name).
Proof.
  split; [|split].
  - intros name H. unfold published_album_name in H.
    destruct (field "publisher_metadata" track_data) as [pm|] eqn:Epm;
      [|discriminate].
    unfold album_name_block.
    rewrite (getitem_field _ _ _ Epm). cbn [bind].
    now rewrite (getitem_field _ _ _ H).
  - intros text title Hnone Hstart Htag Hlikes Htitle.
    unfold album_name_block.
    assert (Hexcept :
              exists e, (publisher_metadata <-
                           Py.getitem track_data "publisher_metadata" ;;
                         Py.getitem publisher_metadata "album_name") = Raise e
                        /\ (e = KeyError \/ e = TypeError)).
    { unfold published_album_name in Hnone.
      destruct track_data as [| | | | |d]; try discriminate Htitle.
      simpl in Hnone |- *.
      destruct (Py.lookup "publisher_metadata" d) as [pm|]; cbn [bind].
      - destruct pm as [| | | | |m]; simpl;
          try (eexists; split; [reflexivity | now right]).
        simpl in Hnone. rewrite Hnone.
        eexists; split; [reflexivity | now left].
      - eexists; split; [reflexivity | now left]. }
    destruct Hexcept as (e & -> & He).
    apply Z.eqb_neq in Hstart.
    destruct He as [-> | ->]; cbn [try_except];
      rewrite Hstart; cbn [negb]; rewrite Htag, Hlikes;
      apply (getitem_field _ _ _ Htitle).
  - intros album_data info Etrack Escrape Erun.
    destruct (metadata_fields _ _ _ _ _ _ _ _ _ _ Etrack Escrape Erun)
      as (tt' & tn & aty & an & len & _ & Ename & _ & _ & _ & _ & Fname & _).
    now exists an.
Qed.

(** A published album name beats the album link of the page; the text
    "Users who like similar tracks" gives way to the title. *)
Lemma album_name_precedence_witness :
  let named :=
    track_record [("publisher_metadata",
                   PyDict [("album_name", PyStr "Second Album")])] in
  (exists info,
      resolve (table_album named (Ok (PyStr album_page)) (Ok album_record))
      = Ok info /\
      field "album_name" info = Some (PyStr "Second Album")) /\
  (exists info,
      resolve (table_page (track_record []) (Ok (PyStr likes_page))) = Ok info /\
      field "album_name" info = Some (PyStr "Song")).
Proof.
  intros named. split.
  - pose (table := table_album named (Ok (PyStr album_page)) (Ok album_record)).
    destruct (album_name_precedence (serve table) join_items plain_repr guest
                "2" named 0 album_page)
      as (Hpublished & _ & Hinfo).
    eexists. split; [reflexivity|].
    destruct (Hinfo album_record _ eq_refl eq_refl eq_refl)
      as (name & Hname & Hfield).
    rewrite (Hpublished (PyStr "Second Album") eq_refl) in Hname.
    injection Hname as <-. exact Hfield.
  - pose (table := table_page (track_record []) (Ok (PyStr likes_page))).
    destruct (album_name_precedence (serve table) join_items plain_repr guest
                "2" (track_record []) 0 likes_page)
      as (_ & Hscraped & Hinfo).
    eexists. split; [reflexivity|].
    destruct (Hinfo PyNone _ eq_refl eq_refl eq_refl)
      as (name & Hname & Hfield).
    rewrite (Hscraped "Users who like similar tracks"%string (PyStr "Song")
               eq_refl ltac:(discriminate) eq_refl eq_refl eq_refl) in Hname.
    injection Hname as <-. exact Hfield.
Defined.

(** ** The optional fetches *)

(** C6, as stated, fails: a fetch error of the page or of the album resolve
    is not turned into the defaults.  A page fetch that raises, an album
    resolve that raises, and a page fetch that hands back [None] all end the
    resolver with an exception. *)
Lemma optional_fetch_error_propagates :
  resolve (table_page (track_record [])
             (Raise (TransportError "ConnectionError")))
  = Raise (TransportError "ConnectionError") /\
  resolve (table_album (track_record []) (Ok (PyStr album_page))
             (Raise (TransportError "HTTPError")))
  = Raise (TransportError "HTTPError") /\
  resolve (table_page (track_record []) (Ok PyNone)) = Raise AttributeError.
Proof. repeat split; reflexivity. Qed.

Lemma scrape_album_page
    (make_call : string -> option token -> bool -> result pyval)
    (repr : pyval -> string) (tok : token)
    (track_data permalink : pyval) (page : string) :
  field "permalink_url" track_data = Some permalink ->
  make_call (str repr permalink ++ "/albums") None true = Ok (PyStr page) ->
  scrape_album make_call repr tok track_data
  = (album_data <-
       (if negb (Str.find marker page =? -1)
        then match Str.search_href
                     (Str.slice_from (Str.find marker page) page) with
             | Some album_href =>
                 make_call
                   (BASE_URL ++ "/resolve?url=https://soundcloud.com"
                             ++ album_href)
                   (Some tok) false
             | None => Ok PyNone
             end
        else Ok PyNone) ;;
     Ok (Str.find marker page, page, album_data)).
Proof.
  intros Hperma Hpage. unfold scrape_album.
  rewrite (getitem_field _ _ _ Hperma). cbn [bind].
  rewrite Hpage. reflexivity.
Qed.

(** C6, amended: a page without the "Appears in albums" marker, a marker
    with no anchor href after it, and an album resolve that hands back no
    record leave the resolver without album context, which gives the defaults
    "1", "1" and "single" and raises nothing; a page fetch or an album
    resolve that raises is propagated to the caller. *)
Theorem optional_fetch_failures
    (make_call : string -> option token -> bool -> result pyval)
    (conv_list_format : pyval -> result pyval) (repr : pyval -> string)
    (tok : token) (item_id : string) (track_data permalink : pyval) :
  make_call (BASE_URL ++ "/tracks/" ++ item_id) (Some tok) false
  = Ok track_data ->
  field "permalink_url" track_data = Some permalink ->
  (forall page,
      make_call (str repr permalink ++ "/albums") None true = Ok (PyStr page) ->
      ~ Occurs marker page ->
      scrape_album make_call repr tok track_data = Ok (-1, page, PyNone)) /\
  (forall page,
      make_call (str repr permalink ++ "/albums") None true = Ok (PyStr page) ->
      Occurs marker page ->
      Str.search_href (Str.slice_from (Str.find marker page) page) = None ->
      scrape_album make_call repr tok track_data
      = Ok (Str.find marker page, page, PyNone)) /\
  (forall page album_href,
      make_call (str repr permalink ++ "/albums") None true = Ok (PyStr page) ->
      Occurs marker page ->
      Str.search_href (Str.slice_from (Str.find marker page) page)
      = Some album_href ->
      make_call (BASE_URL ++ "/resolve?url=https://soundcloud.com" ++ album_href)
        (Some tok) false = Ok PyNone ->
      scrape_album make_call repr tok track_data
      = Ok (Str.find marker page, page, PyNone)) /\
  track_number_block PyNone track_data
  = Ok (PyStr "1", PyStr "1", "single"%string) /\
  (forall start_index page info,
      scrape_album make_call repr tok track_data
      = Ok (start_index, page, PyNone) ->
      soundcloud_get_track_metadata make_call conv_list_format repr tok item_id
      = Ok info ->
      field "track_number" info = Some (PyStr "1") /\
      field "total_tracks" info = Some (PyStr "1") /\
      field "album_type" info = Some (PyStr "single")) /\
  (forall e,
      make_call (str repr permalink ++ "/albums") None true = Raise e ->
      soundcloud_get_track_metadata make_call conv_list_format repr tok item_id
      = Raise e) /\
  (forall page album_href e,
      make_call (str repr permalink ++ "/albums") None true = Ok (PyStr page) ->
      Occurs marker page ->
      Str.search_href (Str.slice_from (Str.find marker page) page)
      = Some album_href ->
      make_call (BASE_URL ++ "/resolve?url=https://soundcloud.com" ++ album_href)
        (Some tok) false = Raise e ->
      soundcloud_get_track_metadata make_call conv_list_format repr tok item_id
      = Raise e).
Proof.
  intros Etrack Hperma.
  split; [|split; [|split; [|split; [|split; [|split]]]]].
  - intros page Hpage Hmarker.
    rewrite (scrape_album_page _ _ _ _ _ _ Hperma Hpage).
    apply find_spec in Hmarker. now rewrite Hmarker.
  - intros page Hpage Hmarker Hhref.
    rewrite (scrape_album_page _ _ _ _ _ _ Hperma Hpage).
    now rewrite (find_found _ _ Hmarker), Hhref.
  - intros page album_href Hpage Hmarker Hhref Halbum.
    rewrite (scrape_album_page _ _ _ _ _ _ Hperma Hpage).
    rewrite (find_found _ _ Hmarker), Hhref. cbn [negb]. now rewrite Halbum.
  - reflexivity.
  - intros start_index page info Escrape Erun.
    destruct (metadata_fields _ _ _ _ _ _ _ _ _ _ Etrack Escrape Erun)
      as (tt' & tn & aty & an & len & Eblock & _ & _ & Fn & Ft & Fa & _).
    injection Eblock as <- <- <-. repeat split; assumption.
  - intros e Hpage. apply (scrape_raises _ _ _ _ _ _ _ Etrack).
    unfold scrape_album. rewrite (getitem_field _ _ _ Hperma). cbn [bind].
    now rewrite Hpage.
  - intros page album_href e Hpage Hmarker Hhref Halbum.
    apply (scrape_raises _ _ _ _ _ _ _ Etrack).
    rewrite (scrape_album_page _ _ _ _ _ _ Hperma Hpage).
    rewrite (find_found _ _ Hmarker), Hhref. cbn [negb]. now rewrite Halbum.
Qed.

(** A page without the marker, a page with the marker and no href, and a
    page that cannot be fetched. *)
Lemma optional_fetch_failures_witness :
  (exists info,
      resolve (table_page (track_record []) (Ok (PyStr plain_page))) = Ok info /\
      field "track_number" info = Some (PyStr "1") /\
      field "total_tracks" info = Some (PyStr "1") /\
      field "album_type" info = Some (PyStr "single")) /\
  (exists info,
      resolve (table_page (track_record []) (Ok (PyStr likes_page))) = Ok info /\
      field "track_number" info = Some (PyStr "1") /\
      field "total_tracks" info = Some (PyStr "1") /\
      field "album_type" info = Some (PyStr "single")) /\
  resolve (table_track (track_record []))
  = Raise (TransportError "ConnectionError").
Proof.
  pose (permalink := PyStr "https://soundcloud.com/artist/song").
  split; [|split].
  - pose (table := table_page (track_record []) (Ok (PyStr plain_page))).
    destruct (optional_fetch_failures (serve table) join_items plain_repr
                guest "2" (track_record []) permalink eq_refl eq_refl)
      as (Hmarker & _ & _ & _ & Hinfo & _).
    eexists. split; [reflexivity|].
    apply (Hinfo (-1) plain_page); [|reflexivity].
    apply Hmarker; [reflexivity|]. now apply find_spec.
  - pose (table := table_page (track_record []) (Ok (PyStr likes_page))).
    destruct (optional_fetch_failures (serve table) join_items plain_repr
                guest "2" (track_record []) permalink eq_refl eq_refl)
      as (_ & Hanchor & _ & _ & Hinfo & _).
    eexists. split; [reflexivity|].
    apply (Hinfo 0 likes_page); [|reflexivity].
    apply (Hanchor likes_page); [reflexivity| |reflexivity].
    now apply contains_spec.
  - pose (table := table_track (track_record [])).
    destruct (optional_fetch_failures (serve table) join_items plain_repr
                guest "2" (track_record []) permalink eq_refl eq_refl)
      as (_ & _ & _ & _ & _ & Hraise & _).
    apply Hraise. reflexivity.
Defined.

(** ** Length *)

(** C9: on a track record whose [media.transcodings] is present and empty
    the length is not defaulted to "0": indexing the empty list raises
    [IndexError], and the resolver returns nothing.  The default does apply
    when the [media] key or the [transcodings] key is absent. *)
Theorem length_of_empty_transcodings
    (make_call : string -> option token -> bool -> result pyval)
    (conv_list_format : pyval -> result pyval) (repr : pyval -> string)
    (tok : token) (item_id : string) :
  (forall track_data media,
      field "media" track_data = Some media ->
      field "transcodings" media = Some (PyList []) ->
      length_field repr track_data = Raise IndexError /\
      (make_call (BASE_URL ++ "/tracks/" ++ item_id) (Some tok) false
       = Ok track_data ->
       exists e,
         soundcloud_get_track_metadata make_call conv_list_format repr tok
           item_id = Raise e)) /\
  (forall d,
      Py.lookup "media" d = None ->
      length_field repr (PyDict d) = Ok (PyStr "0")) /\
  (forall d m,
      Py.lookup "media" d = Some (PyDict m) ->
      Py.lookup "transcodings" m = None ->
      length_field repr (PyDict d) = Ok (PyStr "0")) /\
  resolve (table_page
             (track_record [("media", PyDict [("transcodings", PyList [])])])
             (Ok (PyStr plain_page)))
  = Raise IndexError.
Proof.
  split; [|split; [|split]].
  - intros track_data media Hmedia Hts.
    assert (Hlen : length_field repr track_data = Raise IndexError).
    { unfold length_field.
      rewrite (get_field _ _ _ _ Hmedia). cbn [bind].
      now rewrite (get_field _ _ _ _ Hts). }
    split; [exact Hlen|].
    intros Etrack.
    destruct (scrape_album make_call repr tok track_data)
      as [[[start_index page] album_data]|e] eqn:Escrape.
    + destruct (soundcloud_get_track_metadata make_call conv_list_format repr
                  tok item_id) as [info|e] eqn:Erun; [|now exists e].
      destruct (metadata_fields _ _ _ _ _ _ _ _ _ _ Etrack Escrape Erun)
        as (tt' & tn & aty & an & len & _ & _ & Elen & _).
      rewrite Hlen in Elen. discriminate.
    + exists e. now apply (scrape_raises _ _ _ _ _ _ _ Etrack).
  - intros d Hmedia. unfold length_field. simpl. now rewrite Hmedia.
  - intros d m Hmedia Hts. unfold length_field. simpl.
    rewrite Hmedia. simpl. now rewrite Hts.
  - reflexivity.
Qed.

(** * Further properties of the module *)

(** ** Selection: what is never returned *)

Lemma filter_loop_sound (quality preset_prefix : option string)
    (l r : list pyval) :
  filter_loop quality preset_prefix l = Ok r ->
  forall x, In x r -> In x l /\ keeps quality preset_prefix x = Ok true.
Proof.
  revert r. induction l as [|t l IH]; intros r H x Hx.
  - injection H as <-. contradiction.
  - cbn [filter_loop] in H.
    destruct (keeps quality preset_prefix t) as [keep|] eqn:Ekeep;
      cbn [bind] in H; [|discriminate].
    destruct (filter_loop quality preset_prefix l) as [filtered|] eqn:El;
      cbn [bind] in H; [|discriminate].
    injection H as <-.
    destruct keep.
    + destruct Hx as [<- | Hx].
      * split; [now left | exact Ekeep].
      * destruct (IH _ eq_refl x Hx) as [Hin Hk]. split; [now right | exact Hk].
    + destruct (IH _ eq_refl x Hx) as [Hin Hk]. split; [now right | exact Hk].
Qed.

Lemma keeps_true_usable (quality preset_prefix : option string) (t : pyval) :
  keeps quality preset_prefix t = Ok true -> encrypted t = false.
Proof.
  unfold keeps, encrypted, protocol_of, field.
  destruct t as [| | | | |d]; try discriminate. cbn [Py.get bind].
  destruct (Py.lookup "format" d) as [[| | | | |f]|]; try discriminate;
    cbn [Py.get bind]; [|reflexivity].
  destruct (Py.lookup "protocol" f) as [[| | |p| |]|]; try discriminate;
    cbn [Py.contains bind]; try reflexivity.
  destruct (Str.contains "encrypted" p); [discriminate | reflexivity].
Qed.

Lemma keeps_true_quality (q : string) (preset_prefix : option string)
    (t : pyval) :
  keeps (Some q) preset_prefix t = Ok true -> quality_is q t = true.
Proof.
  unfold keeps. intros H.
  bind_ok H. bind_ok H. bind_ok H. destruct a1; [discriminate|].
  destruct t as [| | | | |d]; try discriminate.
  cbn [Py.get bind] in H. rewrite eq_str_quality in H.
  destruct (quality_is q (PyDict d)); [reflexivity | discriminate].
Qed.

Lemma keeps_true_prefix (quality : option string) (p : string) (t : pyval) :
  keeps quality (Some p) t = Ok true ->
  Str.startswith p (preset_of t) = true.
Proof.
  unfold keeps. intros H.
  bind_ok H. bind_ok H. bind_ok H. destruct a1; [discriminate|].
  bind_ok H. destruct a1; [discriminate|].
  destruct t as [| | | | |d]; try discriminate.
  unfold preset_of, field. cbn [Py.get bind] in H.
  destruct (Py.lookup "preset" d) as [[| | |s| |]|]; try discriminate;
    cbn [Py.startswith Py.as_str bind] in H;
    match type of H with context [Str.startswith ?a ?b] =>
      destruct (Str.startswith a b) eqn:Es; [reflexivity | discriminate]
    end.
Qed.

Lemma candidates_sound (quality preset_prefix : option string)
    (l r : list pyval) (c : pyval) (rest : list pyval) :
  filter_transcodings (PyList l) quality preset_prefix = Ok (c :: rest) ->
  In c l /\ keeps quality preset_prefix c = Ok true.
Proof.
  unfold filter_transcodings. cbn [Py.iter bind]. intros H.
  apply (filter_loop_sound _ _ _ _ H). now left.
Qed.

Lemma choose_sound (l : list pyval) (hq : bool) (t : pyval) :
  choose_transcoding (PyList l) hq = Ok t ->
  In t l /\ encrypted t = false /\ selected_for hq t.
Proof.
  set (J := fun c : pyval =>
              c = PyNone \/ (In c l /\ encrypted c = false /\ selected_for hq c)).
  unfold choose_transcoding. intros H.
  bind_ok H. rename a into chosen1.
  assert (J1 : J chosen1).
  { destruct hq.
    - bind_ok E. injection E as <-.
      destruct a as [|c rest]; [now left|]. right.
      destruct (candidates_sound _ _ l nil c rest E0) as [Hin Hk].
      split; [exact Hin|]. split; [exact (keeps_true_usable _ _ _ Hk)|].
      left. split; [reflexivity | exact (keeps_true_quality _ _ _ Hk)].
    - injection E as <-. now left. }
  bind_ok H. rename a into chosen2.
  assert (J2 : J chosen2).
  { destruct (Py.truthy chosen1); cbn [negb] in E0.
    - now injection E0 as <-.
    - bind_ok E0. destruct a as [|c rest].
      + bind_ok E0. destruct a as [|c rest].
        * bind_ok E0. injection E0 as <-.
          destruct a as [|c rest]; [exact J1|]. right.
          destruct (candidates_sound _ _ l nil c rest E3) as [Hin Hk].
          split; [exact Hin|]. split; [exact (keeps_true_usable _ _ _ Hk)|].
          right; right; right. exact (keeps_true_prefix _ _ _ Hk).
        * injection E0 as <-. right.
          destruct (candidates_sound _ _ l nil c rest E2) as [Hin Hk].
          split; [exact Hin|]. split; [exact (keeps_true_usable _ _ _ Hk)|].
          right; right; left. exact (keeps_true_prefix _ _ _ Hk).
      + injection E0 as <-. right.
        destruct (candidates_sound _ _ l nil c rest E1) as [Hin Hk].
        split; [exact Hin|]. split; [exact (keeps_true_usable _ _ _ Hk)|].
        right; left. exact (keeps_true_prefix _ _ _ Hk). }
  destruct (Py.truthy chosen2) eqn:T; cbn [negb] in H; [|discriminate].
  injection H as <-.
  destruct J2 as [-> | J2]; [discriminate T | exact J2].
Qed.

Lemma debug_loop_first (t : pyval) (ts : list pyval) :
  debug_loop (t :: ts) = Ok tt -> exists d, t = PyDict d.
Proof.
  cbn [debug_loop]. unfold debug_transcoding.
  destruct t as [| | | | |d]; try discriminate. intros _. now exists d.
Qed.

Lemma select_of_list (transcodings : pyval) (hq : bool) (t : pyval) :
  select_transcoding transcodings hq = Ok t ->
  exists l, transcodings = PyList l /\ choose_transcoding (PyList l) hq = Ok t.
Proof.
  unfold select_transcoding.
  destruct (Py.truthy transcodings) eqn:T; cbn [negb]; [|discriminate].
  intros H. bind_ok H. bind_ok H. bind_ok H. destruct a1.
  destruct transcodings as [| | |s|l|d]; try discriminate.
  - destruct s as [|c s]; [discriminate T|].
    injection E0 as <-. cbn [list_ascii_of_string map] in E1.
    destruct (debug_loop_first _ _ E1) as [d Hd]. discriminate.
  - now exists l.
  - destruct d as [|[k v] d]; [discriminate T|].
    injection E0 as <-. cbn [map] in E1.
    destruct (debug_loop_first _ _ E1) as [d' Hd]. discriminate.
Qed.

(** X1: Whatever the selection returns is one of the advertised
    transcodings, is not encrypted, and either has quality "hq" (possible
    only when HQ was asked for) or a preset of the AAC, MP3 or Opus
    family. *)
Theorem select_sound (transcodings : pyval) (hq : bool) (t : pyval) :
  select_transcoding transcodings hq = Ok t ->
  exists l,
    transcodings = PyList l /\ In t l /\ encrypted t = false /\
    selected_for hq t.
Proof.
  intros H. destruct (select_of_list _ _ _ H) as (l & -> & Hc).
  exists l. split; [reflexivity|]. now apply choose_sound.
Qed.

Lemma select_sound_witness :
  let locked := transcoding "aac_256k" "hq" "audio/mp4" "ctr-encrypted-hls" "u1" in
  let mp3 := transcoding "mp3_1_0" "sq" "audio/mpeg" "progressive" "u2" in
  exists l,
    PyList [locked; mp3] = PyList l /\ In mp3 l /\ encrypted mp3 = false /\
    selected_for true mp3.
Proof.
  intros locked mp3.
  apply (select_sound (PyList [locked; mp3]) true mp3). reflexivity.
Defined.

Lemma guess_container_range (mime_type : pyval) (c : string) :
  guess_container_from_mime mime_type = Ok c ->
  c = "mp3"%string \/ c = "m4a"%string \/ c = "ogg"%string.
Proof.
  unfold guess_container_from_mime. intros H. bind_ok H.
  destruct (Str.contains "mpeg" a);
    [| destruct (Str.contains "mp4" a); [| destruct (Str.contains "ogg" a)]];
    injection H as <-; auto.
Qed.

Lemma get_ok_field (v x default : pyval) (k : string) :
  Py.get v k default = Ok x -> exists d, v = PyDict d.
Proof. destruct v; try discriminate. intros _. now eexists. Qed.

Lemma chosen_container (chosen format mime : pyval) (container : string) :
  Py.get chosen "format" (PyDict []) = Ok format ->
  Py.get format "mime_type" (PyStr "") = Ok mime ->
  guess_container_from_mime mime = Ok container ->
  guess_container_from_mime (PyStr (mime_type_of chosen)) = Ok container.
Proof.
  intros Hf Hm Hg. unfold mime_type_of, field.
  destruct chosen as [| | | | |d]; try discriminate.
  cbn [Py.get] in Hf. injection Hf as <-.
  destruct (Py.lookup "format" d) as [f|].
  - destruct f as [| | | | |fd]; try discriminate.
    cbn [Py.get] in Hm. injection Hm as <-.
    destruct (Py.lookup "mime_type" fd) as [[| | |m| |]|];
      try discriminate; exact Hg.
  - cbn [Py.get Py.lookup] in Hm. injection Hm as <-. exact Hg.
Qed.

(** X2: A download that returns has fetched a track record whose
    [media.transcodings] is a list holding a chosen transcoding that is not
    encrypted and of a wanted kind; the container is the one guessed from
    its MIME type, one of "mp3", "m4a" and "ogg"; and what is returned is
    the chosen transcoding with the path derived from the item id, the
    container and the requested path when a path was requested, and [None]
    when none was. *)
Theorem download_postcondition
    (requests_get : string -> token -> result response)
    (tok : token) (item_id : string) (hq : bool) (output_path : option string)
    (returned : option (string * pyval)) :
  soundcloud_download_track requests_get tok item_id hq output_path
  = Ok returned ->
  exists track_data l chosen container,
    soundcloud_fetch_track_data requests_get tok item_id = Ok track_data /\
    transcodings_of track_data = Some (PyList l) /\
    In chosen l /\ encrypted chosen = false /\ selected_for hq chosen /\
    guess_container_from_mime (PyStr (mime_type_of chosen)) = Ok container /\
    (container = "mp3" \/ container = "m4a" \/ container = "ogg")%string /\
    returned
    = handed_back output_path
        (derive_output_path item_id container output_path) chosen.
Proof.
  unfold soundcloud_download_track. intros H.
  bind_ok H. rename a into track_data.
  bind_ok H. rename a into media.
  bind_ok H. rename a into transcodings.
  bind_ok H. bind_ok H. rename a0 into chosen.
  bind_ok H. bind_ok H. bind_ok H. bind_ok H. rename a3 into container.
  destruct (select_of_list _ _ _ E3) as (l & -> & Hc).
  destruct (choose_sound _ _ _ Hc) as (Hin & Henc & Hsel).
  exists track_data, l, chosen, container.
  split; [reflexivity|]. split.
  - unfold transcodings_of, field.
    destruct track_data as [| | | | |d]; try discriminate.
    cbn [Py.get] in E0.
    destruct (Py.lookup "media" d) as [m|]; injection E0 as <-.
    + destruct m as [| | | | |md]; try discriminate.
      cbn [Py.get] in E1.
      destruct (Py.lookup "transcodings" md) as [ts|]; injection E1 as E1.
      * now subst ts.
      * subst l. contradiction.
    + cbn [Py.get Py.lookup] in E1. injection E1 as <-. contradiction.
  - repeat (split; [assumption|]).
    split; [exact (chosen_container _ _ _ _ E5 E6 E7)|].
    split; [exact (guess_container_range _ _ E7)|].
    destruct output_path as [[|c p]|]; now injection H as <-.
Qed.

Lemma download_postcondition_witness :
  let locked := transcoding "aac_256k" "hq" "audio/mp4" "ctr-encrypted-hls" "u1" in
  let mp3 := transcoding "mp3_1_0" "sq" "audio/mpeg" "progressive" "u2" in
  let track := streamable_track [locked; mp3] in
  exists track_data l chosen container,
    soundcloud_fetch_track_data (respond track) guest "2" = Ok track_data /\
    transcodings_of track_data = Some (PyList l) /\
    In chosen l /\ encrypted chosen = false /\ selected_for true chosen /\
    guess_container_from_mime (PyStr (mime_type_of chosen)) = Ok container /\
    (container = "mp3" \/ container = "m4a" \/ container = "ogg")%string /\
    Some ("song.mp3"%string, mp3)
    = handed_back (Some "song.flac"%string)
        (derive_output_path "2" container (Some "song.flac"%string)) chosen.
Proof.
  intros locked mp3 track.
  apply (download_postcondition (respond track) guest "2" true
           (Some "song.flac"%string) (Some ("song.mp3"%string, mp3))).
  reflexivity.
Defined.

(** X3: On well-typed transcodings none of which is a usable HQ entry,
    asking for HQ changes nothing: the selection returns, or raises, exactly
    what it does without the HQ preference. *)
Theorem hq_request_falls_back (l : list pyval) :
  forallb well_typed l = true ->
  find usable_hq l = None ->
  select_transcoding (PyList l) true = select_transcoding (PyList l) false.
Proof.
  intros W H. rewrite !(select_cascade _ _ W). unfold cascade. now rewrite H.
Qed.

Lemma hq_request_falls_back_witness :
  let aac := transcoding "aac_160k" "sq" "audio/mp4" "hls" "u0" in
  let locked := transcoding "aac_256k" "hq" "audio/mp4" "ctr-encrypted-hls" "u1" in
  select_transcoding (PyList [locked; aac]) true
  = select_transcoding (PyList [locked; aac]) false.
Proof.
  intros aac locked.
  apply (hq_request_falls_back [locked; aac]); reflexivity.
Defined.

Lemma cascade_of_usable (l : list pyval) (hq : bool) :
  cascade l hq
  = match (if hq then find (quality_is "hq") (filter usable l) else None) with
    | Some t => Some t
    | None =>
        let by_prefix p :=
          find (fun t => Str.startswith p (preset_of t)) (filter usable l) in
        match by_prefix "aac_"%string with
        | Some t => Some t
        | None => match by_prefix "mp3_"%string with
                  | Some t => Some t
                  | None => by_prefix "opus_"%string
                  end
        end
    end.
Proof.
  unfold cascade, usable_hq, usable_with_prefix.
  now rewrite !find_filter.
Qed.

(** X4: The selection depends only on the unencrypted entries and
    their order: two non-empty well-typed lists with the same unencrypted
    entries select alike, wherever the encrypted ones stand. *)
Theorem selection_reads_usable_entries (l1 l2 : list pyval) (hq : bool) :
  forallb well_typed l1 = true -> forallb well_typed l2 = true ->
  l1 <> [] -> l2 <> [] ->
  filter usable l1 = filter usable l2 ->
  select_transcoding (PyList l1) hq = select_transcoding (PyList l2) hq.
Proof.
  intros W1 W2 N1 N2 E.
  rewrite (select_cascade _ _ W1), (select_cascade _ _ W2).
  rewrite !cascade_of_usable, E.
  destruct l1; [contradiction|]. destruct l2; [contradiction|]. reflexivity.
Qed.

Lemma selection_reads_usable_entries_witness :
  let aac := transcoding "aac_160k" "sq" "audio/mp4" "hls" "u0" in
  let locked := transcoding "aac_256k" "hq" "audio/mp4" "ctr-encrypted-hls" "u1" in
  select_transcoding (PyList [locked; aac]) true
  = select_transcoding (PyList [aac; locked; locked]) true.
Proof.
  intros aac locked.
  apply (selection_reads_usable_entries [locked; aac] [aac; locked; locked]);
    try reflexivity; discriminate.
Defined.

(** ** Output path: the extension of what is returned *)

Lemma rfind_char_app_found (c : ascii) (s1 s2 : string) :
  0 <= Str.rfind_char c s2 ->
  Str.rfind_char c (s1 ++ s2)
  = Z.of_nat (String.length s1) + Str.rfind_char c s2.
Proof.
  intros H. induction s1 as [|a s1 IH]; [simpl; lia|].
  cbn [append Str.rfind_char String.length]. rewrite IH.
  destruct (_ =? -1) eqn:E; [apply Z.eqb_eq in E; lia | lia].
Qed.

Lemma rfind_char_app_absent (c : ascii) (s1 s2 : string) :
  Str.rfind_char c s2 = -1 ->
  Str.rfind_char c (s1 ++ s2) = Str.rfind_char c s1.
Proof.
  intros H. induction s1 as [|a s1 IH]; [exact H|].
  cbn [append Str.rfind_char]. now rewrite IH.
Qed.

Lemma rfind_char_none (c : ascii) (s : string) :
  Str.contains (String c "") s = false -> Str.rfind_char c s = -1.
Proof.
  induction s as [|a s IH]; [reflexivity|].
  cbn [Str.contains Str.startswith Str.rfind_char]. intros H.
  apply orb_false_iff in H as [Ha Hs]. rewrite (IH Hs). simpl.
  rewrite andb_true_r in Ha. now rewrite Ascii.eqb_sym, Ha.
Qed.

Lemma take_app (s1 s2 : string) : Str.take (String.length s1) (s1 ++ s2) = s1.
Proof. induction s1 as [|a s1 IH]; simpl; [now destruct s2 | now rewrite IH]. Qed.

Lemma drop_app (s1 s2 : string) : Str.drop (String.length s1) (s1 ++ s2) = s2.
Proof. induction s1 as [|a s1 IH]; simpl; [reflexivity | exact IH]. Qed.

Lemma take_drop_app (m n : nat) (s1 s2 : string) :
  (m + n <= String.length s1)%nat ->
  Str.take n (Str.drop m (s1 ++ s2)) = Str.take n (Str.drop m s1).
Proof.
  revert m n. induction s1 as [|a s1 IH]; intros m n H.
  - simpl in H. assert (m = 0%nat) by lia. assert (n = 0%nat) by lia.
    subst. reflexivity.
  - destruct m as [|m].
    + cbn [Str.drop append]. destruct n as [|n]; [reflexivity|].
      cbn [Str.take]. f_equal.
      apply (IH 0%nat n). simpl in H. simpl. lia.
    + cbn [Str.drop append]. apply IH. simpl in H. lia.
Qed.

Lemma splitext_of_extended (base c : string) :
  regular base = true ->
  Str.contains "." c = false -> Str.contains "/" c = false ->
  Str.splitext (base ++ "." ++ c) = (base, "." ++ c)%string.
Proof.
  intros Hreg Hdot Hsep.
  assert (Edot : Str.rfind_char "." (base ++ "." ++ c)
                 = Z.of_nat (String.length base)).
  { rewrite rfind_char_app_found.
    - cbn [append Str.rfind_char]. rewrite (rfind_char_none _ _ Hdot).
      simpl. lia.
    - cbn [append Str.rfind_char]. rewrite (rfind_char_none _ _ Hdot).
      simpl. lia. }
  assert (Esep : Str.rfind_char "/" (base ++ "." ++ c)
                 = Str.rfind_char "/" base).
  { apply rfind_char_app_absent. cbn [append Str.rfind_char].
    now rewrite (rfind_char_none _ _ Hsep). }
  unfold Str.splitext. rewrite Edot, Esep.
  pose proof (rfind_char_range "/" base) as R.
  assert (Hlt : (Str.rfind_char "/" base <? Z.of_nat (String.length base))
                = true) by (apply Z.ltb_lt; lia).
  rewrite Hlt. cbn [andb].
  assert (Hnd : Str.non_dot_between (base ++ "." ++ c)
                  (Str.rfind_char "/" base + 1) (Z.of_nat (String.length base))
                = true).
  { unfold regular, Str.non_dot_between in *.
    rewrite take_drop_app; [exact Hreg | lia]. }
  rewrite Hnd, Nat2Z.id.
  now rewrite take_app, drop_app.
Qed.

Lemma rfind_char_take (c : ascii) (p : string) (n : nat) :
  Str.rfind_char c p < Z.of_nat n ->
  Str.rfind_char c (Str.take n p) = Str.rfind_char c p.
Proof.
  revert n. induction p as [|a p IH]; intros n H; [now destruct n|].
  destruct n as [|n].
  - destruct (rfind_char_range c (String a p)) as [R | R]; [now rewrite R | lia].
  - cbn [Str.take Str.rfind_char] in *. rewrite IH; [reflexivity|].
    destruct (Str.rfind_char c p =? -1) eqn:E.
    + apply Z.eqb_eq in E. lia.
    + lia.
Qed.

Lemma length_take (n : nat) (p : string) :
  (n <= String.length p)%nat -> String.length (Str.take n p) = n.
Proof.
  revert p. induction n as [|n IH]; intros p H; [reflexivity|].
  destruct p as [|a p]; simpl in *; [lia|]. rewrite IH; lia.
Qed.

Lemma take_drop_take (k m n : nat) (p : string) :
  (m + k <= n)%nat ->
  Str.take k (Str.drop m (Str.take n p)) = Str.take k (Str.drop m p).
Proof.
  revert k m n. induction p as [|a p IH]; intros k m n H.
  - destruct n; destruct m; destruct k; reflexivity.
  - destruct n as [|n].
    + assert (m = 0%nat) by lia. assert (k = 0%nat) by lia. now subst.
    + destruct m as [|m].
      * destruct k as [|k]; [reflexivity|].
        cbn [Str.take Str.drop]. f_equal. apply (IH k 0%nat n). lia.
      * cbn [Str.take Str.drop]. apply IH. lia.
Qed.

Lemma regular_root (p : string) :
  regular p = true -> regular (fst (Str.splitext p)) = true.
Proof.
  intros Hreg. unfold Str.splitext.
  destruct (_ && _) eqn:E; [|exact Hreg]. cbn [fst].
  apply andb_true_iff in E as [Hlt Hnd]. apply Z.ltb_lt in Hlt.
  destruct (rfind_char_range "." p) as [R | R]; [
    destruct (rfind_char_range "/" p); lia |].
  set (dot := Str.rfind_char "." p) in *.
  assert (Hsep : Str.rfind_char "/" (Str.take (Z.to_nat dot) p)
                 = Str.rfind_char "/" p)
    by (apply rfind_char_take; lia).
  assert (Hlen : String.length (Str.take (Z.to_nat dot) p) = Z.to_nat dot)
    by (apply length_take; lia).
  unfold regular. rewrite Hsep, Hlen.
  unfold Str.non_dot_between in *.
  rewrite take_drop_take; [|destruct (rfind_char_range "/" p); lia].
  rewrite Z2Nat.id by lia. exact Hnd.
Qed.

Lemma regular_synthesized (item_id : string) :
  Str.contains "/" item_id = false ->
  regular ("soundcloud_" ++ item_id) = true.
Proof.
  intros H. unfold regular.
  assert (E : Str.rfind_char "/" ("soundcloud_" ++ item_id) = -1).
  { apply rfind_char_app_absent with (s1 := "soundcloud_"%string).
    now apply rfind_char_none. }
  rewrite E. unfold Str.non_dot_between.
  cbn [append String.length]. change (-1 + 1) with 0.
  rewrite Z.sub_0_r, Nat2Z.id. reflexivity.
Qed.

(** X5: For a container of the three the module knows, and a
    requested path whose file name holds a character other than a dot (an
    item id without a path separator when no path is given), the derived
    path has exactly the extension of the container, and deriving a path
    from it again changes nothing. *)
Theorem derived_path_extension (item_id container : string)
    (output_path : option string) :
  (container = "mp3" \/ container = "m4a" \/ container = "ogg")%string ->
  match output_path with
  | None | Some EmptyString => Str.contains "/" item_id = false
  | Some p => regular p = true
  end ->
  let path := derive_output_path item_id container output_path in
  snd (Str.splitext path) = ("." ++ container)%string /\
  derive_output_path item_id container (Some path) = path.
Proof.
  intros Hc Hname.
  assert (Hplain : Str.contains "." container = false /\
                   Str.contains "/" container = false)
    by (destruct Hc as [-> | [-> | ->]]; split; reflexivity).
  destruct Hplain as [Hdot Hsep].
  assert (Hshape : exists base,
             regular base = true /\
             derive_output_path item_id container output_path
             = (base ++ "." ++ container)%string).
  { unfold derive_output_path.
    destruct output_path as [[|a p]|].
    - eexists. split; [exact (regular_synthesized _ Hname) | reflexivity].
    - exists (fst (Str.splitext (String a p))).
      split; [exact (regular_root _ Hname)|].
      destruct (Str.splitext (String a p)). reflexivity.
    - eexists. split; [exact (regular_synthesized _ Hname) | reflexivity]. }
  destruct Hshape as (base & Hreg & Hpath).
  cbn zeta. rewrite Hpath.
  pose proof (splitext_of_extended base container Hreg Hdot Hsep) as Hsplit.
  split; [now rewrite Hsplit|].
  unfold derive_output_path. rewrite Hsplit.
  destruct (base ++ "." ++ container)%string eqn:E; [|reflexivity].
  destruct base; discriminate.
Qed.

Lemma derived_path_extension_witness :
  snd (Str.splitext (derive_output_path "2" "m4a" (Some "music/song.flac")))
  = ".m4a"%string /\
  derive_output_path "2" "m4a"
    (Some (derive_output_path "2" "m4a" (Some "music/song.flac")))
  = derive_output_path "2" "m4a" (Some "music/song.flac").
Proof.
  apply (derived_path_extension "2" "m4a" (Some "music/song.flac"));
    [right; left; reflexivity | reflexivity].
Defined.

Lemma parse_of_Z (z : Z) : parse_decimal (Str.of_Z z) = Some z.
Proof.
  unfold parse_decimal, Str.of_Z. rewrite NilZero.isi.
  - simpl. now rewrite DecimalZ.of_to.
  - destruct z; simpl; try discriminate.
    intros [= H]. now apply (Unsigned.to_uint_nonnil p).
  - destruct z; simpl; try discriminate.
    intros [= H]. now apply (Unsigned.to_uint_nonnil p).
Qed.

(** ** Fetching the track record *)

(** X6: The track fetch returns exactly when the request returns with
    a status outside 400..599 and a body that decodes; a 4xx or 5xx answer
    raises HTTPError, from the fetch and so from the download, whatever the
    body holds. *)
Theorem fetch_track_data_status
    (requests_get : string -> token -> result response)
    (tok : token) (item_id : string) :
  (forall track_data,
      soundcloud_fetch_track_data requests_get tok item_id = Ok track_data <->
      exists r,
        requests_get (BASE_URL ++ "/tracks/" ++ item_id) tok = Ok r /\
        (status_code r < 400 \/ 600 <= status_code r) /\
        json r = Ok track_data) /\
  (forall r,
      requests_get (BASE_URL ++ "/tracks/" ++ item_id) tok = Ok r ->
      400 <= status_code r < 600 ->
      soundcloud_fetch_track_data requests_get tok item_id
      = Raise (TransportError "HTTPError") /\
      forall hq output_path,
        soundcloud_download_track requests_get tok item_id hq output_path
        = Raise (TransportError "HTTPError")).
Proof.
  split.
  - intros track_data. unfold soundcloud_fetch_track_data, raise_for_status.
    split.
    + intros H. bind_ok H. exists a. split; [reflexivity|].
      destruct (400 <=? status_code a) eqn:Lo;
        destruct (status_code a <? 600) eqn:Hi; cbn [andb bind] in H;
        try discriminate; (split; [|exact H]).
      * apply Z.ltb_ge in Hi. now right.
      * apply Z.leb_gt in Lo. now left.
      * apply Z.leb_gt in Lo. now left.
    + intros (r & -> & Hs & Hj). cbn [bind].
      destruct (400 <=? status_code r) eqn:Lo;
        destruct (status_code r <? 600) eqn:Hi; cbn [andb bind];
        try exact Hj.
      apply Z.leb_le in Lo. apply Z.ltb_lt in Hi. lia.
  - intros r Hr [Lo Hi].
    assert (E : soundcloud_fetch_track_data requests_get tok item_id
                = Raise (TransportError "HTTPError")).
    { unfold soundcloud_fetch_track_data, raise_for_status. rewrite Hr.
      cbn [bind]. apply Z.leb_le in Lo. apply Z.ltb_lt in Hi.
      now rewrite Lo, Hi. }
    split; [exact E|]. intros hq output_path.
    unfold soundcloud_download_track. now rewrite E.
Qed.

Lemma fetch_track_data_status_witness :
  soundcloud_fetch_track_data (fun _ _ => answer 404 (PyDict [])) guest "2"
  = Raise (TransportError "HTTPError") /\
  forall hq output_path,
    soundcloud_download_track (fun _ _ => answer 404 (PyDict [])) guest "2"
      hq output_path
    = Raise (TransportError "HTTPError").
Proof.
  destruct (fetch_track_data_status (fun _ _ => answer 404 (PyDict []))
              guest "2") as [_ Hfail].
  apply (Hfail {| status_code := 404; json := Ok (PyDict []) |});
    [reflexivity | simpl; lia].
Defined.

(** ** Track number: bounds and the missing id *)

Lemma count_tracks_bounds (tracks : list pyval) (track_data : pyval)
    (counter n : Z) :
  count_tracks tracks track_data counter = Ok n ->
  counter <= n <= counter + Z.of_nat (List.length tracks) /\
  (tracks <> [] -> counter + 1 <= n).
Proof.
  revert counter. induction tracks as [|trk rest IH]; intros counter H.
  - injection H as <-. simpl. split; [lia | congruence].
  - cbn [count_tracks] in H. bind_ok H. bind_ok H.
    destruct (Py.eq a a0).
    + injection H as <-. cbn [List.length]. split; [lia | intros _; lia].
    + destruct (IH _ H) as [B _]. cbn [List.length]. split; [lia | intros _; lia].
Qed.

(** X7: When the album branch is taken, the total is the album's
    [track_count] and the track number is an integer between 0 and the
    number of listed tracks, at least 1 when a track is listed. *)
Theorem track_number_bounds (album_data track_data total number : pyval)
    (tracks : list pyval) :
  field "tracks" album_data = Some (PyList tracks) ->
  track_number_block album_data track_data = Ok (total, number, "album"%string) ->
  field "track_count" album_data = Some total /\
  exists n : Z,
    number = PyInt n /\ 0 <= n <= Z.of_nat (List.length tracks) /\
    (tracks <> [] -> 1 <= n).
Proof.
  intros Htracks H. unfold track_number_block in H.
  rewrite (getitem_field _ _ _ Htracks) in H.
  destruct (Py.getitem album_data "track_count") as [tc|e] eqn:Etc;
    cbn [bind Py.iter try_except] in H.
  2: { destruct e; discriminate. }
  destruct (count_tracks tracks track_data 0) as [n|e] eqn:Ecount;
    cbn [bind try_except] in H.
  2: { destruct e; discriminate. }
  injection H as <- <-.
  split.
  - destruct album_data as [| | | | |d]; try discriminate. simpl in *.
    destruct (Py.lookup "track_count" d); [now injection Etc as -> | discriminate].
  - exists n. split; [reflexivity|].
    destruct (count_tracks_bounds _ _ _ _ Ecount) as [B1 B2].
    split; [lia | intros N; specialize (B2 N); lia].
Qed.

Lemma track_number_bounds_witness :
  field "track_count" album_record = Some (PyInt 3) /\
  exists n : Z,
    PyInt 2 = PyInt n /\ 0 <= n <= 3 /\
    ([PyDict [("id", PyInt 1)]; PyDict [("id", PyInt 2)];
      PyDict [("id", PyInt 3)]] <> [] -> 1 <= n).
Proof.
  apply (track_number_bounds album_record (track_record []) (PyInt 3) (PyInt 2)
           [PyDict [("id", PyInt 1)]; PyDict [("id", PyInt 2)];
            PyDict [("id", PyInt 3)]]);
    reflexivity.
Defined.

(** X8: A track record without an [id], against an album that has
    its [track_count]: a listed track turns the result into the single
    defaults, an empty track list gives number 0 on an album. *)
Theorem track_without_id (album_data track_data total : pyval) :
  field "id" track_data = None ->
  field "track_count" album_data = Some total ->
  (forall trk rest,
      field "tracks" album_data = Some (PyList (trk :: rest)) ->
      track_number_block album_data track_data
      = Ok (PyStr "1", PyStr "1", "single"%string)) /\
  (field "tracks" album_data = Some (PyList []) ->
   track_number_block album_data track_data
   = Ok (total, PyInt 0, "album"%string)).
Proof.
  intros Hid Htotal. split.
  - intros trk rest Htracks. unfold track_number_block.
    rewrite (getitem_field _ _ _ Htotal), (getitem_field _ _ _ Htracks).
    cbn [bind Py.iter count_tracks].
    destruct (Py.getitem trk "id") as [i|e] eqn:Ei; cbn [bind].
    + assert (Et : exists e, Py.getitem track_data "id" = Raise e /\
                             (e = KeyError \/ e = TypeError)).
      { destruct track_data as [| | | | |d]; simpl in *;
          try (eexists; split; [reflexivity | now right]).
        rewrite Hid. eexists; split; [reflexivity | now left]. }
      destruct Et as (e & -> & [-> | ->]); reflexivity.
    + destruct (getitem_raises _ _ _ Ei) as [-> | ->]; reflexivity.
  - intros Htracks. unfold track_number_block.
    now rewrite (getitem_field _ _ _ Htotal), (getitem_field _ _ _ Htracks).
Qed.

Lemma track_without_id_witness :
  track_number_block album_record (PyDict [("title", PyStr "Song")])
  = Ok (PyStr "1", PyStr "1", "single"%string).
Proof.
  destruct (track_without_id album_record (PyDict [("title", PyStr "Song")])
              (PyInt 3) eq_refl eq_refl) as [Hsome _].
  apply (Hsome (PyDict [("id", PyInt 1)])
           [PyDict [("id", PyInt 2)]; PyDict [("id", PyInt 3)]]).
  reflexivity.
Defined.

(** ** Release year *)

Lemma split_head (c : ascii) (s : string) :
  exists year rest tail,
    Str.split c s = year :: rest /\
    s = (year ++ tail)%string /\
    Str.contains (String c "") year = false /\
    (tail = ""%string \/ exists t, tail = String c t).
Proof.
  induction s as [|a s IH].
  - exists ""%string, [], ""%string. repeat split. now left.
  - cbn [Str.split]. destruct (Ascii.eqb a c) eqn:E.
    + apply Ascii.eqb_eq in E. subst a.
      exists ""%string, (Str.split c s), (String c s).
      repeat split. right. now exists s.
    + destruct IH as (year & rest & tail & Hs & Hcat & Hno & Htail).
      rewrite Hs. exists (String a year), rest, tail.
      split; [reflexivity|]. split; [simpl; now rewrite <- Hcat|].
      split; [|exact Htail].
      cbn [Str.contains Str.startswith]. rewrite Hno.
      now rewrite Ascii.eqb_sym, E.
Qed.

Lemma split_year (date : string) :
  exists year rest, Str.split "-" date = year :: rest /\ year_of date year.
Proof.
  destruct (split_head "-" date) as (year & rest & tail & Hs & Hcat & Hno & Ht).
  exists year, rest. split; [exact Hs|]. split; [exact Hno|].
  destruct Ht as [-> | [t ->]].
  - left. rewrite Hcat. clear. induction year; simpl; congruence.
  - right. now exists t.
Qed.

(** X9: The release year is the part of the date before its first
    dash (the whole date when it has none): of [release_date] when that is
    a non-empty string, else of [last_modified]; with neither key it is the
    empty string. *)
Theorem release_year_before_dash (track_data : pyval) :
  (forall date,
      field "release_date" track_data = Some (PyStr date) ->
      date <> ""%string ->
      exists year,
        release_year_field track_data = Ok (PyStr year) /\ year_of date year) /\
  (forall date,
      (field "release_date" track_data = None \/
       field "release_date" track_data = Some PyNone \/
       field "release_date" track_data = Some (PyStr "")) ->
      field "last_modified" track_data = Some (PyStr date) ->
      exists year,
        release_year_field track_data = Ok (PyStr year) /\ year_of date year) /\
  (forall d,
      track_data = PyDict d ->
      Py.lookup "release_date" d = None ->
      Py.lookup "last_modified" d = None ->
      release_year_field track_data = Ok (PyStr "")).
Proof.
  split; [|split].
  - intros date Hd Hne.
    destruct (split_year date) as (year & rest & Hs & Hy).
    exists year. split; [|exact Hy].
    unfold release_year_field.
    rewrite (get_field _ _ _ _ Hd). cbn [bind].
    destruct (get_of_dict "release_date" "last_modified" track_data _
                (PyStr "") Hd) as [lm ->].
    cbn [bind Py.truthy].
    destruct date as [|a date]; [contradiction|].
    unfold Py.split. cbn [String.eqb negb Py.as_str bind]. now rewrite Hs.
  - intros date Hrel Hlm.
    destruct (split_year date) as (year & rest & Hs & Hy).
    exists year. split; [|exact Hy].
    unfold release_year_field.
    destruct track_data as [| | | | |d]; try discriminate Hlm.
    simpl in Hrel, Hlm. cbn [Py.get bind]. rewrite Hlm.
    destruct Hrel as [-> | [-> | ->]]; cbn [bind Py.truthy];
      unfold Py.split; cbn [String.eqb negb Py.as_str bind]; now rewrite Hs.
  - intros d -> Hr Hl. unfold release_year_field.
    cbn [Py.get bind]. now rewrite Hr, Hl.
Qed.

Lemma release_year_before_dash_witness :
  exists year,
    release_year_field (track_record []) = Ok (PyStr year) /\
    year_of "2021-05-01T00:00:00Z" year.
Proof.
  destruct (release_year_before_dash (track_record [])) as (_ & Hlast & _).
  apply Hlast; [left; reflexivity | reflexivity].
Defined.

(** ** Artists and copyright: the items handed to the join *)

(** Whitespace outside ASCII is stripped with its bytes: a no-break space,
    an em space (U+2003); a zero-width space (U+200B) is no whitespace. *)
Example strip_samples :
  Str.strip (no_break_space ++ " Ann , Bob" ++ Str.of_bytes [226; 128; 131; 10])
  = "Ann , Bob"%string /\
  map Str.strip (Str.split "," ("Ann" ++ no_break_space ++ ", Bob"))
  = ["Ann"; "Bob"]%string /\
  Str.strip (Str.of_bytes [226; 128; 139] ++ "A")
  = (Str.of_bytes [226; 128; 139] ++ "A")%string.
Proof. repeat split. Qed.

(** A string either does not start with whitespace, or starts with the
    bytes [w] of a whitespace character. *)
Lemma lstrip_cases (s : string) :
  Str.lstrip s = s \/
  exists w t,
    s = (w ++ t)%string /\ w <> ""%string /\
    forall r, Str.lstrip (w ++ r) = Str.lstrip r.
Proof.
  destruct s as [|c1 s1]; [now left|].
  destruct (Str.is_space c1) eqn:E1.
  { right. exists (String c1 ""), s1. split; [reflexivity|].
    split; [discriminate|]. intros r. cbn [append Str.lstrip]. now rewrite E1. }
  destruct s1 as [|c2 s2]; [left; cbn [Str.lstrip]; now rewrite E1|].
  destruct (Str.is_space2 c1 c2) eqn:E2.
  { right. exists (String c1 (String c2 "")), s2. split; [reflexivity|].
    split; [discriminate|]. intros r. cbn [append Str.lstrip].
    now rewrite E1, E2. }
  destruct s2 as [|c3 s3]; [left; cbn [Str.lstrip]; now rewrite E1, E2|].
  destruct (Str.is_space3 c1 c2 c3) eqn:E3.
  { right. exists (String c1 (String c2 (String c3 ""))), s3.
    split; [reflexivity|]. split; [discriminate|].
    intros r. cbn [append Str.lstrip]. now rewrite E1, E2, E3. }
  left. cbn [Str.lstrip]. now rewrite E1, E2, E3.
Qed.

Lemma string_length_app (a b : string) :
  String.length (a ++ b) = (String.length a + String.length b)%nat.
Proof. induction a as [|c a IH]; simpl; [reflexivity | now rewrite IH]. Qed.

Lemma lstrip_length (s : string) :
  (String.length (Str.lstrip s) <= String.length s)%nat.
Proof.
  remember (String.length s) as n eqn:En. revert s En.
  induction n as [n IH] using lt_wf_ind. intros s ->.
  destruct (lstrip_cases s) as [E | (w & t & -> & Hw & Hskip)].
  - now rewrite E.
  - rewrite Hskip, string_length_app.
    assert (L : (String.length t < String.length (w ++ t))%nat).
    { rewrite string_length_app. destruct w; [contradiction | simpl; lia]. }
    specialize (IH _ L t eq_refl). lia.
Qed.

Lemma lstrip_idem (s : string) : Str.lstrip (Str.lstrip s) = Str.lstrip s.
Proof.
  remember (String.length s) as n eqn:En. revert s En.
  induction n as [n IH] using lt_wf_ind. intros s ->.
  destruct (lstrip_cases s) as [E | (w & t & -> & Hw & Hskip)].
  - now rewrite E.
  - rewrite Hskip. apply (IH (String.length t)); [|reflexivity].
    rewrite string_length_app. destruct w; [contradiction | simpl; lia].
Qed.

Lemma app_assoc_string (a b c : string) :
  ((a ++ b) ++ c)%string = (a ++ (b ++ c))%string.
Proof. induction a as [|x a IH]; simpl; [reflexivity | now rewrite IH]. Qed.

Lemma lstrip_app_blank (a t : string) :
  Str.lstrip a = ""%string -> Str.lstrip (a ++ t) = Str.lstrip t.
Proof.
  remember (String.length a) as n eqn:En. revert a En.
  induction n as [n IH] using lt_wf_ind. intros a -> Ha.
  destruct (lstrip_cases a) as [E | (w & a' & -> & Hw & Hskip)].
  - rewrite Ha in E. now subst a.
  - rewrite Hskip in Ha.
    rewrite app_assoc_string, Hskip.
    apply (IH (String.length a')); [|reflexivity | exact Ha].
    rewrite string_length_app. destruct w; [contradiction | simpl; lia].
Qed.

(** What [rstrip] cuts off is whitespace only. *)
Lemma rstrip_split (s : string) :
  exists t, s = (Str.rstrip s ++ t)%string /\ Str.lstrip t = ""%string.
Proof.
  induction s as [|c s IH]; [now exists ""%string|].
  cbn [Str.rstrip].
  destruct (String.eqb (Str.lstrip (String c s)) "") eqn:E.
  - apply String.eqb_eq in E. now exists (String c s).
  - destruct IH as (t & Hs & Ht). exists t. split; [|exact Ht].
    simpl. now rewrite <- Hs.
Qed.

Lemma rstrip_idem (s : string) : Str.rstrip (Str.rstrip s) = Str.rstrip s.
Proof.
  induction s as [|c s IH]; [reflexivity|]. cbn [Str.rstrip].
  destruct (String.eqb (Str.lstrip (String c s)) "") eqn:E; [reflexivity|].
  cbn [Str.rstrip]. rewrite IH.
  destruct (String.eqb (Str.lstrip (String c (Str.rstrip s))) "") eqn:E';
    [|reflexivity].
  apply String.eqb_eq in E'. apply String.eqb_neq in E. exfalso. apply E.
  destruct (rstrip_split s) as (t & Hs & Ht).
  rewrite Hs.
  change (String c (Str.rstrip s ++ t)) with (String c (Str.rstrip s) ++ t)%string.
  now rewrite (lstrip_app_blank _ _ E').
Qed.

Lemma lstrip_rstrip (s : string) :
  Str.lstrip s = s -> Str.lstrip (Str.rstrip s) = Str.rstrip s.
Proof.
  intros H. destruct (rstrip_split s) as (t & Hs & Ht).
  destruct (lstrip_cases (Str.rstrip s)) as [E | (w & p & Hp & Hw & Hskip)];
    [exact E|].
  exfalso.
  assert (Hq : s = (w ++ (p ++ t))%string).
  { etransitivity; [exact Hs|]. rewrite Hp. apply app_assoc_string. }
  rewrite Hq, Hskip in H.
  pose proof (lstrip_length (p ++ t)) as L.
  rewrite H, string_length_app in L.
  destruct w; [contradiction | simpl in L; lia].
Qed.

Lemma strip_stripped (s : string) : stripped (Str.strip s).
Proof.
  unfold stripped, Str.strip. split.
  - apply lstrip_rstrip, lstrip_idem.
  - apply rstrip_idem.
Qed.

Lemma strip_items_stripped (sep : ascii) (s : string) :
  Forall stripped (map Str.strip (Str.split sep s)).
Proof.
  apply Forall_forall. intros x Hx. apply in_map_iff in Hx as (y & <- & _).
  apply strip_stripped.
Qed.

Lemma split_nonempty (sep : ascii) (s : string) : Str.split sep s <> [].
Proof.
  destruct s as [|c s]; [discriminate|]. cbn [Str.split].
  destruct (Ascii.eqb c sep); [discriminate|].
  destruct (Str.split sep s); discriminate.
Qed.

(** X10: What the artists block hands to the join convention: one
    empty name when there is no publisher metadata, nothing when the
    metadata is [None], and otherwise the comma-separated names of
    [artist], at least one, each without surrounding whitespace. *)
Theorem artists_names (conv_list_format : pyval -> result pyval)
    (d : list (string * pyval)) :
  (Py.lookup "publisher_metadata" d = None ->
   artists_block conv_list_format (PyDict d)
   = artists_from conv_list_format (PyDict d) [""%string]) /\
  (Py.lookup "publisher_metadata" d = Some PyNone ->
   artists_block conv_list_format (PyDict d)
   = artists_from conv_list_format (PyDict d) []) /\
  (forall publisher_metadata artist,
      Py.lookup "publisher_metadata" d = Some publisher_metadata ->
      field "artist" publisher_metadata = Some (PyStr artist) ->
      exists names,
        names = map Str.strip (Str.split "," artist) /\
        names <> [] /\ Forall stripped names /\
        artists_block conv_list_format (PyDict d)
        = artists_from conv_list_format (PyDict d) names).
Proof.
  unfold artists_block, artists_from. split; [|split].
  - intros H. cbn [Py.get bind]. now rewrite H.
  - intros H. cbn [Py.get bind]. now rewrite H.
  - intros pm artist Hpm Ha. eexists. split; [reflexivity|].
    split; [|split].
    + intros E. apply map_eq_nil in E. now apply split_nonempty in E.
    + apply strip_items_stripped.
    + cbn [Py.get bind]. rewrite Hpm.
      rewrite (get_field _ _ _ _ Ha). cbn [bind Py.split Py.as_str try_except].
      unfold Py.split. cbn [Py.as_str bind try_except]. now rewrite map_map.
Qed.

Lemma artists_names_witness :
  let artist := ("Ann" ++ no_break_space ++ ", Bob")%string in
  let track :=
    [("publisher_metadata", PyDict [("artist", PyStr artist)]);
     ("user", PyDict [("username", PyStr "uploader")])] in
  exists names,
    names = map Str.strip (Str.split "," artist) /\
    names <> [] /\ Forall stripped names /\
    artists_block join_items (PyDict track)
    = artists_from join_items (PyDict track) names.
Proof.
  intros artist track.
  destruct (artists_names join_items track) as (_ & _ & Hnames).
  apply (Hnames (PyDict [("artist", PyStr artist)])); reflexivity.
Defined.

(** X11: What the copyright block hands to the join convention: the
    empty string when there is no publisher metadata or no [c_line], and
    otherwise the comma-separated items of [c_line], at least one, each
    without surrounding whitespace. *)
Theorem copyright_items (conv_list_format : pyval -> result pyval)
    (d : list (string * pyval)) :
  (Py.lookup "publisher_metadata" d = None \/
   Py.lookup "publisher_metadata" d = Some PyNone \/
   (exists m, Py.lookup "publisher_metadata" d = Some (PyDict m) /\
              (Py.lookup "c_line" m = None \/
               Py.lookup "c_line" m = Some PyNone \/
               Py.lookup "c_line" m = Some (PyStr ""))) ->
   copyright_block conv_list_format (PyDict d) = conv_list_format (PyStr "")) /\
  (forall m c_line,
      Py.lookup "publisher_metadata" d = Some (PyDict m) ->
      Py.lookup "c_line" m = Some (PyStr c_line) ->
      c_line <> ""%string ->
      exists items,
        items = map Str.strip (Str.split "," c_line) /\
        items <> [] /\ Forall stripped items /\
        copyright_block conv_list_format (PyDict d)
        = conv_list_format (PyList (map PyStr items))).
Proof.
  unfold copyright_block. split.
  - intros [H | [H | (m & H & Hc)]]; cbn [Py.get bind]; rewrite H;
      cbn [Py.truthy bind]; try reflexivity.
    destruct m as [|kv m]; [reflexivity|].
    cbn [Py.get bind].
    destruct Hc as [-> | [-> | ->]]; reflexivity.
  - intros m c_line Hpm Hc Hne. eexists. split; [reflexivity|].
    split; [|split].
    + intros E. apply map_eq_nil in E. now apply split_nonempty in E.
    + apply strip_items_stripped.
    + cbn [Py.get bind]. rewrite Hpm.
      destruct m as [|kv m]; [discriminate Hc|].
      cbn [Py.truthy Py.get bind]. rewrite Hc.
      destruct c_line as [|a c_line]; [contradiction|].
      cbn [Py.truthy String.eqb negb bind]. unfold Py.split.
      cbn [Py.as_str bind]. now rewrite map_map.
Qed.

Lemma copyright_items_witness :
  let c_line := ("2021 Ann," ++ no_break_space ++ "Bob ")%string in
  let track := [("publisher_metadata", PyDict [("c_line", PyStr c_line)])] in
  exists items,
    items = map Str.strip (Str.split "," c_line) /\
    items <> [] /\ Forall stripped items /\
    copyright_block join_items (PyDict track)
    = join_items (PyList (map PyStr items)).
Proof.
  intros c_line track.
  destruct (copyright_items join_items track) as (_ & Hitems).
  apply (Hitems [("c_line", PyStr c_line)]);
    [reflexivity | reflexivity | discriminate].
Defined.

(** ** Length *)

(** X12: With a non-empty list of transcodings, the length is the
    decimal text of the first transcoding's [duration], and "0" when the
    first transcoding has none; the other transcodings are not read. *)
Theorem length_reads_first_duration (repr : pyval -> string)
    (track_data media first : pyval) (rest : list pyval) :
  field "media" track_data = Some media ->
  field "transcodings" media = Some (PyList (first :: rest)) ->
  (forall n,
      field "duration" first = Some (PyInt n) ->
      exists text,
        length_field repr track_data = Ok (PyStr text) /\
        parse_decimal text = Some n) /\
  (forall d,
      first = PyDict d -> Py.lookup "duration" d = None ->
      length_field repr track_data = Ok (PyStr "0")).
Proof.
  intros Hmedia Hts. unfold length_field.
  rewrite (get_field _ _ _ _ Hmedia). cbn [bind].
  rewrite (get_field _ _ _ _ Hts). cbn [bind Py.first]. split.
  - intros n Hn. rewrite (get_field _ _ _ _ Hn). cbn [bind str].
    eexists. split; [reflexivity | apply parse_of_Z].
  - intros d -> Hd. cbn [Py.get bind]. now rewrite Hd.
Qed.

Lemma length_reads_first_duration_witness :
  let mp3 := transcoding "mp3_1_0" "sq" "audio/mpeg" "progressive" "u2" in
  exists text,
    length_field plain_repr (streamable_track [mp3]) = Ok (PyStr text) /\
    parse_decimal text = Some 215000.
Proof.
  intros mp3.
  destruct (length_reads_first_duration plain_repr (streamable_track [mp3])
              (PyDict [("transcodings", PyList [mp3])]) mp3 []
              eq_refl eq_refl) as [Hnum _].
  apply Hnum. reflexivity.
Defined.

(** ** The scrape starts at the marker *)

Lemma find_split (needle s : string) :
  Occurs needle s ->
  exists pre post,
    s = (pre ++ needle ++ post)%string /\
    Str.find needle s = Z.of_nat (String.length pre) /\
    Str.slice_from (Str.find needle s) s = (needle ++ post)%string.
Proof.
  induction s as [|c s IH]; intros Hocc.
  - apply contains_spec in Hocc. cbn [Str.contains] in Hocc.
    rewrite orb_false_r in Hocc.
    pose proof Hocc as Hs. apply startswith_spec in Hs as [post Hs].
    exists ""%string, post. cbn [Str.find]. rewrite Hocc.
    repeat split; assumption.
  - cbn [Str.find]. destruct (Str.startswith needle (String c s)) eqn:Es.
    + pose proof Es as Hs. apply startswith_spec in Hs as [post Hs].
      exists ""%string, post. repeat split; assumption.
    + assert (Hocc' : Occurs needle s).
      { apply contains_spec in Hocc. cbn [Str.contains] in Hocc.
        rewrite Es in Hocc. now apply contains_spec. }
      destruct (IH Hocc') as (pre & post & Hs & Hf & Hsl).
      exists (String c pre), post.
      rewrite (find_found _ _ Hocc').
      split; [simpl; now rewrite <- Hs|].
      split; [rewrite Hf; cbn [String.length]; lia|].
      pose proof (find_lower_bound needle s) as B.
      unfold Str.slice_from in *.
      assert (Hpos : 0 <= Str.find needle s) by lia.
      destruct (Str.find needle s <? 0) eqn:L1; [apply Z.ltb_lt in L1; lia|].
      destruct (Str.find needle s + 1 <? 0) eqn:L2; [apply Z.ltb_lt in L2; lia|].
      replace (Z.to_nat (Str.find needle s + 1))
        with (S (Z.to_nat (Str.find needle s))) by lia.
      exact Hsl.
Qed.

(** X13: When the page holds the marker, the scrape cuts the page at
    the marker's first occurrence: the start index is the length of what
    precedes it, and the album link is the first [href] among what follows
    the marker. *)
Theorem album_link_follows_marker
    (make_call : string -> option token -> bool -> result pyval)
    (repr : pyval -> string) (tok : token)
    (track_data permalink : pyval) (page : string) :
  field "permalink_url" track_data = Some permalink ->
  make_call (str repr permalink ++ "/albums") None true = Ok (PyStr page) ->
  Occurs marker page ->
  exists pre post,
    page = (pre ++ marker ++ post)%string /\
    scrape_album make_call repr tok track_data
    = (album_data <-
         match Str.search_href post with
         | Some album_href =>
             make_call
               (BASE_URL ++ "/resolve?url=https://soundcloud.com" ++ album_href)
               (Some tok) false
         | None => Ok PyNone
         end ;;
       Ok (Z.of_nat (String.length pre), page, album_data)).
Proof.
  intros Hperma Hpage Hocc.
  destruct (find_split _ _ Hocc) as (pre & post & Hs & Hf & Hsl).
  exists pre, post. split; [exact Hs|].
  rewrite (scrape_album_page _ _ _ _ _ _ Hperma Hpage).
  rewrite (find_found _ _ Hocc). cbn [negb]. rewrite Hsl, Hf.
  reflexivity.
Qed.

Lemma album_link_follows_marker_witness :
  let make_call :=
    serve (table_album (track_record []) (Ok (PyStr album_page))
             (Ok album_record)) in
  exists pre post,
    album_page = (pre ++ marker ++ post)%string /\
    scrape_album make_call plain_repr guest (track_record [])
    = (album_data <-
         match Str.search_href post with
         | Some album_href =>
             make_call
               (BASE_URL ++ "/resolve?url=https://soundcloud.com" ++ album_href)
               (Some guest) false
         | None => Ok PyNone
         end ;;
       Ok (Z.of_nat (String.length pre), album_page, album_data)).
Proof.
  intros make_call.
  apply (album_link_follows_marker make_call plain_repr guest (track_record [])
           (PyStr "https://soundcloud.com/artist/song") album_page);
    [reflexivity | reflexivity |].
  apply contains_spec. reflexivity.
Defined.

(** ** The shape of the resolver's result *)

Lemma length_field_str (repr : pyval -> string) (track_data v : pyval) :
  length_field repr track_data = Ok v -> is_str v.
Proof.
  unfold length_field. intros H. repeat bind_ok H. injection H as <-.
  now eexists.
Qed.

Lemma release_year_field_str (track_data v : pyval) :
  release_year_field track_data = Ok v -> is_str v.
Proof.
  unfold release_year_field. intros H. repeat bind_ok H.
  destruct a1; [discriminate|]. injection H as <-. now eexists.
Qed.

Ltac lookup_cases H :=
  repeat (cbn [Py.lookup] in H;
          match type of H with
          | (if String.eqb ?k ?key then _ else _) = _ =>
              let E := fresh "K" in
              destruct (String.eqb k key) eqn:E;
              [apply String.eqb_eq in E; subst k|]
          end).

(** X14: Every result of the resolver has the sixteen keys of the
    info record and, beside them, at most [label], present only with a
    truthy value; [description], [release_year] and [length] are strings,
    and [album_type] is "album" or "single". *)
Theorem resolver_result_shape
    (make_call : string -> option token -> bool -> result pyval)
    (conv_list_format : pyval -> result pyval) (repr : pyval -> string)
    (tok : token) (item_id : string) (info : pyval) :
  soundcloud_get_track_metadata make_call conv_list_format repr tok item_id
  = Ok info ->
  (forall k, In k info_keys -> field k info <> None) /\
  (forall k v, field k info = Some v ->
               In k info_keys \/ (k = "label"%string /\ Py.truthy v = true)) /\
  (forall k v, In k ["description"; "release_year"; "length"]%string ->
               field k info = Some v -> is_str v) /\
  (field "album_type" info = Some (PyStr "album") \/
   field "album_type" info = Some (PyStr "single")).
Proof.
  unfold soundcloud_get_track_metadata. intros H.
  bind_ok H. rename a into track_data.
  bind_ok H. destruct a as [[start_index track_webpage] album_data].
  bind_ok H. rename a into artists.
  bind_ok H. destruct a as [[total_tracks track_number] album_type].
  repeat bind_ok H.
  injection H as <-.
  assert (Htype : album_type = "album"%string \/ album_type = "single"%string).
  { destruct (track_number_block_outcomes album_data track_data)
      as [Hs | (t & n & _ & Ha)].
    - rewrite Hs in E2. injection E2 as _ _ <-. now right.
    - rewrite Ha in E2. injection E2 as _ _ <-. now left. }
  pose proof (length_field_str _ _ _ E13) as Hlen.
  pose proof (release_year_field_str _ _ E11) as Hyear.
  destruct (Py.truthy a5) eqn:Tlabel.
  - split; [|split; [|split]].
    + intros k Hk. unfold info_keys in Hk. cbn [In] in Hk.
      repeat (destruct Hk as [<- | Hk]; [discriminate|]). contradiction.
    + intros k v Hf. cbn [field Py.set_item String.eqb Ascii.eqb Bool.eqb] in Hf.
      lookup_cases Hf; try discriminate;
        try (left; unfold info_keys; cbn [In]; tauto).
      right. injection Hf as <-. split; [reflexivity | exact Tlabel].
    + intros k v Hk Hf. cbn [In] in Hk.
      destruct Hk as [<- | [<- | [<- | []]]];
        cbn in Hf; injection Hf as <-; [now eexists | assumption | assumption].
    + destruct Htype as [-> | ->]; [now left | now right].
  - split; [|split; [|split]].
    + intros k Hk. unfold info_keys in Hk. cbn [In] in Hk.
      repeat (destruct Hk as [<- | Hk]; [discriminate|]). contradiction.
    + intros k v Hf. cbn [field Py.set_item String.eqb Ascii.eqb Bool.eqb] in Hf.
      lookup_cases Hf; try discriminate;
        left; unfold info_keys; cbn [In]; tauto.
    + intros k v Hk Hf. cbn [In] in Hk.
      destruct Hk as [<- | [<- | [<- | []]]];
        cbn in Hf; injection Hf as <-; [now eexists | assumption | assumption].
    + destruct Htype as [-> | ->]; [now left | now right].
Qed.

Lemma resolver_result_shape_witness :
  exists info,
    resolve (table_album (track_record []) (Ok (PyStr album_page))
               (Ok album_record)) = Ok info /\
    (forall k, In k info_keys -> field k info <> None) /\
    (field "album_type" info = Some (PyStr "album") \/
     field "album_type" info = Some (PyStr "single")).
Proof.
  eexists. split; [reflexivity|].
  destruct (resolver_result_shape
              (serve (table_album (track_record []) (Ok (PyStr album_page))
                        (Ok album_record)))
              join_items plain_repr guest "2" _ eq_refl)
    as (Hkeys & _ & _ & Htype).
  split; [exact Hkeys | exact Htype].
Defined.

(** X15: Nothing is caught around the first fetches: an exception of
    the track fetch leaves the resolver as it is, a track record that is no
    dict raises TypeError, and one without [permalink_url] raises
    KeyError. *)
Theorem track_fetch_fails_loud
    (make_call : string -> option token -> bool -> result pyval)
    (conv_list_format : pyval -> result pyval) (repr : pyval -> string)
    (tok : token) (item_id : string) :
  (forall e,
      make_call (BASE_URL ++ "/tracks/" ++ item_id) (Some tok) false = Raise e ->
      soundcloud_get_track_metadata make_call conv_list_format repr tok item_id
      = Raise e) /\
  (forall v,
      make_call (BASE_URL ++ "/tracks/" ++ item_id) (Some tok) false = Ok v ->
      (forall d, v <> PyDict d) ->
      soundcloud_get_track_metadata make_call conv_list_format repr tok item_id
      = Raise TypeError) /\
  (forall d,
      make_call (BASE_URL ++ "/tracks/" ++ item_id) (Some tok) false
      = Ok (PyDict d) ->
      Py.lookup "permalink_url" d = None ->
      soundcloud_get_track_metadata make_call conv_list_format repr tok item_id
      = Raise KeyError).
Proof.
  split; [|split].
  - intros e H. now apply track_fetch_raises.
  - intros v H Hv. apply (scrape_raises _ _ _ _ _ _ _ H).
    unfold scrape_album. destruct v; try reflexivity. now contradiction (Hv d).
  - intros d H Hp. apply (scrape_raises _ _ _ _ _ _ _ H).
    unfold scrape_album. cbn [Py.getitem]. now rewrite Hp.
Qed.

Lemma track_fetch_fails_loud_witness :
  resolve [] = Raise (TransportError "ConnectionError") /\
  resolve (table_track (PyList [])) = Raise TypeError.
Proof.
  split.
  - destruct (track_fetch_fails_loud (serve []) join_items plain_repr guest "2")
      as (Hraise & _).
    apply Hraise. reflexivity.
  - destruct (track_fetch_fails_loud (serve (table_track (PyList [])))
                join_items plain_repr guest "2") as (_ & Hshape & _).
    apply (Hshape (PyList [])); [reflexivity | discriminate].
Defined.

(** ** Tokens and headers *)

Lemma getitem_ok_field (v x : pyval) (k : string) :
  Py.getitem v k = Ok x -> field k v = Some x.
Proof.
  destruct v as [| | | | |d]; try discriminate. simpl.
  destruct (Py.lookup k d); [now intros [= ->] | discriminate].
Qed.

(** X16: A token read from the pool has the four keys of the login
    record, [oauth_token] being [None] when the login has none; the headers
    built from it carry the User-Agent, and an Authorization header exactly
    when the OAuth token is truthy. *)
Theorem pool_token_headers (repr : pyval -> string)
    (account_pool : pyval) (parsing_index : Z) (token : pyval) :
  soundcloud_get_token account_pool parsing_index = Ok token ->
  exists login client_id app_version app_locale oauth_token headers,
    pool_login account_pool parsing_index = Ok login /\
    field "client_id" login = Some client_id /\
    field "app_version" login = Some app_version /\
    field "app_locale" login = Some app_locale /\
    oauth_token = match field "oauth_token" login with
                  | Some t => t
                  | None => PyNone
                  end /\
    token = PyDict [("client_id", client_id); ("app_version", app_version);
                    ("app_locale", app_locale); ("oauth_token", oauth_token)] /\
    _get_request_headers repr token = Ok headers /\
    field "User-Agent" headers = Some (PyStr USER_AGENT) /\
    field "Authorization" headers
    = if Py.truthy oauth_token
      then Some (PyStr ("OAuth " ++ str repr oauth_token))
      else None.
Proof.
  unfold soundcloud_get_token. intros H.
  bind_ok H. rename a into login.
  bind_ok H. rename a into client_id.
  bind_ok H. rename a into app_version.
  bind_ok H. rename a into app_locale.
  bind_ok H. rename a into oauth_token.
  injection H as <-.
  exists login, client_id, app_version, app_locale, oauth_token.
  assert (Ho : oauth_token = match field "oauth_token" login with
                             | Some t => t | None => PyNone end).
  { destruct login; try discriminate.
    match goal with H : Py.get _ _ _ = Ok _ |- _ =>
      cbn [Py.get] in H; now injection H as <- end. }
  unfold _get_request_headers.
  cbn [Py.get Py.lookup String.eqb Ascii.eqb Bool.eqb bind Py.getitem].
  destruct (Py.truthy oauth_token) eqn:T; eexists;
    (split; [reflexivity|]);
    (split; [now apply getitem_ok_field|]);
    (split; [now apply getitem_ok_field|]);
    (split; [now apply getitem_ok_field|]);
    (split; [exact Ho|]); repeat split.
Qed.

Lemma pool_token_headers_witness :
  let pool := PyList [premium_entry "c1" "1700000000" (PyStr "secret")] in
  exists login client_id app_version app_locale oauth_token headers,
    pool_login pool 0 = Ok login /\
    field "client_id" login = Some client_id /\
    field "app_version" login = Some app_version /\
    field "app_locale" login = Some app_locale /\
    oauth_token = match field "oauth_token" login with
                  | Some t => t
                  | None => PyNone
                  end /\
    PyDict [("client_id", PyStr "c1"); ("app_version", PyStr "1700000000");
            ("app_locale", PyStr "en"); ("oauth_token", PyStr "secret")]
    = PyDict [("client_id", client_id); ("app_version", app_version);
              ("app_locale", app_locale); ("oauth_token", oauth_token)] /\
    _get_request_headers plain_repr
      (PyDict [("client_id", PyStr "c1"); ("app_version", PyStr "1700000000");
               ("app_locale", PyStr "en"); ("oauth_token", PyStr "secret")])
    = Ok headers /\
    field "User-Agent" headers = Some (PyStr USER_AGENT) /\
    field "Authorization" headers
    = if Py.truthy oauth_token
      then Some (PyStr ("OAuth " ++ str plain_repr oauth_token))
      else None.
Proof.
  intros pool.
  apply (pool_token_headers plain_repr pool 0). reflexivity.
Defined.

(** X17: An index outside the pool raises IndexError; a negative index
    within it counts from the end; an index within it reads the login of
    the account at that position. *)
Theorem token_index_bounds (pool : list pyval) (parsing_index : Z) :
  let n := Z.of_nat (List.length pool) in
  (parsing_index < - n \/ n <= parsing_index ->
   soundcloud_get_token (PyList pool) parsing_index = Raise IndexError) /\
  (- n <= parsing_index < 0 ->
   soundcloud_get_token (PyList pool) parsing_index
   = soundcloud_get_token (PyList pool) (parsing_index + n)) /\
  (0 <= parsing_index < n ->
   exists account,
     nth_error pool (Z.to_nat parsing_index) = Some account /\
     pool_login (PyList pool) parsing_index = Py.getitem account "login").
Proof.
  intros n. subst n. split; [|split].
  - intros H.
    assert (E : index (PyList pool) parsing_index = Raise IndexError).
    { unfold index. destruct (parsing_index <? 0) eqn:N.
      - apply Z.ltb_lt in N.
        destruct (0 <=? parsing_index + Z.of_nat (List.length pool)) eqn:Lo;
          [apply Z.leb_le in Lo; lia | reflexivity].
      - apply Z.ltb_ge in N.
        destruct (parsing_index <? Z.of_nat (List.length pool)) eqn:Hi;
          [apply Z.ltb_lt in Hi; lia | now rewrite andb_false_r]. }
    unfold soundcloud_get_token, pool_login. now rewrite E.
  - intros H.
    assert (E : index (PyList pool) parsing_index
                = index (PyList pool) (parsing_index + Z.of_nat (List.length pool))).
    { unfold index.
      destruct (parsing_index <? 0) eqn:N; [|apply Z.ltb_ge in N; lia].
      destruct (parsing_index + Z.of_nat (List.length pool) <? 0) eqn:N';
        [apply Z.ltb_lt in N'; lia | reflexivity]. }
    unfold soundcloud_get_token, pool_login. now rewrite E.
  - intros H. unfold pool_login, index.
    destruct (parsing_index <? 0) eqn:N; [apply Z.ltb_lt in N; lia|].
    destruct (0 <=? parsing_index) eqn:Lo; [|apply Z.leb_gt in Lo; lia].
    destruct (parsing_index <? Z.of_nat (List.length pool)) eqn:Hi;
      [|apply Z.ltb_ge in Hi; lia].
    cbn [andb].
    destruct (nth_error pool (Z.to_nat parsing_index)) as [account|] eqn:En.
    + exists account. split; reflexivity.
    + apply nth_error_None in En. lia.
Qed.

Lemma token_index_bounds_witness :
  let pool := [premium_entry "c1" "1700000000" (PyStr "secret")] in
  soundcloud_get_token (PyList pool) 1 = Raise IndexError /\
  soundcloud_get_token (PyList pool) (-1) = soundcloud_get_token (PyList pool) 0.
Proof.
  intros pool. split.
  - destruct (token_index_bounds pool 1) as (Hout & _).
    apply Hout. right. simpl. lia.
  - destruct (token_index_bounds pool (-1)) as (_ & Hneg & _).
    apply Hneg. simpl. lia.
Defined.

(** ** Resolving a URL *)

(** X18: Resolving a URL returns the [kind] and the decimal text of
    an integer [id]; an answer that is no dict raises TypeError, and one
    that lacks [id] or [kind] raises KeyError. *)
Theorem parse_url_outcomes
    (make_call : string -> option token -> bool -> result pyval)
    (repr : pyval -> string) (url : string) (tok : token) :
  (forall resp kind n,
      make_call (BASE_URL ++ "/resolve?url=" ++ url) (Some tok) false = Ok resp ->
      field "kind" resp = Some kind ->
      field "id" resp = Some (PyInt n) ->
      exists item_id,
        soundcloud_parse_url make_call repr url tok = Ok (kind, item_id) /\
        parse_decimal item_id = Some n) /\
  (forall resp,
      make_call (BASE_URL ++ "/resolve?url=" ++ url) (Some tok) false = Ok resp ->
      (forall d, resp <> PyDict d) ->
      soundcloud_parse_url make_call repr url tok = Raise TypeError) /\
  (forall d,
      make_call (BASE_URL ++ "/resolve?url=" ++ url) (Some tok) false
      = Ok (PyDict d) ->
      Py.lookup "id" d = None \/ Py.lookup "kind" d = None ->
      soundcloud_parse_url make_call repr url tok = Raise KeyError).
Proof.
  unfold soundcloud_parse_url. split; [|split].
  - intros resp kind n -> Hk Hi. cbn [bind].
    rewrite (getitem_field _ _ _ Hi). cbn [bind].
    rewrite (getitem_field _ _ _ Hk). cbn [bind str].
    eexists. split; [reflexivity | apply parse_of_Z].
  - intros resp -> Hd. cbn [bind].
    destruct resp; try reflexivity. now contradiction (Hd d).
  - intros d -> H. cbn [bind Py.getitem].
    destruct (Py.lookup "id" d) eqn:Ei; cbn [bind].
    + destruct H as [H | H]; [discriminate|]. now rewrite H.
    + reflexivity.
Qed.

Lemma parse_url_outcomes_witness :
  let resolved := PyDict [("kind", PyStr "track"); ("id", PyInt 2)] in
  let make_call :=
    serve [(BASE_URL ++ "/resolve?url=https://soundcloud.com/artist/song",
            Ok resolved)] in
  exists item_id,
    soundcloud_parse_url make_call plain_repr
      "https://soundcloud.com/artist/song" guest
    = Ok (PyStr "track", item_id) /\
    parse_decimal item_id = Some 2.
Proof.
  intros resolved make_call.
  destruct (parse_url_outcomes make_call plain_repr
              "https://soundcloud.com/artist/song" guest) as (Hok & _).
  apply (Hok resolved); reflexivity.
Defined.

(** ** Set items *)

(** X19: Fetching a set never raises TypeError or KeyError: either of
    them from the fetch makes the function return [None]; any other outcome
    of the fetch is the outcome of the function. *)
Theorem set_items_absorbs_parse_errors
    (make_call_skip_cache : string -> option token -> result pyval)
    (tok : token) (url : string) :
  let fetched :=
    make_call_skip_cache (BASE_URL ++ "/resolve?url=" ++ url) (Some tok) in
  soundcloud_get_set_items make_call_skip_cache tok url <> Raise TypeError /\
  soundcloud_get_set_items make_call_skip_cache tok url <> Raise KeyError /\
  (fetched = Raise TypeError \/ fetched = Raise KeyError ->
   soundcloud_get_set_items make_call_skip_cache tok url = Ok PyNone) /\
  (fetched <> Raise TypeError -> fetched <> Raise KeyError ->
   soundcloud_get_set_items make_call_skip_cache tok url = fetched).
Proof.
  intros fetched. subst fetched. unfold soundcloud_get_set_items.
  destruct (make_call_skip_cache _ _) as [v|e]; cbn [try_except].
  - repeat split; try discriminate. intros [H | H]; discriminate.
  - destruct e; cbn; repeat split; try discriminate; try congruence;
      try (intros [H | H]; congruence || discriminate); try reflexivity.
Qed.

Lemma set_items_absorbs_parse_errors_witness :
  soundcloud_get_set_items (fun _ _ => Raise KeyError) guest
    "https://soundcloud.com/artist/sets/first-album"
  = Ok PyNone.
Proof.
  destruct (set_items_absorbs_parse_errors (fun _ _ => Raise KeyError) guest
              "https://soundcloud.com/artist/sets/first-album")
    as (_ & _ & Hnone & _).
  apply Hnone. right. reflexivity.
Defined.

(** ** Search *)

Lemma search_item_entry (item_type : string) (entry : pyval) :
  search_entry entry = true ->
  search_item item_type entry = Ok (result_item item_type entry).
Proof.
  unfold search_entry, search_item, result_item. intros H.
  destruct (field "id" entry) as [i|] eqn:Ei; [|discriminate].
  destruct (field "title" entry) as [t|] eqn:Et; [|discriminate].
  destruct (field "user" entry) as [u|] eqn:Eu; [|discriminate].
  destruct (field "permalink_url" entry) as [p|] eqn:Ep; [|discriminate].
  destruct (field "username" u) as [n|] eqn:En; [|discriminate].
  rewrite (getitem_field _ _ _ Ei), (getitem_field _ _ _ Et),
    (getitem_field _ _ _ Eu). cbn [bind].
  rewrite (getitem_field _ _ _ En), (getitem_field _ _ _ Ep). cbn [bind].
  destruct entry as [| | | | |d]; try discriminate. reflexivity.
Qed.

Lemma search_loop_entries (item_type : string) (entries acc : list pyval) :
  forallb search_entry entries = true ->
  search_loop item_type entries acc
  = Ok (acc ++ map (result_item item_type) entries)%list.
Proof.
  revert acc. induction entries as [|e entries IH]; intros acc H.
  - simpl. now rewrite app_nil_r.
  - simpl in H. apply andb_true_iff in H as [He Hes].
    cbn [search_loop]. rewrite (search_item_entry _ _ He). cbn [bind].
    rewrite (IH _ Hes). now rewrite <- app_assoc.
Qed.

(** X20: With both content types asked for and well-formed answers,
    the result lists an item for every track, in the order of the answer,
    followed by an item for every playlist. *)
Theorem search_lists_tracks_then_playlists
    (requests_search : string -> token -> string -> result response)
    (tok : token) (search_term : string) (content_types : pyval)
    (tracks playlists : list pyval) :
  Py.contains "track" content_types = Ok true ->
  Py.contains "playlist" content_types = Ok true ->
  (exists r answer,
      requests_search (BASE_URL ++ "/search/tracks") tok search_term = Ok r /\
      json r = Ok answer /\ field "collection" answer = Some (PyList tracks)) ->
  (exists r answer,
      requests_search (BASE_URL ++ "/search/playlists") tok search_term = Ok r /\
      json r = Ok answer /\
      field "collection" answer = Some (PyList playlists)) ->
  forallb search_entry tracks = true ->
  forallb search_entry playlists = true ->
  soundcloud_get_search_results requests_search tok search_term content_types
  = Ok (map (result_item "track") tracks
        ++ map (result_item "playlist") playlists)%list.
Proof.
  intros Ct Cp (r1 & a1 & R1 & J1 & C1) (r2 & a2 & R2 & J2 & C2) W1 W2.
  unfold soundcloud_get_search_results, search_phase.
  rewrite Ct, Cp. cbn [bind]. rewrite R1. cbn [bind]. rewrite J1. cbn [bind].
  rewrite (get_field _ _ _ _ C1). cbn [bind Py.iter].
  rewrite (search_loop_entries _ _ _ W1). cbn [bind app].
  rewrite R2. cbn [bind]. rewrite J2. cbn [bind].
  rewrite (get_field _ _ _ _ C2). cbn [bind Py.iter].
  now rewrite (search_loop_entries _ _ _ W2).
Qed.

Lemma search_lists_tracks_then_playlists_witness :
  soundcloud_get_search_results (search_transport 200) guest "song"
    (PyList [PyStr "playlist"; PyStr "track"])
  = Ok (map (result_item "track") [found 2 "song"]
        ++ map (result_item "playlist") [found 7 "first-album"; found 8 "live"])%list.
Proof.
  apply (search_lists_tracks_then_playlists (search_transport 200) guest "song"
           (PyList [PyStr "playlist"; PyStr "track"]));
    try reflexivity; eexists _, _; repeat split.
Defined.

Lemma search_loop_results (item_type : string) (entries acc out : list pyval) :
  item_type = "track"%string \/ item_type = "playlist"%string ->
  Forall search_result acc ->
  search_loop item_type entries acc = Ok out ->
  Forall search_result out.
Proof.
  intros Hty. revert acc. induction entries as [|e entries IH]; intros acc Hacc H.
  - now injection H as <-.
  - cbn [search_loop] in H. bind_ok H.
    assert (Ha : search_result a).
    { unfold search_item in E. repeat bind_ok E. injection E as <-.
      eexists. split; [reflexivity|]. split; [reflexivity|].
      split; [reflexivity|]. destruct Hty as [-> | ->]; [now left | now right]. }
    apply (IH (acc ++ [a])%list); [|exact H].
    apply Forall_app. split; [exact Hacc | now constructor].
Qed.

(** X21: Every element of a search result is a dict with exactly the
    seven item keys, in their order, with service "soundcloud" and type
    "track" or "playlist". *)
Theorem search_results_are_items
    (requests_search : string -> token -> string -> result response)
    (tok : token) (search_term : string) (content_types : pyval)
    (results : list pyval) :
  soundcloud_get_search_results requests_search tok search_term content_types
  = Ok results ->
  Forall search_result results.
Proof.
  unfold soundcloud_get_search_results, search_phase. intros H.
  bind_ok H. rename a into found.
  assert (F1 : Forall search_result found).
  { bind_ok E. destruct a.
    - repeat bind_ok E.
      eapply (search_loop_results "track"); [now left | constructor | exact E].
    - injection E as <-. constructor. }
  bind_ok H. destruct a.
  - repeat bind_ok H.
    eapply (search_loop_results "playlist"); [now right | exact F1 | exact H].
  - now injection H as <-.
Qed.

Lemma search_results_are_items_witness :
  Forall search_result
    (map (result_item "playlist") [found 7 "first-album"; found 8 "live"]).
Proof.
  apply (search_results_are_items (search_transport 200) guest "song"
           (PyList [PyStr "playlist"])).
  reflexivity.
Defined.

(** X22: The search never looks at the HTTP status: two transports
    that answer with the same bodies, or fail alike, give the same
    result. *)
Theorem search_ignores_status
    (rs1 rs2 : string -> token -> string -> result response)
    (tok : token) (search_term : string) (content_types : pyval) :
  same_bodies rs1 rs2 ->
  soundcloud_get_search_results rs1 tok search_term content_types
  = soundcloud_get_search_results rs2 tok search_term content_types.
Proof.
  intros S.
  assert (P : forall ty path acc,
             search_phase rs1 ty path tok search_term content_types acc
             = search_phase rs2 ty path tok search_term content_types acc).
  { intros ty path acc. unfold search_phase.
    destruct (Py.contains ty content_types) as [[|]|]; cbn [bind];
      try reflexivity.
    specialize (S (BASE_URL ++ path) tok search_term).
    destruct (rs1 _ _ _) as [r1|e1], (rs2 _ _ _) as [r2|e2];
      try contradiction; cbn [bind]; [now rewrite S | now subst]. }
  unfold soundcloud_get_search_results. rewrite P.
  destruct (search_phase rs2 _ _ _ _ _ _); cbn [bind]; [apply P | reflexivity].
Qed.

Lemma search_ignores_status_witness :
  soundcloud_get_search_results (search_transport 200) guest "song"
    (PyList [PyStr "track"])
  = soundcloud_get_search_results (with_status 503 (search_transport 200))
      guest "song" (PyList [PyStr "track"]).
Proof.
  apply (search_ignores_status (search_transport 200)
           (with_status 503 (search_transport 200))).
  intros url tok q. unfold with_status.
  destruct (search_transport 200 url tok q); reflexivity.
Defined.

(** X23: A track entry without [id] makes the whole search raise
    KeyError, even after well-formed entries: no partial result is
    returned. *)
Theorem search_malformed_entry
    (requests_search : string -> token -> string -> result response)
    (tok : token) (search_term : string) (content_types : pyval)
    (r : response) (answer : pyval) (pre post : list pyval)
    (bad : list (string * pyval)) :
  Py.contains "track" content_types = Ok true ->
  requests_search (BASE_URL ++ "/search/tracks") tok search_term = Ok r ->
  json r = Ok answer ->
  field "collection" answer = Some (PyList (pre ++ PyDict bad :: post)) ->
  forallb search_entry pre = true ->
  Py.lookup "id" bad = None ->
  soundcloud_get_search_results requests_search tok search_term content_types
  = Raise KeyError.
Proof.
  intros Ct R J C W Hbad.
  unfold soundcloud_get_search_results, search_phase.
  rewrite Ct. cbn [bind]. rewrite R. cbn [bind]. rewrite J. cbn [bind].
  rewrite (get_field _ _ _ _ C). cbn [bind Py.iter].
  assert (L : forall acc,
             search_loop "track" (pre ++ PyDict bad :: post) acc
             = Raise KeyError).
  { clear - W Hbad. induction pre as [|e pre IH]; intros acc.
    - cbn [app search_loop]. unfold search_item. cbn [Py.getitem].
      now rewrite Hbad.
    - simpl in W. apply andb_true_iff in W as [He W].
      cbn [app search_loop]. rewrite (search_item_entry _ _ He). cbn [bind].
      now apply IH. }
  now rewrite L.
Qed.

Lemma search_malformed_entry_witness :
  soundcloud_get_search_results broken_search guest "song"
    (PyList [PyStr "track"])
  = Raise KeyError.
Proof.
  apply (search_malformed_entry broken_search guest "song"
           (PyList [PyStr "track"])
           {| status_code := 200;
              json := Ok (PyDict [("collection",
                                   PyList [found 2 "song";
                                           PyDict [("title", PyStr "x")]])]) |}
           (PyDict [("collection",
                     PyList [found 2 "song"; PyDict [("title", PyStr "x")]])])
           [found 2 "song"] [] [("title", PyStr "x")]);
    reflexivity.
Defined.

(** ** Verifying an OAuth token *)

(** X24: A token that is blank, whitespace of any kind alone, is
    refused without a request; a token is accepted exactly when it is not
    blank and the session endpoint answers 200; a transport failure of the
    request counts as a refusal. *)
Theorem verify_oauth_token_outcomes
    (requests_post : string -> string -> result response)
    (client_id token : string) :
  let url := (VERIFY_AUTH_URL ++ "?client_id=" ++ client_id)%string in
  (Str.strip token = ""%string ->
   forall post,
     soundcloud_verify_oauth_token post client_id (PyStr token) = Ok false) /\
  (soundcloud_verify_oauth_token requests_post client_id (PyStr token)
   = Ok true <->
   Str.strip token <> ""%string /\
   exists r, requests_post url token = Ok r /\ status_code r = 200) /\
  (forall name,
      requests_post url token = Raise (TransportError name) ->
      soundcloud_verify_oauth_token requests_post client_id (PyStr token)
      = Ok false).
Proof.
  intros url. subst url. unfold soundcloud_verify_oauth_token.
  cbn [Py.as_str bind Py.truthy]. split; [|split].
  - intros H post. now rewrite H.
  - destruct (String.eqb (Str.strip token) "") eqn:E; cbn [negb].
    + apply String.eqb_eq in E. split; [discriminate | intros [H _]; contradiction].
    + apply String.eqb_neq in E.
      destruct (requests_post _ token) as [r|e]; cbn [bind try_except].
      * destruct (status_code r =? 200) eqn:S.
        -- apply Z.eqb_eq in S. split; [|reflexivity].
           intros _. split; [exact E|]. now exists r.
        -- apply Z.eqb_neq in S. split; [discriminate|].
           intros [_ (r' & [= <-] & S')]. contradiction.
      * split.
        -- destruct e; discriminate.
        -- intros [_ (r & Hr & _)]. discriminate.
  - intros name H. destruct (String.eqb (Str.strip token) ""); cbn [negb];
      [reflexivity|]. now rewrite H.
Qed.

(** The token "secret" is accepted; a token of a no-break space and a
    space is refused though the endpoint would answer 200; a timeout is a
    refusal. *)
Lemma verify_oauth_token_outcomes_witness :
  soundcloud_verify_oauth_token session_endpoint "c1" (PyStr "secret")
  = Ok true /\
  soundcloud_verify_oauth_token (fun _ _ => answer 200 (PyDict [])) "c1"
    (PyStr (no_break_space ++ " "))
  = Ok false /\
  soundcloud_verify_oauth_token
    (fun _ _ => Raise (TransportError "Timeout")) "c1" (PyStr "secret")
  = Ok false.
Proof.
  split; [|split].
  - destruct (verify_oauth_token_outcomes session_endpoint "c1" "secret")
      as (_ & Htrue & _).
    apply Htrue. split; [discriminate|]. eexists. split; reflexivity.
  - destruct (verify_oauth_token_outcomes session_endpoint "c1"
                (no_break_space ++ " ")) as (Hblank & _).
    apply Hblank. reflexivity.
  - destruct (verify_oauth_token_outcomes
                (fun _ _ => Raise (TransportError "Timeout")) "c1" "secret")
      as (_ & _ & Hraise).
    apply (Hraise "Timeout"%string). reflexivity.
Defined.

(** ** Accounts *)

Lemma eq_pystr (v : pyval) (s : string) :
  Py.eq v (PyStr s) = true <-> v = PyStr s.
Proof.
  destruct v; simpl; split; try discriminate.
  - intros H. apply String.eqb_eq in H. now subst.
  - intros [= ->]. apply String.eqb_refl.
Qed.

Lemma eq_pystr_false (v : pyval) (s : string) :
  v <> PyStr s -> Py.eq v (PyStr s) = false.
Proof.
  intros H. destruct (Py.eq v (PyStr s)) eqn:E; [|reflexivity].
  apply eq_pystr in E. contradiction.
Qed.

Lemma lookup_set_item_same (k : string) (v : pyval) (d : list (string * pyval)) :
  Py.lookup k (Py.set_item k v d) = Some v.
Proof.
  induction d as [|[k' v'] d IH]; simpl.
  - now rewrite String.eqb_refl.
  - destruct (String.eqb k k') eqn:E; simpl.
    + now rewrite String.eqb_refl.
    + now rewrite E.
Qed.

Lemma lookup_set_item_other (k k0 : string) (v : pyval)
    (d : list (string * pyval)) :
  k0 <> k -> Py.lookup k0 (Py.set_item k v d) = Py.lookup k0 d.
Proof.
  intros N. induction d as [|[k' v'] d IH]; simpl.
  - apply String.eqb_neq in N. now rewrite N.
  - destruct (String.eqb k k') eqn:E; simpl.
    + apply String.eqb_eq in E. subst k'.
      apply String.eqb_neq in N. now rewrite N.
    + destruct (String.eqb k0 k'); [reflexivity | exact IH].
Qed.

Lemma verify_true (requests_post : string -> string -> result response)
    (client_id : string) (token : pyval) :
  soundcloud_verify_oauth_token requests_post client_id token = Ok true ->
  exists t r,
    token = PyStr t /\ Str.strip t <> ""%string /\
    requests_post (VERIFY_AUTH_URL ++ "?client_id=" ++ client_id) t = Ok r /\
    status_code r = 200.
Proof.
  unfold soundcloud_verify_oauth_token. intros H.
  destruct token as [| | |t| |]; try discriminate.
  cbn [Py.as_str bind Py.truthy] in H.
  destruct (String.eqb (Str.strip t) "") eqn:E; cbn [negb] in H;
    [discriminate|].
  apply String.eqb_neq in E.
  destruct (requests_post _ t) as [r|e] eqn:R; cbn [bind try_except] in H.
  - destruct (status_code r =? 200) eqn:S; [|discriminate].
    apply Z.eqb_eq in S. now exists t, r.
  - destruct e; discriminate.
Qed.

Section AccountProperties.

Variable requests_get_page : string -> result page.
Variable requests_post : string -> string -> result response.
Variable re_finditer : string -> string -> list string.
Variable config_get_accounts : result pyval.
Variable config_set_accounts : pyval -> result unit.
Variable config_update : result unit.

Lemma login_failed_entry (account : pyval) (pool pool' : list pyval)
    (ok : bool) (account' : pyval) :
  login_failed account pool = Ok (ok, pool', account') ->
  ok = false /\ account' = account /\
  exists entry,
    pool' = (pool ++ [entry])%list /\
    field "uuid" entry = field "uuid" account /\
    field "service" entry = Some (PyStr "soundcloud") /\
    field "status" entry = Some (PyStr "error") /\
    field "account_type" entry = Some (PyStr "N/A") /\
    field "bitrate" entry = Some (PyStr "N/A").
Proof.
  unfold login_failed. intros H. repeat bind_ok H.
  injection H as <- <- <-. split; [reflexivity|]. split; [reflexivity|].
  eexists. split; [reflexivity|].
  split; [|repeat split].
  destruct account; try discriminate. cbn in *.
  match goal with H : match ?x with _ => _ end = Ok _ |- _ =>
    destruct x; [now injection H as <- | discriminate] end.
Qed.

Lemma login_failed_returns (account uuid : pyval) (l : list (string * pyval))
    (pool : list pyval) :
  field "uuid" account = Some uuid ->
  field "login" account = Some (PyDict l) ->
  exists entry,
    login_failed account pool = Ok (false, (pool ++ [entry])%list, account).
Proof.
  intros Hu Hl. unfold login_failed.
  rewrite (getitem_field _ _ _ Hu), (getitem_field _ _ _ Hl).
  cbn [bind Py.get]. now eexists.
Qed.

(** Without an alias at or after [position], the loop leaves the account
    as it is. *)
Lemma login_update_entries_apart (alias : option nat) (account : pyval)
    (account_type bitrate : string) (position : nat) (entries : list pyval) :
  (forall i, alias = Some i -> (i < position)%nat) ->
  fst (login_update_entries alias account account_type bitrate position entries)
  = account.
Proof.
  revert position. induction entries as [|entry rest IH]; intros position Hi;
    [reflexivity|].
  cbn [login_update_entries].
  assert (Hsame : match alias with
                  | Some i => Nat.eqb i position
                  | None => false
                  end = false).
  { destruct alias as [i|]; [|reflexivity].
    apply Nat.eqb_neq. specialize (Hi i eq_refl). lia. }
  rewrite Hsame. cbv zeta.
  match goal with |- fst (match ?m with _ => _ end) = _ => destruct m end;
    [|reflexivity].
  specialize (IH (S position)).
  destruct (login_update_entries alias account account_type bitrate
              (S position) rest) as [account' r].
  cbn [fst] in *. apply IH. intros i Ha. specialize (Hi i Ha). lia.
Qed.

(** The loop leaves the account as it is, or as the account written into
    once. *)
Lemma login_update_entries_account (alias : option nat) (account : pyval)
    (account_type bitrate : string) (position : nat) (entries : list pyval) :
  fst (login_update_entries alias account account_type bitrate position entries)
  = account \/
  fst (login_update_entries alias account account_type bitrate position entries)
  = written account account_type bitrate.
Proof.
  revert position. induction entries as [|entry rest IH]; intros position;
    [now left|].
  cbn [login_update_entries].
  destruct (match alias with
            | Some i => Nat.eqb i position
            | None => false
            end) eqn:Hsame; cbv zeta.
  - assert (Hi : forall i, alias = Some i -> (i < S position)%nat).
    { intros i ->. apply Nat.eqb_eq in Hsame. lia. }
    destruct (Py.getitem account "uuid") as [uuid|e]; cbn [bind];
      [|now left].
    destruct (Py.eq uuid uuid); cbn [bind].
    + destruct (Py.getitem account "login") as [login|e] eqn:El; cbn [bind];
        [|now left].
      destruct account as [| | | | |d]; try discriminate El.
      cbn [update fold_left fst snd].
      pose proof (login_update_entries_apart alias
                    (PyDict
                       (Py.set_item "bitrate" (PyStr bitrate)
                          (Py.set_item "account_type" (PyStr account_type)
                             (Py.set_item "login" login d))))
                    account_type bitrate (S position) rest Hi) as Hrest.
      destruct (login_update_entries alias _ account_type bitrate
                  (S position) rest) as [account' r].
      cbn [fst] in *. right. rewrite Hrest. unfold written.
      cbn [Py.getitem] in El.
      destruct (Py.lookup "login" d); [now injection El as -> | discriminate].
    + pose proof (login_update_entries_apart alias account account_type
                    bitrate (S position) rest Hi) as Hrest.
      destruct (login_update_entries alias account account_type bitrate
                  (S position) rest) as [account' r].
      cbn [fst] in *. now left.
  - match goal with |- fst (match ?m with _ => _ end) = _ \/ _ => destruct m end;
      [|now left].
    specialize (IH (S position)).
    destruct (login_update_entries alias account account_type bitrate
                (S position) rest) as [account' r].
    exact IH.
Qed.

Lemma written_fields (account : pyval) (account_type bitrate : string) :
  field "uuid" (written account account_type bitrate) = field "uuid" account /\
  field "login" (written account account_type bitrate) = field "login" account.
Proof.
  unfold written. destruct account as [| | | | |d]; try (split; reflexivity).
  destruct (Py.lookup "login" d) as [login|] eqn:El; [|split; reflexivity].
  cbn [field]. split.
  - rewrite !lookup_set_item_other by discriminate. reflexivity.
  - rewrite !lookup_set_item_other by discriminate.
    now rewrite lookup_set_item_same.
Qed.

(** What saving leaves behind: the account, written into at most once, and
    on success the entry built from it. *)
Lemma login_save_entry (alias : option nat) (account : pyval)
    (client_id account_type bitrate : string) :
  let saved :=
    login_save config_get_accounts config_set_accounts config_update
      alias account client_id account_type bitrate in
  (fst saved = account \/ fst saved = written account account_type bitrate) /\
  forall entry,
    snd saved = Ok entry ->
    exists uuid login,
      field "uuid" (fst saved) = Some uuid /\
      field "login" (fst saved) = Some login /\
      entry = PyDict [("uuid", uuid);
                      ("username", PyStr client_id);
                      ("service", PyStr "soundcloud");
                      ("status", PyStr "active");
                      ("account_type", PyStr account_type);
                      ("bitrate", PyStr bitrate);
                      ("login", login)].
Proof.
  cbv zeta. unfold login_save.
  destruct config_get_accounts as [accounts|e]; [|split; [now left|discriminate]].
  assert (Built : forall account' cfg_copy entry,
             (cfg_copy <- cfg_copy ;;
              _ <- config_set_accounts cfg_copy ;;
              _ <- config_update ;;
              uuid <- Py.getitem account' "uuid" ;;
              login <- Py.getitem account' "login" ;;
              Ok (PyDict [("uuid", uuid);
                          ("username", PyStr client_id);
                          ("service", PyStr "soundcloud");
                          ("status", PyStr "active");
                          ("account_type", PyStr account_type);
                          ("bitrate", PyStr bitrate);
                          ("login", login)])) = Ok entry ->
             exists uuid login,
               field "uuid" account' = Some uuid /\
               field "login" account' = Some login /\
               entry = PyDict [("uuid", uuid);
                               ("username", PyStr client_id);
                               ("service", PyStr "soundcloud");
                               ("status", PyStr "active");
                               ("account_type", PyStr account_type);
                               ("bitrate", PyStr bitrate);
                               ("login", login)]).
  { intros account' cfg_copy entry H. repeat bind_ok H. injection H as <-.
    match goal with
    | Hu : Py.getitem account' "uuid" = Ok ?u,
      Hl : Py.getitem account' "login" = Ok ?l |- _ =>
        exists u, l; split; [exact (getitem_ok_field _ _ _ Hu)|];
        split; [exact (getitem_ok_field _ _ _ Hl) | reflexivity]
    end. }
  destruct accounts as [| | | |entries|[|kv d]]; cbn [fst snd];
    try (split; [now left | intros entry H; exact (Built _ _ _ H)]).
  pose proof (login_update_entries_account alias account account_type bitrate
                0 entries) as Hacc.
  destruct (login_update_entries alias account account_type bitrate 0 entries)
    as [account' r].
  cbn [fst snd] in *. split; [exact Hacc|].
  intros entry H. exact (Built _ _ _ H).
Qed.

Lemma login_update_account_fields (account account' : pyval)
    (client_id app_version : string) :
  login_update_account account client_id app_version = Ok account' ->
  field "uuid" account' = field "uuid" account /\
  exists l,
    field "login" account = Some (PyDict l) /\
    field "login" account'
    = Some (PyDict (Py.set_item "app_locale" (PyStr "en")
                      (Py.set_item "app_version" (PyStr app_version)
                         (Py.set_item "client_id" (PyStr client_id) l)))).
Proof.
  unfold login_update_account. intros H.
  bind_ok H. bind_ok H.
  destruct account as [| | | | |d]; try discriminate.
  injection H as <-.
  apply getitem_ok_field in E.
  destruct a as [| | | | |l]; try discriminate.
  injection E0 as <-. split.
  - cbn [field]. now apply lookup_set_item_other.
  - exists l. split; [exact E|]. cbn [field]. apply lookup_set_item_same.
Qed.

Lemma login_checks_handled (account : pyval)
    (client_id app_version account_type bitrate : string) :
  login_checks requests_get_page requests_post re_finditer account
  = Ok (Some (client_id, app_version, account_type, bitrate)) ->
  login_scrape requests_get_page re_finditer = Ok (client_id, app_version) /\
  ((field "uuid" account = Some (PyStr "public_soundcloud") /\
    account_type = "public"%string /\ bitrate = "128k"%string) \/
   (field "uuid" account = Some (PyStr "premium_soundcloud") /\
    account_type = "premium"%string /\ bitrate = "256k"%string /\
    exists login token r,
      field "login" account = Some login /\
      field "oauth_token" login = Some (PyStr token) /\
      Str.strip token <> ""%string /\
      requests_post (VERIFY_AUTH_URL ++ "?client_id=" ++ client_id) token
      = Ok r /\
      status_code r = 200)).
Proof.
  unfold login_checks. intros H. bind_ok H. rename a into uuid.
  pose proof (getitem_ok_field _ _ _ E) as Hu.
  destruct (Py.eq uuid (PyStr "public_soundcloud")) eqn:Epub;
    destruct (Py.eq uuid (PyStr "premium_soundcloud")) eqn:Eprem;
    cbn [orb negb] in H; try discriminate.
  - apply eq_pystr in Epub. apply eq_pystr in Eprem. congruence.
  - apply eq_pystr in Epub. subst uuid.
    bind_ok H. destruct a as [cid ver]. bind_ok H. destruct a as [aty br].
    injection H as -> -> -> ->. split; [reflexivity|]. left.
    unfold login_account_type in E1. rewrite E in E1. cbn [bind] in E1.
    change (Py.eq (PyStr "public_soundcloud") (PyStr "premium_soundcloud"))
      with false in E1.
    cbv iota in E1.
    injection E1 as <- <-. now repeat split.
  - apply eq_pystr in Eprem. subst uuid.
    bind_ok H. destruct a as [cid ver]. bind_ok H. destruct a as [aty br].
    injection H as -> -> -> ->. split; [reflexivity|]. right.
    unfold login_account_type in E1. rewrite E in E1. cbn [bind] in E1.
    change (Py.eq (PyStr "premium_soundcloud") (PyStr "premium_soundcloud"))
      with true in E1.
    cbv iota in E1.
    bind_ok E1. rename a into login. bind_ok E1. rename a into token.
    destruct (Py.truthy token) eqn:T; cbn [negb] in E1; [|discriminate].
    bind_ok E1. destruct a; cbn [negb] in E1; [|discriminate].
    injection E1 as <- <-.
    destruct (verify_true _ _ _ E4) as (t & r & -> & Hs & Hr & Hc).
    split; [exact Hu|]. split; [reflexivity|]. split; [reflexivity|].
    exists login, t, r. split; [exact (getitem_ok_field _ _ _ E2)|].
    split; [|now repeat split].
    destruct login as [| | | | |l]; try discriminate.
    cbn [Py.get] in E3. cbn [field].
    destruct (Py.lookup "oauth_token" l); [now injection E3 as -> | discriminate].
Qed.

(** X25: A login that returns has appended at most one entry to the
    pool: on success an "active" entry with the account's [uuid] and
    [login]; on failure either nothing (an account type that is not
    handled) or an "error" entry with account type and bitrate "N/A". *)
Theorem login_pool_effect (account : pyval) (alias : option nat)
    (pool pool' : list pyval) (ok : bool) (account' : pyval) :
  soundcloud_login_user requests_get_page requests_post re_finditer
    config_get_accounts config_set_accounts config_update account alias pool
  = Ok (ok, pool', account') ->
  (ok = true ->
   exists entry,
     pool' = (pool ++ [entry])%list /\
     field "uuid" entry = field "uuid" account' /\
     field "login" entry = field "login" account' /\
     field "service" entry = Some (PyStr "soundcloud") /\
     field "status" entry = Some (PyStr "active")) /\
  (ok = false ->
   (pool' = pool /\ account' = account) \/
   exists entry,
     pool' = (pool ++ [entry])%list /\
     field "uuid" entry = field "uuid" account' /\
     field "service" entry = Some (PyStr "soundcloud") /\
     field "status" entry = Some (PyStr "error") /\
     field "account_type" entry = Some (PyStr "N/A") /\
     field "bitrate" entry = Some (PyStr "N/A")).
Proof.
  unfold soundcloud_login_user. intros H.
  assert (Failed : forall acc,
             login_failed acc pool = Ok (ok, pool', account') ->
             ok = false /\
             exists entry,
               pool' = (pool ++ [entry])%list /\
               field "uuid" entry = field "uuid" account' /\
               field "service" entry = Some (PyStr "soundcloud") /\
               field "status" entry = Some (PyStr "error") /\
               field "account_type" entry = Some (PyStr "N/A") /\
               field "bitrate" entry = Some (PyStr "N/A")).
  { intros acc Hf.
    destruct (login_failed_entry _ _ _ _ _ Hf) as (-> & -> & entry & He).
    split; [reflexivity|]. now exists entry. }
  destruct (login_checks _ _ _ account) as [[[[[cid ver] aty] br]|]|e].
  - destruct (login_update_account account cid ver) as [acc1|e1].
    + destruct (login_save_entry alias acc1 cid aty br) as [_ Hentry].
      cbv zeta in Hentry.
      destruct (login_save _ _ _ alias acc1 cid aty br) as [acc2 [entry|e2]].
      * injection H as <- <- <-.
        destruct (Hentry entry eq_refl) as (u & l & Hu & Hl & ->).
        cbn [fst] in Hu, Hl.
        split; [|discriminate]. intros _. eexists. split; [reflexivity|].
        rewrite Hu, Hl. now repeat split.
      * destruct (Failed _ H) as [-> He].
        split; [discriminate | intros _; now right].
    + destruct (Failed _ H) as [-> He].
      split; [discriminate | intros _; now right].
  - injection H as <- <- <-. split; [discriminate | intros _; now left].
  - destruct (Failed _ H) as [-> He].
    split; [discriminate | intros _; now right].
Qed.

(** X26: A successful login is of a public account, entered as
    "public" at "128k", or of a premium account, entered as "premium" at
    "256k", and then the account holds a non-blank OAuth token which the
    session endpoint has answered with 200 for the scraped client id. *)
Theorem login_active_entry (account : pyval) (alias : option nat)
    (pool pool' : list pyval) (account' : pyval) :
  soundcloud_login_user requests_get_page requests_post re_finditer
    config_get_accounts config_set_accounts config_update account alias pool
  = Ok (true, pool', account') ->
  exists entry client_id,
    pool' = (pool ++ [entry])%list /\
    field "username" entry = Some (PyStr client_id) /\
    ((field "uuid" account = Some (PyStr "public_soundcloud") /\
      field "account_type" entry = Some (PyStr "public") /\
      field "bitrate" entry = Some (PyStr "128k")) \/
     (field "uuid" account = Some (PyStr "premium_soundcloud") /\
      field "account_type" entry = Some (PyStr "premium") /\
      field "bitrate" entry = Some (PyStr "256k") /\
      exists login token r,
        field "login" account = Some login /\
        field "oauth_token" login = Some (PyStr token) /\
        Str.strip token <> ""%string /\
        requests_post (VERIFY_AUTH_URL ++ "?client_id=" ++ client_id) token
        = Ok r /\
        status_code r = 200)).
Proof.
  unfold soundcloud_login_user. intros H.
  assert (Failed : forall acc,
             login_failed acc pool <> Ok (true, pool', account')).
  { intros acc Hf. now destruct (login_failed_entry _ _ _ _ _ Hf). }
  destruct (login_checks _ _ _ account) as [[[[[cid ver] aty] br]|]|e] eqn:Ec;
    [| discriminate | now apply Failed in H].
  destruct (login_update_account account cid ver) as [acc1|e1];
    [| now apply Failed in H].
  destruct (login_save_entry alias acc1 cid aty br) as [_ Hentry].
  cbv zeta in Hentry.
  destruct (login_save _ _ _ alias acc1 cid aty br) as [acc2 [entry|e2]];
    [| now apply Failed in H].
  injection H as <- <-.
  destruct (Hentry entry eq_refl) as (u & l & Hu & Hl & ->).
  destruct (login_checks_handled _ _ _ _ _ Ec) as [_ Hkind].
  exists (PyDict [("uuid", u); ("username", PyStr cid);
                  ("service", PyStr "soundcloud"); ("status", PyStr "active");
                  ("account_type", PyStr aty); ("bitrate", PyStr br);
                  ("login", l)]), cid.
  split; [reflexivity|]. split; [reflexivity|].
  destruct Hkind as [(Hk & -> & ->) | (Hk & -> & -> & Hv)].
  - left. now repeat split.
  - right. now repeat split.
Qed.

(** X27: An account whose [uuid] is neither of the two SoundCloud
    account types is refused at once: the login returns [False] and leaves
    pool and account as they are, whatever the site, the endpoint and the
    configuration would answer. *)
Theorem login_unhandled_uuid (account uuid : pyval) (alias : option nat)
    (pool : list pyval) :
  field "uuid" account = Some uuid ->
  uuid <> PyStr "public_soundcloud" -> uuid <> PyStr "premium_soundcloud" ->
  soundcloud_login_user requests_get_page requests_post re_finditer
    config_get_accounts config_set_accounts config_update account alias pool
  = Ok (false, pool, account).
Proof.
  intros Hu N1 N2. unfold soundcloud_login_user, login_checks.
  rewrite (getitem_field _ _ _ Hu). cbn [bind].
  now rewrite (eq_pystr_false _ _ N1), (eq_pystr_false _ _ N2).
Qed.

(** X28: For an account with a [uuid] and a [login] dict the login
    always returns and raises nothing, keeping the account's [uuid]; for an
    account without [uuid] the handler itself raises, so the login raises
    KeyError or TypeError. *)
Theorem login_returns_or_reraises (account : pyval) (alias : option nat)
    (pool : list pyval) :
  (forall uuid l,
      field "uuid" account = Some uuid ->
      field "login" account = Some (PyDict l) ->
      exists ok pool' account',
        soundcloud_login_user requests_get_page requests_post re_finditer
          config_get_accounts config_set_accounts config_update
          account alias pool
        = Ok (ok, pool', account') /\
        field "uuid" account' = Some uuid) /\
  (field "uuid" account = None ->
   exists e,
     soundcloud_login_user requests_get_page requests_post re_finditer
       config_get_accounts config_set_accounts config_update
       account alias pool
     = Raise e /\ (e = KeyError \/ e = TypeError)).
Proof.
  split.
  - intros uuid l Hu Hl. unfold soundcloud_login_user.
    destruct (login_failed_returns account uuid l pool Hu Hl) as [entry Hf].
    destruct (login_checks _ _ _ account) as [[[[[cid ver] aty] br]|]|e].
    + destruct (login_update_account account cid ver) as [acc1|e1] eqn:Eu.
      * destruct (login_update_account_fields _ _ _ _ Eu)
          as (Hu1 & l0 & Hl0 & Hl1).
        rewrite Hu in Hu1.
        destruct (login_save_entry alias acc1 cid aty br) as [Hacc _].
        cbv zeta in Hacc.
        destruct (login_save _ _ _ alias acc1 cid aty br)
          as [acc2 [entry1|e2]]; cbn [fst] in Hacc.
        -- eexists _, _, _. split; [reflexivity|].
           destruct Hacc as [-> | ->]; [exact Hu1|].
           now rewrite (proj1 (written_fields _ _ _)).
        -- assert (Hu2 : field "uuid" acc2 = Some uuid).
           { destruct Hacc as [-> | ->]; [exact Hu1|].
             now rewrite (proj1 (written_fields _ _ _)). }
           assert (Hl2 : exists l2, field "login" acc2 = Some (PyDict l2)).
           { destruct Hacc as [-> | ->]; [eexists; exact Hl1|].
             rewrite (proj2 (written_fields _ _ _)). eexists. exact Hl1. }
           destruct Hl2 as [l2 Hl2].
           destruct (login_failed_returns acc2 uuid _ pool Hu2 Hl2)
             as [entry1 Hf1].
           rewrite Hf1. now eexists _, _, _.
      * rewrite Hf. now eexists _, _, _.
    + now eexists _, _, _.
    + rewrite Hf. now eexists _, _, _.
  - intros Hu.
    assert (G : exists e, Py.getitem account "uuid" = Raise e /\
                          (e = KeyError \/ e = TypeError)).
    { destruct account as [| | | | |d]; simpl in *;
        try (eexists; split; [reflexivity | now right]).
      rewrite Hu. eexists; split; [reflexivity | now left]. }
    destruct G as (e & G & He). exists e. split; [|exact He].
    unfold soundcloud_login_user, login_checks, login_failed.
    now rewrite G.
Qed.

Lemma scrapes_agree (p : string * string) :
  login_scrape requests_get_page re_finditer = Ok p <->
  add_account_scrape requests_get_page re_finditer = Ok p.
Proof.
  unfold login_scrape, add_account_scrape, SC_SITE_URL.
  destruct (requests_get_page "https://soundcloud.com") as [r|e];
    cbn [bind]; [|split; discriminate].
  destruct (page_raise_for_status r); cbn [bind]; [|split; discriminate].
  destruct (last_match _) as [u|e]; cbn [bind]; [|split; discriminate].
  destruct (re_finditer VERSION_PATTERN (text r)) as [|v vs]; cbn [bind];
    [split; discriminate|].
  destruct (requests_get_page u) as [r2|e]; cbn [bind]; [|split; discriminate].
  destruct (page_raise_for_status r2); cbn [bind]; [|split; discriminate].
  destruct (re_finditer CLIENT_ID_PATTERN (text r2)); cbn [bind];
    [split; discriminate | reflexivity].
Qed.

(** X29: Adding an account leaves the pool as it is, or appends the
    premium entry built from the scraped client id and app version and the
    token as given; the latter only after the configuration has taken the
    new user at the end of its accounts and has been saved. *)
Theorem add_account_effect (token : pyval) (pool : list pyval) :
  let pool' :=
    soundcloud_add_account requests_get_page re_finditer config_get_accounts
      config_set_accounts config_update token pool in
  pool' = pool \/
  exists client_id app_version entries,
    add_account_scrape requests_get_page re_finditer
    = Ok (client_id, app_version) /\
    config_get_accounts = Ok (PyList entries) /\
    config_set_accounts
      (PyList (entries ++ [new_user client_id app_version token])) = Ok tt /\
    config_update = Ok tt /\
    pool' = (pool ++ [premium_entry client_id app_version token])%list.
Proof.
  cbv zeta. unfold soundcloud_add_account, add_account_try.
  destruct (add_account_scrape _ _) as [[cid ver]|e]; cbn [bind];
    [|now left].
  destruct config_get_accounts as [accounts|e]; cbn [bind]; [|now left].
  destruct accounts as [| | | |entries|]; cbn [bind]; try now left.
  destruct (config_set_accounts _) as [[]|e] eqn:Es; cbn [bind]; [|now left].
  destruct config_update as [[]|e]; cbn [bind]; [|now left].
  right. now exists cid, ver, entries.
Qed.

(** X30: The two functions agree: a successful login of the user that
    adding an account stores in the configuration, against the same site,
    appends to the pool the very entry that adding the account appends, and
    leaves the stored user as it is, be it the configuration's own entry or
    a record apart. *)
Theorem login_confirms_added_account (client_id app_version : string)
    (token : pyval) (alias : option nat) (pool pool' : list pyval)
    (account' : pyval) :
  add_account_scrape requests_get_page re_finditer
  = Ok (client_id, app_version) ->
  soundcloud_login_user requests_get_page requests_post re_finditer
    config_get_accounts config_set_accounts config_update
    (new_user client_id app_version token) alias pool
  = Ok (true, pool', account') ->
  pool' = (pool ++ [premium_entry client_id app_version token])%list /\
  account' = new_user client_id app_version token.
Proof.
  intros Hs H. apply scrapes_agree in Hs.
  unfold soundcloud_login_user in H.
  assert (Failed : forall acc,
             login_failed acc pool <> Ok (true, pool', account')).
  { intros acc Hf. now destruct (login_failed_entry _ _ _ _ _ Hf). }
  destruct (login_checks _ _ _ _) as [[[[[cid ver] aty] br]|]|e] eqn:Ec;
    [| discriminate | now apply Failed in H].
  destruct (login_checks_handled _ _ _ _ _ Ec) as [Hs' Hkind].
  rewrite Hs in Hs'. injection Hs' as <- <-.
  destruct Hkind as [(Hk & _) | (_ & -> & -> & _)]; [discriminate Hk|].
  cbn [login_update_account new_user premium_login Py.getitem Py.lookup
         String.eqb Ascii.eqb Bool.eqb bind update fold_left fst snd
         Py.set_item] in H.
  destruct (login_save_entry alias
              (new_user client_id app_version token) client_id
              "premium" "256k") as [Hacc Hentry].
  cbv zeta in Hacc, Hentry.
  unfold new_user, premium_login in Hacc, Hentry.
  destruct (login_save _ _ _ alias _ client_id "premium" "256k")
    as [acc2 [entry|e2]]; [| now apply Failed in H].
  injection H as <- <-. cbn [fst snd] in Hacc, Hentry.
  assert (Hsame : acc2 = new_user client_id app_version token)
    by (destruct Hacc as [-> | ->]; reflexivity).
  subst acc2.
  destruct (Hentry entry eq_refl) as (u & l & Hu & Hl & ->).
  cbn in Hu, Hl. injection Hu as <-. injection Hl as <-.
  split; reflexivity.
Qed.

End AccountProperties.

(** ** Accounts: the worked examples *)

(** The public account logged in as the configuration's own first entry
    comes back with the account type and the bitrate written into it; as a
    record apart it comes back with its login updated and nothing more. *)
Example login_writes_into_configured_account :
  let account := stored_account "public_soundcloud" [] in
  let login :=
    PyDict [("client_id", PyStr "c1"); ("app_version", PyStr "1700000000");
            ("app_locale", PyStr "en")] in
  (exists pool',
      soundcloud_login_user site session_endpoint site_matches
        stored_accounts accepts (Ok tt) account (Some 0%nat) []
      = Ok (true, pool',
            PyDict [("uuid", PyStr "public_soundcloud");
                    ("service", PyStr "soundcloud");
                    ("active", PyBool true);
                    ("login", login);
                    ("account_type", PyStr "public");
                    ("bitrate", PyStr "128k")])) /\
  (exists pool',
      soundcloud_login_user site session_endpoint site_matches
        stored_accounts accepts (Ok tt) account None []
      = Ok (true, pool',
            PyDict [("uuid", PyStr "public_soundcloud");
                    ("service", PyStr "soundcloud");
                    ("active", PyBool true);
                    ("login", login)])).
Proof. split; eexists; reflexivity. Qed.

Lemma login_pool_effect_witness :
  let account :=
    stored_account "premium_soundcloud" [("oauth_token", PyStr "secret")] in
  exists entry account',
    sample_login account [] = Ok (true, [entry], account') /\
    field "uuid" entry = field "uuid" account' /\
    field "login" entry = field "login" account' /\
    field "service" entry = Some (PyStr "soundcloud") /\
    field "status" entry = Some (PyStr "active").
Proof.
  intros account.
  destruct (login_pool_effect site session_endpoint site_matches
              stored_accounts accepts (Ok tt) account None [] _ true _ eq_refl)
    as [Hactive _].
  destruct (Hactive eq_refl) as (entry & Hpool & Hentry).
  injection Hpool as <-.
  eexists _, _. split; [reflexivity | exact Hentry].
Defined.

Lemma login_active_entry_witness :
  let account :=
    stored_account "premium_soundcloud" [("oauth_token", PyStr "secret")] in
  exists entry pool' account',
    sample_login account [] = Ok (true, pool', account') /\
    pool' = [entry] /\
    field "account_type" entry = Some (PyStr "premium") /\
    field "bitrate" entry = Some (PyStr "256k").
Proof.
  intros account.
  destruct (login_active_entry site session_endpoint site_matches
              stored_accounts accepts (Ok tt) account None [] _ _ eq_refl)
    as (entry & cid & Hpool & _ & [(Hpublic & _) | (_ & Htype & Hrate & _)]).
  - discriminate Hpublic.
  - exists entry. eexists _, _. split; [reflexivity|].
    split; [exact Hpool|]. split; [exact Htype | exact Hrate].
Defined.

Lemma login_unhandled_uuid_witness :
  let account := stored_account "deezer" [] in
  sample_login account [account] = Ok (false, [account], account).
Proof.
  intros account.
  apply (login_unhandled_uuid site session_endpoint site_matches
           stored_accounts accepts (Ok tt) account (PyStr "deezer") None
           [account]);
    [reflexivity | discriminate | discriminate].
Defined.

Lemma login_returns_or_reraises_witness :
  (exists ok pool' account',
      sample_login
        (stored_account "premium_soundcloud" [("oauth_token", PyStr "expired")])
        [] = Ok (ok, pool', account') /\
      field "uuid" account' = Some (PyStr "premium_soundcloud")) /\
  (exists e,
      sample_login (PyDict [("login", PyDict [])]) [] = Raise e /\
      (e = KeyError \/ e = TypeError)).
Proof.
  split.
  - destruct (login_returns_or_reraises site session_endpoint site_matches
                stored_accounts accepts (Ok tt)
                (stored_account "premium_soundcloud"
                   [("oauth_token", PyStr "expired")]) None [])
      as [Hreturns _].
    apply (Hreturns (PyStr "premium_soundcloud")
             [("oauth_token", PyStr "expired")]); reflexivity.
  - destruct (login_returns_or_reraises site session_endpoint site_matches
                stored_accounts accepts (Ok tt)
                (PyDict [("login", PyDict [])]) None []) as [_ Hraises].
    apply Hraises. reflexivity.
Defined.

Lemma add_account_effect_witness :
  soundcloud_add_account site site_matches stored_accounts accepts (Ok tt)
    (PyStr "secret") []
  = [premium_entry "c1" "1700000000" (PyStr "secret")] /\
  soundcloud_add_account site site_matches (Ok PyNone) accepts (Ok tt)
    (PyStr "secret") []
  = [].
Proof.
  split.
  - destruct (add_account_effect site site_matches stored_accounts accepts
                (Ok tt) (PyStr "secret") [])
      as [Hsame | (cid & ver & entries & Hscrape & _ & _ & _ & Hpool)].
    + discriminate Hsame.
    + injection Hscrape as <- <-. exact Hpool.
  - destruct (add_account_effect site site_matches (Ok PyNone) accepts
                (Ok tt) (PyStr "secret") [])
      as [Hsame | (cid & ver & entries & _ & Hget & _)].
    + exact Hsame.
    + discriminate Hget.
Defined.

(** The added user logged in as the second entry of the configuration that
    adding it has written. *)
Lemma login_confirms_added_account_witness :
  let added := new_user "c1" "1700000000" (PyStr "secret") in
  let configured :=
    Ok (PyList [stored_account "public_soundcloud" []; added]) in
  exists pool' account',
    soundcloud_login_user site session_endpoint site_matches
      configured accepts (Ok tt) added (Some 1%nat) []
    = Ok (true, pool', account') /\
    pool' = [premium_entry "c1" "1700000000" (PyStr "secret")] /\
    account' = added.
Proof.
  intros added configured. eexists _, _. split; [reflexivity|].
  apply (login_confirms_added_account site session_endpoint site_matches
           configured accepts (Ok tt) "c1" "1700000000" (PyStr "secret")
           (Some 1%nat) []);
    reflexivity.
Defined.
